(** * Hosting control panel: domains, files, users and monitor routers

    A shallow embedding of the four Express routers of the repository
    (routes/domains.js, routes/files.js, routes/users.js,
    routes/monitor.js) over the tables of database/schema.sql, followed by
    the properties of the quota ledger, the domain state machine, the file
    transfer handler and the analytics aggregator.

    Every handler is a function from the world (tables and upload
    directory) and the request to a reply and a new world.  What the
    handler cannot decide itself arrives as an argument: the identifiers
    the store generates, the clock, the value of [Math.random()], the
    validation errors the express-validator chain attached to the request,
    and the way the store client hands 64-bit and numeric columns to
    JavaScript. *)

From Stdlib Require Import ZArith QArith Qround Qabs Lqa String Ascii List Lia.
From Stdlib Require Import DecimalString DecimalZ.
From stdpp Require Import base decidable option list strings sorting.

Local Open Scope string_scope.
Local Open Scope Z_scope.

(** ** JavaScript values that cross the store client *)

Module Js.

(** A column value as the handler sees it: a Number or a String.  The
    numbers of this program are byte counts and row counts, so Numbers
    are integers here. *)
Inductive value : Type :=
| Num (z : Z)
| Str (s : string).

Definition string_of_Z (z : Z) : string :=
  NilZero.string_of_int (Z.to_int z).

(** [ToNumber] on a string holding a decimal integer; [None] is NaN. *)
Definition Z_of_string (s : string) : option Z :=
  option_map Z.of_int (NilZero.int_of_string s).

Definition ToNumber (v : value) : option Z :=
  match v with
  | Num z => Some z
  | Str s => Z_of_string s
  end.

Definition ToString (v : value) : string :=
  match v with
  | Num z => string_of_Z z
  | Str s => s
  end.

(** [parseInt(v)]: the argument is first converted to a string. *)
Definition parseInt (v : value) : option Z := Z_of_string (ToString v).

(** [a + b]: concatenation as soon as one operand is a string. *)
Definition add (a b : value) : value :=
  match a, b with
  | Num x, Num y => Num (x + y)
  | _, _ => Str (ToString a ++ ToString b)
  end.

(** [a > b] and [a >= b]: by code units when both operands are
    strings, numerically otherwise; a comparison with NaN is false. *)
Definition gt (a b : value) : bool :=
  match a, b with
  | Str x, Str y => String.ltb y x
  | _, _ =>
      match ToNumber a, ToNumber b with
      | Some x, Some y => x >? y
      | _, _ => false
      end
  end.

Definition ge (a b : value) : bool :=
  match a, b with
  | Str x, Str y => String.leb y x
  | _, _ =>
      match ToNumber a, ToNumber b with
      | Some x, Some y => x >=? y
      | _, _ => false
      end
  end.

(** A field of a JSON or form body. *)
Inductive body : Type :=
| BBool (b : bool)
| BNum (z : Z)
| BStr (s : string).

Definition truthy (v : body) : bool :=
  match v with
  | BBool b => b
  | BNum z => negb (z =? 0)%Z
  | BStr s => negb (String.eqb s "")
  end.

Definition text_of_body (v : body) : string :=
  match v with
  | BBool true => "true"
  | BBool false => "false"
  | BNum z => string_of_Z z
  | BStr s => s
  end.

(** [Math.round]: the nearest integer, a tie going up.  The quotient is
    taken exactly; the rounding error of a double is not modelled. *)
Definition Math_round (q : Q) : Z := Qfloor (q + (1 # 2)).

End Js.

(** ** The store client

    [query] comes from config/database, which wraps node-postgres.  The
    client's type parsers decide whether a BIGINT (int8) or a NUMERIC
    column reaches the handler as a Number or as a String; without a
    parser of its own the client returns both as strings, and INTEGER
    (int4) as a number. *)

Inductive Decoding : Type := AsString | AsNumber.

Record TypeParsers : Type := {
  int8 : Decoding;
  numeric : Decoding
}.

Definition pg_default : TypeParsers := {| int8 := AsString; numeric := AsString |}.
Definition pg_numbers : TypeParsers := {| int8 := AsNumber; numeric := AsNumber |}.

Definition decode (d : Decoding) (z : Z) : Js.value :=
  match d with
  | AsString => Js.Str (Js.string_of_Z z)
  | AsNumber => Js.Num z
  end.

(** ** Tables of database/schema.sql

    A table is the list of its rows, oldest first.  The strings in the
    identifier columns stand for the UUIDs of the store (a request
    parameter that is not a UUID at all makes the query fail and is not
    modelled), timestamps are seconds.  Columns no handler below reads or
    writes are left out. *)

Module users.
Record row : Type := {
  id : string;
  email : string;
  first_name : option string;
  last_name : option string;
  plan_type : string;
  storage_quota : Z;
  domain_quota : Z
}.
End users.

Record DnsRecord : Type := { name : string; value : string; ttl : Z }.
Record DnsRecords : Type := { cname : DnsRecord; verification : DnsRecord }.

Module domains.
Record row : Type := {
  id : string;
  user_id : string;
  domain_name : string;
  status : string;
  ssl_status : string;
  dns_records : option DnsRecords;
  verification_token : string;
  auto_renew : option bool;
  updated_at : Z;
  last_verified : option Z
}.
End domains.

Module files.
Record row : Type := {
  id : string;
  user_id : string;
  original_name : string;
  stored_name : string;
  file_path : string;
  file_size : Z;
  mime_type : string;
  is_public : bool;
  download_count : Z
}.
End files.

Module analytics.
Record row : Type := {
  user_id : string;
  website_id : option string;
  domain_id : option string;
  event_type : string;
  event_data : string;
  referrer : option string;
  created_at : Z
}.
End analytics.

Record Store : Type := {
  t_users : list users.row;
  t_domains : list domains.row;
  t_files : list files.row;
  t_analytics : list analytics.row
}.

(** The world: the tables and the paths present under the upload
    directory. *)
Record World : Type := {
  db : Store;
  disk : list string
}.

Definition empty_world : World :=
  {| db := {| t_users := []; t_domains := []; t_files := []; t_analytics := [] |};
     disk := [] |}.

Definition with_users (us : list users.row) (w : World) : World :=
  {| db := {| t_users := us; t_domains := t_domains (db w);
              t_files := t_files (db w); t_analytics := t_analytics (db w) |};
     disk := disk w |}.

Definition with_domains (ds : list domains.row) (w : World) : World :=
  {| db := {| t_users := t_users (db w); t_domains := ds;
              t_files := t_files (db w); t_analytics := t_analytics (db w) |};
     disk := disk w |}.

Definition with_files (fs : list files.row) (w : World) : World :=
  {| db := {| t_users := t_users (db w); t_domains := t_domains (db w);
              t_files := fs; t_analytics := t_analytics (db w) |};
     disk := disk w |}.

Definition with_analytics (es : list analytics.row) (w : World) : World :=
  {| db := {| t_users := t_users (db w); t_domains := t_domains (db w);
              t_files := t_files (db w); t_analytics := es |};
     disk := disk w |}.

Definition with_disk (d : list string) (w : World) : World :=
  {| db := db w; disk := d |}.

(** *** The file system calls of routes/files.js *)

Module fs.
(** [fs.unlink]: fails (ENOENT) when the path is absent. *)
Definition unlink (path : string) (d : list string) : option (list string) :=
  if decide (path ∈ d) then Some (filter (λ p, p ≠ path) d) else None.

(** [fs.access]: succeeds exactly when the path is present. *)
Definition access (path : string) (d : list string) : bool :=
  bool_decide (path ∈ d).

(** What the disk storage engine does with the bytes of a part. *)
Definition write (path : string) (d : list string) : list string :=
  if decide (path ∈ d) then d else path :: d.
End fs.

(** ** Process environment and replies *)

Record Env : Type := {
  parsers : TypeParsers;
  RENDER_EXTERNAL_HOSTNAME : option string;
  UPLOAD_DIR : option string;
  MAX_FILE_SIZE : option Z
}.

Definition default_env : Env :=
  {| parsers := pg_default; RENDER_EXTERNAL_HOSTNAME := None;
     UPLOAD_DIR := None; MAX_FILE_SIZE := None |}.

Definition dquote : string := String (ascii_of_nat 34) EmptyString.

(** [s || fallback] on an environment string: unset and empty are falsy. *)
Definition or_default (v : option string) (fallback : string) : string :=
  match v with
  | Some s => if decide (s = "") then fallback else s
  | None => fallback
  end.

(** What a handler sends: [res.status(c).json(body)], the
    [{ error: ... }] bodies, and the [{ errors: [...] }] body of a failed
    validation (status 400). *)
Inductive reply (A : Type) : Type :=
| Json (code : nat) (body : A)
| Error (code : nat) (error : string)
| Errors (errors : list string).

Arguments Json {A} code body.
Arguments Error {A} code error.
Arguments Errors {A} errors.

(** The error taxonomy, by status and message. *)
Definition StorageQuotaExceeded {A} : reply A := Error 400 "Storage quota exceeded".
Definition QuotaExceeded {A} : reply A := Error 400 "Domain quota exceeded".
Definition DuplicateDomain {A} : reply A := Error 400 "Domain already exists".
Definition AccessDenied {A} : reply A := Error 403 "Access denied".

Definition is_success {A} (r : reply A) : Prop :=
  ∃ code body, r = Json code body ∧ (code = 200 ∨ code = 201)%nat.

(** ** routes/files.js *)

Module FilesRouter.

(** The file object the upload middleware leaves in [req.file]. *)
Record MulterFile : Type := {
  originalname : string;
  filename : string;
  path : string;
  size : Z;
  mimetype : string
}.

(** A part of a multipart request, with the name the [filename]
    callback made for it from the clock and [Math.random()]. *)
Record Part : Type := {
  part_originalname : string;
  part_mimetype : string;
  part_size : N;
  part_filename : string
}.

Definition allowedTypes : list string :=
  [ "image/jpeg"; "image/png"; "image/gif"; "image/webp";
    "text/plain"; "text/html"; "text/css"; "text/javascript";
    "application/pdf"; "application/json"; "application/xml";
    "application/zip"; "application/x-zip-compressed" ].

Definition fileFilter (mimetype : string) : bool :=
  bool_decide (mimetype ∈ allowedTypes) || String.prefix "text/" mimetype.

(** [parseInt(process.env.MAX_FILE_SIZE) || 50 * 1024 * 1024] *)
Definition fileSize (env : Env) : Z :=
  match MAX_FILE_SIZE env with
  | Some n => if (n =? 0)%Z then 50 * 1024 * 1024 else n
  | None => 50 * 1024 * 1024
  end.

(** [path.join(process.env.UPLOAD_DIR || './uploads', req.user.userId)] *)
Definition destination (env : Env) (userId : string) : string :=
  or_default (UPLOAD_DIR env) "uploads" ++ "/" ++ userId.

(** [upload.single('file')]: the filter, the size limit, then the
    bytes on disk.  A refusal goes to the error middleware and the
    handler does not run. *)
Definition upload_single (env : Env) (userId : string) (p : Part) (w : World)
  : string + (MulterFile * World) :=
  if negb (fileFilter (part_mimetype p)) then inl "File type not allowed"
  else if Z.of_N (part_size p) >? fileSize env then inl "File too large"
  else
    let f := {| originalname := part_originalname p;
                filename := part_filename p;
                path := destination env userId ++ "/" ++ part_filename p;
                size := Z.of_N (part_size p);
                mimetype := part_mimetype p |} in
    inr (f, with_disk (fs.write (path f) (disk w)) w).

(** [SELECT COALESCE(SUM(file_size), 0) FROM files WHERE user_id = $1] *)
Definition sum_file_size (userId : string) (s : Store) : Z :=
  foldr Z.add 0 (files.file_size <$> filter (λ f, files.user_id f = userId) (t_files s)).

(** The row of the quota query, as the client decodes it. *)
Record QuotaRow : Type := { storage_quota : Js.value; current_storage : Js.value }.

Definition select_quota (env : Env) (userId : string) (s : Store) : list QuotaRow :=
  (λ u, {| storage_quota := decode (int8 (parsers env)) (users.storage_quota u);
           current_storage := decode (numeric (parsers env)) (sum_file_size userId s) |})
    <$> filter (λ u, users.id u = userId) (t_users s).

(** The body of a successful upload. *)
Record Uploaded : Type := {
  up_id : string;
  originalName : string;
  storedName : string;
  up_fileSize : Z;
  mimeType : string;
  isPublic : bool;
  downloadUrl : string;
  publicUrl : option string
}.

(** [INSERT INTO files ... RETURNING *]; the primary key refuses an
    identifier already in the table. *)
Definition insert_file (r : files.row) (s : Store) : option (list files.row) :=
  if decide (files.id r ∈ files.id <$> t_files s) then None
  else Some (t_files s ++ [r])%list.

(** The [catch] block of the upload handler: a best-effort unlink. *)
Definition upload_failed (f : MulterFile) (w : World) : reply Uploaded * World :=
  (Error 500 "Failed to upload file",
   with_disk (default (disk w) (fs.unlink (path f) (disk w))) w).

(** [POST /upload], after the middleware.  [newId] is the identifier
    the store generates for the row. *)
Definition post_upload (env : Env) (userId : string) (file : option MulterFile)
    (isPublic_field : option bool) (errors : list string) (newId : string)
    (w : World) : reply Uploaded * World :=
  match file with
  | None => (Error 400 "No file uploaded", w)
  | Some f =>
      match errors with
      | _ :: _ => (Errors errors, w)
      | [] =>
          let is_pub := default false isPublic_field in
          match select_quota env userId (db w) with
          | [] => upload_failed f w
          | user :: _ =>
              if Js.gt (Js.add (current_storage user) (Js.Num (size f)))
                       (storage_quota user)
              then
                match fs.unlink (path f) (disk w) with
                | Some d => (StorageQuotaExceeded, with_disk d w)
                | None => upload_failed f w
                end
              else
                let r := {| files.id := newId;
                            files.user_id := userId;
                            files.original_name := originalname f;
                            files.stored_name := filename f;
                            files.file_path := path f;
                            files.file_size := size f;
                            files.mime_type := mimetype f;
                            files.is_public := is_pub;
                            files.download_count := 0 |} in
                match insert_file r (db w) with
                | None => upload_failed f w
                | Some fs' =>
                    (Json 201
                       {| up_id := newId;
                          originalName := originalname f;
                          storedName := filename f;
                          up_fileSize := size f;
                          mimeType := mimetype f;
                          isPublic := is_pub;
                          downloadUrl := "/api/files/download/" ++ newId;
                          publicUrl :=
                            if is_pub
                            then Some ("/uploads/" ++ userId ++ "/" ++ filename f)
                            else None |},
                     with_files fs' w)
                end
          end
      end
  end.

(** The whole upload request: middleware, then handler. *)
Definition upload (env : Env) (userId : string) (p : Part)
    (isPublic_field : option bool) (errors : list string) (newId : string)
    (w : World) : reply Uploaded * World :=
  match upload_single env userId p w with
  | inl msg => (Error 500 msg, w)
  | inr (f, w') => post_upload env userId (Some f) isPublic_field errors newId w'
  end.

(** What a download streams, with the headers set from the row. *)
Record Served : Type := {
  content_disposition : string;
  content_type : string;
  content_length : Z;
  stream : string
}.

Definition int4_max : Z := 2147483647.

Definition bump (f : files.row) : files.row :=
  {| files.id := files.id f;
     files.user_id := files.user_id f;
     files.original_name := files.original_name f;
     files.stored_name := files.stored_name f;
     files.file_path := files.file_path f;
     files.file_size := files.file_size f;
     files.mime_type := files.mime_type f;
     files.is_public := files.is_public f;
     files.download_count := files.download_count f + 1 |}.

(** [UPDATE files SET download_count = download_count + 1 WHERE id = $1];
    the INTEGER column refuses a value past [int4_max]. *)
Definition increment_download_count (fid : string) (s : Store) : option (list files.row) :=
  if bool_decide (Exists (λ f, files.id f = fid ∧ int4_max < files.download_count f + 1)
                         (t_files s))
  then None
  else Some ((λ f, if decide (files.id f = fid) then bump f else f) <$> t_files s).

(** [GET /download/:id] *)
Definition get_download (userId : string) (fid : string) (w : World)
  : reply Served * World :=
  match filter (λ f, files.id f = fid) (t_files (db w)) with
  | [] => (Error 404 "File not found", w)
  | file :: _ =>
      if bool_decide (files.user_id file ≠ userId) && negb (files.is_public file)
      then (AccessDenied, w)
      else if negb (fs.access (files.file_path file) (disk w))
      then (Error 404 "File not found on disk", w)
      else
        match increment_download_count fid (db w) with
        | None => (Error 500 "Failed to download file", w)
        | Some fs' =>
            (Json 200
               {| content_disposition :=
                    "attachment; filename=" ++ dquote ++ files.original_name file
                      ++ dquote;
                  content_type := files.mime_type file;
                  content_length := files.file_size file;
                  stream := files.file_path file |},
             with_files fs' w)
        end
  end.

(** The fields of [PUT /:id] that are present, in the order they are
    pushed on [updateFields]. *)
Inductive FileField : Type :=
| set_is_public (b : bool)
| set_original_name (s : string).

Definition updateFields (isPublic_field originalName_field : option Js.body)
  : list FileField :=
  (match isPublic_field with
   | Some (Js.BBool b) => [set_is_public b]
   | _ => []
   end ++
   match originalName_field with
   | Some v => if Js.truthy v then [set_original_name (Js.text_of_body v)] else []
   | None => []
   end)%list.

Definition apply_field (f : files.row) (u : FileField) : files.row :=
  match u with
  | set_is_public b =>
      {| files.id := files.id f;
         files.user_id := files.user_id f;
         files.original_name := files.original_name f;
         files.stored_name := files.stored_name f;
         files.file_path := files.file_path f;
         files.file_size := files.file_size f;
         files.mime_type := files.mime_type f;
         files.is_public := b;
         files.download_count := files.download_count f |}
  | set_original_name s =>
      {| files.id := files.id f;
         files.user_id := files.user_id f;
         files.original_name := s;
         files.stored_name := files.stored_name f;
         files.file_path := files.file_path f;
         files.file_size := files.file_size f;
         files.mime_type := files.mime_type f;
         files.is_public := files.is_public f;
         files.download_count := files.download_count f |}
  end.

(** [PUT /:id] *)
Definition put_file (userId fid : string)
    (isPublic_field originalName_field : option Js.body) (errors : list string)
    (w : World) : reply files.row * World :=
  match errors with
  | _ :: _ => (Errors errors, w)
  | [] =>
      match updateFields isPublic_field originalName_field with
      | [] => (Error 400 "No fields to update", w)
      | fields =>
          let hit f := bool_decide (files.id f = fid ∧ files.user_id f = userId) in
          let upd f := if hit f then foldl apply_field f fields else f in
          match upd <$> filter (λ f, hit f = true) (t_files (db w)) with
          | [] => (Error 404 "File not found", w)
          | r :: _ => (Json 200 r, with_files (upd <$> t_files (db w)) w)
          end
      end
  end.

(** [DELETE /:id]: the unlink sits in its own [try]; its failure is
    logged and the row is deleted all the same. *)
Definition delete_file (userId fid : string) (w : World) : reply string * World :=
  match filter (λ f, files.id f = fid ∧ files.user_id f = userId) (t_files (db w)) with
  | [] => (Error 404 "File not found", w)
  | file :: _ =>
      let d := default (disk w) (fs.unlink (files.file_path file) (disk w)) in
      (Json 200 "File deleted successfully",
       with_files (filter (λ f, ¬ (files.id f = fid ∧ files.user_id f = userId))
                          (t_files (db w)))
                  (with_disk d w))
  end.

End FilesRouter.

(** ** routes/domains.js *)

Module DomainsRouter.

(** A row object of the client: the selected columns by name.  A
    column that was not selected reads as [undefined] ([None]). *)
Inductive cell : Type :=
| Null
| Text (s : string)
| Flag (b : bool)
| Int (z : Z)
| Jsonb (r : DnsRecords).

Definition nullable {A} (f : A → cell) (o : option A) : cell :=
  match o with Some a => f a | None => Null end.

Definition columns (d : domains.row) : list (string * cell) :=
  [ ("id", Text (domains.id d));
    ("user_id", Text (domains.user_id d));
    ("domain_name", Text (domains.domain_name d));
    ("status", Text (domains.status d));
    ("ssl_status", Text (domains.ssl_status d));
    ("dns_records", nullable Jsonb (domains.dns_records d));
    ("verification_token", Text (domains.verification_token d));
    ("auto_renew", nullable Flag (domains.auto_renew d));
    ("updated_at", Int (domains.updated_at d));
    ("last_verified", nullable Int (domains.last_verified d)) ].

Definition select (cols : list string) (d : domains.row) : list (string * cell) :=
  filter (λ c, c.1 ∈ cols) (columns d).

Fixpoint get (o : list (string * cell)) (k : string) : option cell :=
  match o with
  | [] => None
  | (k', v) :: o' => if decide (k' = k) then Some v else get o' k
  end.

(** The row count of [FROM domains WHERE user_id = $1] *)
Definition count_domains (userId : string) (s : Store) : Z :=
  Z.of_nat (length (filter (λ d, domains.user_id d = userId) (t_domains s))).

Record QuotaRow : Type := { domain_quota : Js.value; current_count : Js.value }.

Definition select_quota (env : Env) (userId : string) (s : Store) : list QuotaRow :=
  (λ u, {| domain_quota := Js.Num (users.domain_quota u);
           current_count := decode (int8 (parsers env)) (count_domains userId s) |})
    <$> filter (λ u, users.id u = userId) (t_users s).

Definition dnsRecords_for (env : Env) (domainName did : string) : DnsRecords :=
  {| cname := {| name := domainName;
                 value := or_default (RENDER_EXTERNAL_HOSTNAME env)
                                     "your-service.onrender.com";
                 ttl := 300 |};
     verification := {| name := "_acme-challenge." ++ domainName;
                        value := did ++ ".verify.renderdns.com";
                        ttl := 300 |} |}.

(** [INSERT INTO domains (user_id, domain_name, verification_token,
    auto_renew)]: the other columns take the defaults of the schema.
    The primary key and the UNIQUE verification token can refuse the
    row; [domain_name] carries no constraint. *)
Definition insert_domain (r : domains.row) (s : Store) : option (list domains.row) :=
  if decide (domains.id r ∈ domains.id <$> t_domains s) then None
  else if decide (domains.verification_token r
                    ∈ domains.verification_token <$> t_domains s) then None
  else Some (t_domains s ++ [r])%list.

Definition set_dns_records (r : DnsRecords) (now : Z) (d : domains.row) : domains.row :=
  {| domains.id := domains.id d;
     domains.user_id := domains.user_id d;
     domains.domain_name := domains.domain_name d;
     domains.status := domains.status d;
     domains.ssl_status := domains.ssl_status d;
     domains.dns_records := Some r;
     domains.verification_token := domains.verification_token d;
     domains.auto_renew := domains.auto_renew d;
     domains.updated_at := now;
     domains.last_verified := domains.last_verified d |}.

Record Added : Type := {
  added_id : string;
  domainName : string;
  added_status : string;
  verificationToken : string;
  dnsRecords : DnsRecords;
  autoRenew : bool
}.

(** [POST /]: [newId] and [verificationToken] are the fresh UUIDs of
    the store and of [uuidv4()]. *)
Definition post_domain (env : Env) (userId domainName : string)
    (autoRenew_field : option bool) (errors : list string)
    (verificationToken newId : string) (now : Z) (w : World)
  : reply Added * World :=
  match errors with
  | _ :: _ => (Errors errors, w)
  | [] =>
      let autoRenew := default false autoRenew_field in
      match select_quota env userId (db w) with
      | [] => (Error 500 "Failed to add domain", w)
      | user :: _ =>
          if Js.ge (current_count user) (domain_quota user)
          then (QuotaExceeded, w)
          else
            match filter (λ d, domains.domain_name d = domainName) (t_domains (db w)) with
            | _ :: _ => (DuplicateDomain, w)
            | [] =>
                let r := {| domains.id := newId;
                            domains.user_id := userId;
                            domains.domain_name := domainName;
                            domains.status := "pending";
                            domains.ssl_status := "pending";
                            domains.dns_records := None;
                            domains.verification_token := verificationToken;
                            domains.auto_renew := Some autoRenew;
                            domains.updated_at := now;
                            domains.last_verified := None |} in
                match insert_domain r (db w) with
                | None => (Error 500 "Failed to add domain", w)
                | Some ds =>
                    let dns := dnsRecords_for env domainName newId in
                    (Json 201
                       {| added_id := newId;
                          domainName := domainName;
                          added_status := "pending";
                          verificationToken := verificationToken;
                          dnsRecords := dns;
                          autoRenew := autoRenew |},
                     with_domains
                       ((λ d, if decide (domains.id d = newId)
                              then set_dns_records dns now d else d) <$> ds) w)
                end
            end
      end
  end.

(** The handler gives way at every [await].  Its first two queries
    only read: [registration_checks] is the handler up to the duplicate
    check, with the refusal it found, if any. *)
Definition registration_checks (env : Env) (userId domainName : string)
    (errors : list string) (s : Store) : option (reply Added) :=
  match errors with
  | _ :: _ => Some (Errors errors)
  | [] =>
      match select_quota env userId s with
      | [] => Some (Error 500 "Failed to add domain")
      | user :: _ =>
          if Js.ge (current_count user) (domain_quota user)
          then Some QuotaExceeded
          else
            match filter (λ d, domains.domain_name d = domainName) (t_domains s) with
            | _ :: _ => Some DuplicateDomain
            | [] => None
            end
      end
  end.

(** [registration_writes] is the rest of the handler: the INSERT and
    the UPDATE of the descriptor. *)
Definition registration_writes (env : Env) (userId domainName : string)
    (autoRenew_field : option bool) (verificationToken newId : string) (now : Z)
    (w : World) : reply Added * World :=
  let autoRenew := default false autoRenew_field in
  let r := {| domains.id := newId;
              domains.user_id := userId;
              domains.domain_name := domainName;
              domains.status := "pending";
              domains.ssl_status := "pending";
              domains.dns_records := None;
              domains.verification_token := verificationToken;
              domains.auto_renew := Some autoRenew;
              domains.updated_at := now;
              domains.last_verified := None |} in
  match insert_domain r (db w) with
  | None => (Error 500 "Failed to add domain", w)
  | Some ds =>
      let dns := dnsRecords_for env domainName newId in
      (Json 201
         {| added_id := newId;
            domainName := domainName;
            added_status := "pending";
            verificationToken := verificationToken;
            dnsRecords := dns;
            autoRenew := autoRenew |},
       with_domains
         ((λ d, if decide (domains.id d = newId)
                then set_dns_records dns now d else d) <$> ds) w)
  end.

Definition set_verified (now : Z) (d : domains.row) : domains.row :=
  {| domains.id := domains.id d;
     domains.user_id := domains.user_id d;
     domains.domain_name := domains.domain_name d;
     domains.status := "active";
     domains.ssl_status := "active";
     domains.dns_records := domains.dns_records d;
     domains.verification_token := domains.verification_token d;
     domains.auto_renew := domains.auto_renew d;
     domains.updated_at := now;
     domains.last_verified := Some now |}.

Inductive VerifyBody : Type :=
| Verified (message status sslStatus : string)
| VerificationFailed (error message : string) (dnsRecords : option cell).

(** [Math.random() > 0.3] *)
Definition isVerified (random : Q) : bool := negb (Qle_bool random (3 # 10)).

(** [POST /:id/verify] *)
Definition post_verify (userId did : string) (random : Q) (now : Z) (w : World)
  : reply VerifyBody * World :=
  match select ["id"; "domain_name"; "verification_token"; "status"]
          <$> filter (λ d, domains.id d = did ∧ domains.user_id d = userId)
                     (t_domains (db w)) with
  | [] => (Error 404 "Domain not found", w)
  | domain :: _ =>
      if isVerified random then
        let hit d := match get domain "id" with
                     | Some (Text i) => bool_decide (domains.id d = i)
                     | _ => false
                     end in
        (Json 200 (Verified "Domain verified successfully" "active" "active"),
         with_domains ((λ d, if hit d then set_verified now d else d)
                         <$> t_domains (db w)) w)
      else
        (Json 400 (VerificationFailed "Domain verification failed"
                     "DNS records not configured correctly"
                     (get domain "dns_records")),
         w)
  end.

Definition set_auto_renew (v : option bool) (now : Z) (d : domains.row) : domains.row :=
  {| domains.id := domains.id d;
     domains.user_id := domains.user_id d;
     domains.domain_name := domains.domain_name d;
     domains.status := domains.status d;
     domains.ssl_status := domains.ssl_status d;
     domains.dns_records := domains.dns_records d;
     domains.verification_token := domains.verification_token d;
     domains.auto_renew := v;
     domains.updated_at := now;
     domains.last_verified := domains.last_verified d |}.

(** [PUT /:id]: the statement always binds [autoRenew]; the client
    sends [undefined] as NULL. *)
Definition put_domain (userId did : string) (autoRenew_field : option bool)
    (errors : list string) (now : Z) (w : World) : reply domains.row * World :=
  match errors with
  | _ :: _ => (Errors errors, w)
  | [] =>
      let hit d := bool_decide (domains.id d = did ∧ domains.user_id d = userId) in
      let upd d := if hit d then set_auto_renew autoRenew_field now d else d in
      match upd <$> filter (λ d, hit d = true) (t_domains (db w)) with
      | [] => (Error 404 "Domain not found", w)
      | r :: _ => (Json 200 r, with_domains (upd <$> t_domains (db w)) w)
      end
  end.

(** [DELETE /:id]; the analytics rows of the domain go with it
    (ON DELETE CASCADE). *)
Definition delete_domain (userId did : string) (w : World) : reply string * World :=
  let hit d := domains.id d = did ∧ domains.user_id d = userId in
  match filter hit (t_domains (db w)) with
  | [] => (Error 404 "Domain not found", w)
  | _ :: _ =>
      (Json 200 "Domain deleted successfully",
       with_analytics
         (filter (λ e, analytics.domain_id e ≠ Some did) (t_analytics (db w)))
         (with_domains (filter (λ d, ¬ hit d) (t_domains (db w))) w))
  end.

End DomainsRouter.

(** ** routes/users.js *)

Module UsersRouter.

Definition with_plan (planType : string) (storage domain : Z) (u : users.row)
  : users.row :=
  {| users.id := users.id u;
     users.email := users.email u;
     users.first_name := users.first_name u;
     users.last_name := users.last_name u;
     users.plan_type := planType;
     users.storage_quota := storage;
     users.domain_quota := domain |}.

(** Modelled from the spec: the account creation of routes/auth.js is
    not among the sources.  A new user row takes the defaults of the
    schema (plan free, 1 GB, two domains) and the e-mail address is
    UNIQUE, a second account on it being a conflict (400). *)
Definition signup (email_field newId : string) (w : World) : reply users.row * World :=
  if bool_decide (Exists (λ u, users.email u = email_field ∨ users.id u = newId)
                         (t_users (db w)))
  then (Error 400 "User already exists", w)
  else
    let u := {| users.id := newId;
                users.email := email_field;
                users.first_name := None;
                users.last_name := None;
                users.plan_type := "free";
                users.storage_quota := 1073741824;
                users.domain_quota := 2 |} in
    (Json 201 u, with_users (t_users (db w) ++ [u])%list w).

(** The fields of [PUT /profile] that are present. *)
Inductive ProfileField : Type :=
| set_first_name (s : string)
| set_last_name (s : string)
| set_email (s : string).

Definition updateFields (firstName lastName email_field : option string)
  : list ProfileField :=
  (from_option (λ s, [set_first_name s]) [] firstName
   ++ from_option (λ s, [set_last_name s]) [] lastName
   ++ from_option (λ s, [set_email s]) [] email_field)%list.

Definition apply_field (u : users.row) (f : ProfileField) : users.row :=
  match f with
  | set_first_name s =>
      {| users.id := users.id u; users.email := users.email u;
         users.first_name := Some s; users.last_name := users.last_name u;
         users.plan_type := users.plan_type u;
         users.storage_quota := users.storage_quota u;
         users.domain_quota := users.domain_quota u |}
  | set_last_name s =>
      {| users.id := users.id u; users.email := users.email u;
         users.first_name := users.first_name u; users.last_name := Some s;
         users.plan_type := users.plan_type u;
         users.storage_quota := users.storage_quota u;
         users.domain_quota := users.domain_quota u |}
  | set_email s =>
      {| users.id := users.id u; users.email := s;
         users.first_name := users.first_name u;
         users.last_name := users.last_name u;
         users.plan_type := users.plan_type u;
         users.storage_quota := users.storage_quota u;
         users.domain_quota := users.domain_quota u |}
  end.

(** [PUT /profile] *)
Definition put_profile (userId : string) (firstName lastName email_field : option string)
    (errors : list string) (w : World) : reply users.row * World :=
  match errors with
  | _ :: _ => (Errors errors, w)
  | [] =>
      let taken :=
        match email_field with
        | Some e => bool_decide (Exists (λ u, users.email u = e ∧ users.id u ≠ userId)
                                        (t_users (db w)))
        | None => false
        end in
      if taken then (Error 400 "Email already in use", w)
      else
        match updateFields firstName lastName email_field with
        | [] => (Error 400 "No fields to update", w)
        | fields =>
            let upd u := if decide (users.id u = userId)
                         then foldl apply_field u fields else u in
            match upd <$> filter (λ u, users.id u = userId) (t_users (db w)) with
            | [] => (Error 500 "Failed to update profile", w)
            | r :: _ => (Json 200 r, with_users (upd <$> t_users (db w)) w)
            end
        end
  end.

(** The [plans] table of [POST /upgrade]: storage and domain quota. *)
Definition plans (planType : string) : option (Z * Z) :=
  if decide (planType = "pro") then Some (10737418240, 10)
  else if decide (planType = "enterprise") then Some (107374182400, 100)
  else None.

(** [POST /upgrade] *)
Definition post_upgrade (userId planType : string) (errors : list string) (w : World)
  : reply users.row * World :=
  match errors with
  | _ :: _ => (Errors errors, w)
  | [] =>
      match plans planType with
      | None => (Error 400 "Invalid plan type", w)
      | Some (storage, domain) =>
          let upd u := if decide (users.id u = userId)
                       then with_plan planType storage domain u else u in
          match upd <$> filter (λ u, users.id u = userId) (t_users (db w)) with
          | [] => (Error 500 "Failed to upgrade plan", w)
          | r :: _ => (Json 200 r, with_users (upd <$> t_users (db w)) w)
          end
      end
  end.

(** [DELETE FROM users WHERE id = $1] with the cascades of the schema:
    the domains, files and analytics rows of the user, and the
    analytics rows that point at one of the deleted domains.  Nothing
    is removed from the upload directory. *)
Definition cascade_delete_user (userId : string) (w : World) : World :=
  let gone := domains.id <$> filter (λ d, domains.user_id d = userId) (t_domains (db w)) in
  {| db := {| t_users := filter (λ u, users.id u ≠ userId) (t_users (db w));
              t_domains := filter (λ d, domains.user_id d ≠ userId) (t_domains (db w));
              t_files := filter (λ f, files.user_id f ≠ userId) (t_files (db w));
              t_analytics :=
                filter (λ e, analytics.user_id e ≠ userId
                             ∧ analytics.domain_id e ∉ Some <$> gone)
                       (t_analytics (db w)) |};
     disk := disk w |}.

(** [DELETE /account]; [isValidPassword] is the answer of
    [bcrypt.compare]. *)
Definition delete_account (userId : string) (isValidPassword : bool)
    (errors : list string) (w : World) : reply string * World :=
  match errors with
  | _ :: _ => (Errors errors, w)
  | [] =>
      match filter (λ u, users.id u = userId) (t_users (db w)) with
      | [] => (Error 404 "User not found", w)
      | _ :: _ =>
          if isValidPassword
          then (Json 200 "Account deleted successfully", cascade_delete_user userId w)
          else (Error 400 "Password is incorrect", w)
      end
  end.

End UsersRouter.

(** ** routes/monitor.js *)

Module MonitorRouter.

(** [v || null] on an optional identifier of the body. *)
Definition or_null (v : option string) : option string :=
  match v with
  | Some s => if decide (s = "") then None else Some s
  | None => None
  end.

(** [POST /analytics/log].  The foreign keys of the analytics table
    can refuse the row: the user and the domain must exist, and no
    handler of the sources inserts into the websites table. *)
Definition post_log (userId : string) (eventType : option string) (eventData : string)
    (websiteId domainId : option string) (referer : option string) (now : Z)
    (w : World) : reply string * World :=
  match or_null eventType with
  | None => (Error 400 "Event type is required", w)
  | Some ty =>
      let fk_ok :=
        bool_decide (userId ∈ users.id <$> t_users (db w))
        && bool_decide (or_null websiteId = None)
        && match or_null domainId with
           | Some d => bool_decide (d ∈ domains.id <$> t_domains (db w))
           | None => true
           end in
      if fk_ok then
        (Json 200 "Analytics event logged successfully",
         with_analytics
           (t_analytics (db w)
              ++ [ {| analytics.user_id := userId;
                      analytics.website_id := or_null websiteId;
                      analytics.domain_id := or_null domainId;
                      analytics.event_type := ty;
                      analytics.event_data := eventData;
                      analytics.referrer := referer;
                      analytics.created_at := now |} ])%list w)
      else (Error 500 "Failed to log analytics event", w)
  end.

(** The lower bound [CURRENT_TIMESTAMP - INTERVAL ...] of a period. *)
Definition dateFilter (period : option string) (now : Z) : Z :=
  match period with
  | Some p =>
      if decide (p = "24h") then now - 24 * 3600
      else if decide (p = "30d") then now - 30 * 86400
      else now - 7 * 86400
  | None => now - 7 * 86400
  end.

(** [DATE_TRUNC('day', created_at)] *)
Definition day (t : Z) : Z := t / 86400 * 86400.

(** [s LIKE '%pat%']: [pat] occurs somewhere in [s]. *)
Fixpoint like_contains (pat s : string) : bool :=
  String.prefix pat s
  || match s with
     | EmptyString => false
     | String _ s' => like_contains pat s'
     end.

(** The CASE expression of the traffic sources query. *)
Definition source (referrer : option string) : string :=
  match referrer with
  | None => "Direct"
  | Some r =>
      if decide (r = "") then "Direct"
      else if like_contains "google" r then "Google"
      else if like_contains "facebook" r then "Facebook"
      else if like_contains "twitter" r then "Twitter"
      else if like_contains "linkedin" r then "LinkedIn"
      else "Other"
  end.

(** [GROUP BY key] with [COUNT] of the rows of each group. *)
Definition count_by {A K} `{EqDecision K} (key : A → K) (l : list A) : list (K * nat) :=
  (λ k, (k, length (filter (λ a, key a = k) l))) <$> remove_dups (key <$> l).

Definition more_visits (a b : string * nat) : Prop := (b.2 ≤ a.2)%nat.

#[local] Instance more_visits_dec : RelDecision more_visits.
Proof. intros a b. unfold more_visits. apply _. Defined.

Record SourceRow : Type := { src : string; visits : Js.value }.

(** The traffic sources of [GET /analytics]: one row per source,
    most visited first. *)
Definition trafficSourcesResult (env : Env) (userId : string) (period : option string)
    (now : Z) (w : World) : list SourceRow :=
  let evs := filter (λ e, analytics.user_id e = userId
                          ∧ dateFilter period now ≤ analytics.created_at e)
                    (t_analytics (db w)) in
  (λ r, {| src := r.1; visits := decode (int8 (parsers env)) (Z.of_nat r.2) |})
    <$> merge_sort more_visits (count_by (λ e, source (analytics.referrer e)) evs).

Record DayRow : Type := { date : Z; count : Js.value }.

(** The per-day count of one event type, oldest day first. *)
Definition dailyResult (env : Env) (userId : string) (period : option string)
    (now : Z) (ty : string) (w : World) : list DayRow :=
  let evs := filter (λ e, analytics.user_id e = userId
                          ∧ dateFilter period now ≤ analytics.created_at e
                          ∧ analytics.event_type e = ty)
                    (t_analytics (db w)) in
  (λ d, {| date := d;
           count := decode (int8 (parsers env))
                      (Z.of_nat (length (filter (λ e, day (analytics.created_at e) = d) evs))) |})
    <$> merge_sort Z.le (remove_dups ((λ e, day (analytics.created_at e)) <$> evs)).

(** [rows.reduce((sum, row) => sum + parseInt(row.c), 0)]; [None] is NaN. *)
Definition total (counts : list Js.value) : option Z :=
  foldl (λ sum c, match sum, Js.parseInt c with
                  | Some a, Some b => Some (a + b)
                  | _, _ => None
                  end) (Some 0) counts.

Record Analytics : Type := {
  pageViews : list DayRow;
  downloads : list DayRow;
  trafficSources : list SourceRow;
  errors_by_day : list DayRow;
  totalPageViews : option Z;
  totalDownloads : option Z;
  totalErrors : option Z
}.

(** [GET /analytics] *)
Definition get_analytics (env : Env) (userId : string) (period : option string)
    (now : Z) (w : World) : reply Analytics :=
  let pv := dailyResult env userId period now "page_view" w in
  let dl := dailyResult env userId period now "file_download" w in
  let er := dailyResult env userId period now "error" w in
  Json 200 {| pageViews := pv;
              downloads := dl;
              trafficSources := trafficSourcesResult env userId period now w;
              errors_by_day := er;
              totalPageViews := total (count <$> pv);
              totalDownloads := total (count <$> dl);
              totalErrors := total (count <$> er) |}.

Record ErrorRateRow : Type := {
  er_date : Z;
  total_requests : Js.value;
  errors : Js.value
}.

(** The error rates query of [GET /domains/:id/stats]. *)
Definition errorRateResult (env : Env) (did : string) (period : option string)
    (now : Z) (w : World) : list ErrorRateRow :=
  let evs := filter (λ e, analytics.domain_id e = Some did
                          ∧ dateFilter period now ≤ analytics.created_at e)
                    (t_analytics (db w)) in
  (λ d,
     let of_day := filter (λ e, day (analytics.created_at e) = d) evs in
     {| er_date := d;
        total_requests := decode (int8 (parsers env)) (Z.of_nat (length of_day));
        errors := decode (int8 (parsers env))
                    (Z.of_nat (length (filter (λ e, analytics.event_type e = "error")
                                              of_day))) |})
    <$> merge_sort Z.le (remove_dups ((λ e, day (analytics.created_at e)) <$> evs)).

(** [row.total_requests > 0 ?
      Math.round((parseInt(row.errors) / parseInt(row.total_requests)) * 100) : 0];
    [None] is NaN. *)
Definition errorPercentage (row : ErrorRateRow) : option Z :=
  if Js.gt (total_requests row) (Js.Num 0) then
    match Js.parseInt (errors row), Js.parseInt (total_requests row) with
    | Some e, Some t => Some (Js.Math_round (inject_Z e / inject_Z t * 100))
    | _, _ => None
    end
  else Some 0.

Record DomainStats : Type := {
  errorRates : list (ErrorRateRow * option Z);
  stats_totalErrors : option Z
}.

(** [GET /domains/:id/stats] *)
Definition get_domain_stats (env : Env) (userId did : string) (period : option string)
    (now : Z) (w : World) : reply DomainStats :=
  match filter (λ d, domains.id d = did ∧ domains.user_id d = userId)
               (t_domains (db w)) with
  | [] => Error 404 "Domain not found"
  | _ :: _ =>
      let rows := errorRateResult env did period now w in
      Json 200 {| errorRates := (λ row, (row, errorPercentage row)) <$> rows;
                  stats_totalErrors := total (errors <$> rows) |}
  end.

End MonitorRouter.

(** ** The server: one request after the other *)

Inductive Op : Type :=
| Signup (email newId : string)
| Upload (userId : string) (p : FilesRouter.Part) (isPublic : option bool)
         (errors : list string) (newId : string)
| Download (userId fid : string)
| PutFile (userId fid : string) (isPublic originalName : option Js.body)
          (errors : list string)
| DeleteFile (userId fid : string)
| PostDomain (userId domainName : string) (autoRenew : option bool)
             (errors : list string) (verificationToken newId : string) (now : Z)
| Verify (userId did : string) (random : Q) (now : Z)
| PutDomain (userId did : string) (autoRenew : option bool) (errors : list string)
            (now : Z)
| DeleteDomain (userId did : string)
| PutProfile (userId : string) (firstName lastName email : option string)
             (errors : list string)
| Upgrade (userId planType : string) (errors : list string)
| DeleteAccount (userId : string) (isValidPassword : bool) (errors : list string)
| Log (userId : string) (eventType : option string) (eventData : string)
      (websiteId domainId referer : option string) (now : Z).

Definition step (env : Env) (w : World) (op : Op) : World :=
  match op with
  | Signup e i => (UsersRouter.signup e i w).2
  | Upload u p pub errs i => (FilesRouter.upload env u p pub errs i w).2
  | Download u f => (FilesRouter.get_download u f w).2
  | PutFile u f pub nm errs => (FilesRouter.put_file u f pub nm errs w).2
  | DeleteFile u f => (FilesRouter.delete_file u f w).2
  | PostDomain u n ar errs tok i now =>
      (DomainsRouter.post_domain env u n ar errs tok i now w).2
  | Verify u d r now => (DomainsRouter.post_verify u d r now w).2
  | PutDomain u d ar errs now => (DomainsRouter.put_domain u d ar errs now w).2
  | DeleteDomain u d => (DomainsRouter.delete_domain u d w).2
  | PutProfile u fn ln e errs => (UsersRouter.put_profile u fn ln e errs w).2
  | Upgrade u p errs => (UsersRouter.post_upgrade u p errs w).2
  | DeleteAccount u ok errs => (UsersRouter.delete_account u ok errs w).2
  | Log u ty data ws d ref now => (MonitorRouter.post_log u ty data ws d ref now w).2
  end.

(** The world after a sequence of requests served one at a time. *)
Definition run (env : Env) (ops : list Op) (w : World) : World :=
  foldl (step env) w ops.



(** ** The traffic source as the specification words it

    The specification describes the classification as a substring match
    on the referrer host.  [host] takes what follows the scheme separator
    of the URL up to the first slash, question mark or hash sign, and
    [source_of_host] runs the same chain of cases on it. *)

Module Worded.

Fixpoint after_scheme (s : string) : option string :=
  match s with
  | EmptyString => None
  | String _ s' =>
      if String.prefix "://" s then Some (String.substring 3 (String.length s) s)
      else after_scheme s'
  end.

Fixpoint authority (s : string) : string :=
  match s with
  | EmptyString => EmptyString
  | String c s' =>
      if bool_decide (c ∈ ["/"; "?"; "#"]%char) then EmptyString
      else String c (authority s')
  end.

Definition host (url : string) : string :=
  authority (default url (after_scheme url)).

Definition source_of_host (referrer : option string) : string :=
  match referrer with
  | None => "Direct"
  | Some r =>
      if decide (r = "") then "Direct"
      else if MonitorRouter.like_contains "google" (host r) then "Google"
      else if MonitorRouter.like_contains "facebook" (host r) then "Facebook"
      else if MonitorRouter.like_contains "twitter" (host r) then "Twitter"
      else if MonitorRouter.like_contains "linkedin" (host r) then "LinkedIn"
      else "Other"
  end.

End Worded.

(** ** Invariants of the tables *)




(** At most one row per domain name, over all users. *)
Definition unique_domain_names (w : World) : Prop :=
  NoDup (domains.domain_name <$> t_domains (db w)).

(** A row that is pending or active, certificate included. *)
Definition pending_or_active (d : domains.row) : Prop :=
  (domains.status d = "pending" ∨ domains.status d = "active")
  ∧ (domains.ssl_status d = "pending" ∨ domains.ssl_status d = "active").

(** What one request can do to the domains table: nothing; insert a
    pending row whose name no row carries and then rewrite rows; rewrite
    rows, names kept and pending or active rows staying so; delete
    rows. *)
Inductive domains_change (ds : list domains.row) : list domains.row → Prop :=
| dc_none : domains_change ds ds
| dc_insert (r : domains.row) (g : domains.row → domains.row) :
    domains.domain_name r ∉ domains.domain_name <$> ds →
    domains.status r = "pending" →
    domains.ssl_status r = "pending" →
    (∀ d, domains.domain_name (g d) = domains.domain_name d
          ∧ domains.status (g d) = domains.status d
          ∧ domains.ssl_status (g d) = domains.ssl_status d) →
    domains_change ds (g <$> (ds ++ [r])%list)
| dc_update (g : domains.row → domains.row) :
    (∀ d, domains.domain_name (g d) = domains.domain_name d
          ∧ (pending_or_active d → pending_or_active (g d))) →
    domains_change ds (g <$> ds)
| dc_delete (P : domains.row → Prop) `{∀ d, Decision (P d)} :
    domains_change ds (filter P ds).

(** ** Worlds and traces of the examples *)

Definition numbers_env : Env :=
  {| parsers := pg_numbers; RENDER_EXTERNAL_HOSTNAME := None;
     UPLOAD_DIR := None; MAX_FILE_SIZE := None |}.



(** A new account with one file of five bytes. *)
Definition five_bytes : list Op :=
  [ Signup "owner@example.org" "u1";
    Upload "u1"
      {| FilesRouter.part_originalname := "note.txt";
         FilesRouter.part_mimetype := "text/plain";
         FilesRouter.part_size := 5;
         FilesRouter.part_filename := "file-1700000000000-1.txt" |}
      None [] "f1" ].

Definition one_more_byte : FilesRouter.Part :=
  {| FilesRouter.part_originalname := "dot.txt";
     FilesRouter.part_mimetype := "text/plain";
     FilesRouter.part_size := 1;
     FilesRouter.part_filename := "file-1700000000001-2.txt" |}.





(** Two accounts and no domain yet. *)
Definition two_newcomers : World :=
  run default_env
    [ Signup "first@example.org" "u1"; Signup "second@example.org" "u2" ]
    empty_world.

(** One account with a public file of five bytes, on disk. *)
Definition one_public_file : World :=
  run default_env
    [ Signup "owner@example.org" "u1";
      Upload "u1"
        {| FilesRouter.part_originalname := "public.txt";
           FilesRouter.part_mimetype := "text/plain";
           FilesRouter.part_size := 5;
           FilesRouter.part_filename := "file-1700000000000-1.txt" |}
        (Some true) [] "f1" ]
    empty_world.


(** One domain with three page views and one error on the same day. *)
Definition four_events : World :=
  run default_env
    [ Signup "owner@example.org" "u1";
      PostDomain "u1" "example.com" (Some true) [] "token-1" "d1" 100;
      Log "u1" (Some "page_view") "{}" None (Some "d1") None 1000;
      Log "u1" (Some "page_view") "{}" None (Some "d1") None 1001;
      Log "u1" (Some "page_view") "{}" None (Some "d1") None 1002;
      Log "u1" (Some "error") "{}" None (Some "d1") None 1003 ]
    empty_world.

(** The world of two users: the first holds example.com, the second
    fills a quota of two domains. *)
Definition two_tenants : World :=
  run default_env
    [ Signup "first@example.org" "u1";
      Signup "second@example.org" "u2";
      PostDomain "u1" "example.com" None [] "token-1" "d1" 100;
      PostDomain "u2" "second.example.net" None [] "token-2" "d2" 110;
      PostDomain "u2" "third.example.net" None [] "token-3" "d3" 120 ]
    empty_world.

(** [pat] occurs in [s]. *)
Definition occurs (pat s : string) : Prop := ∃ pre post, s = pre ++ pat ++ post.

(** ** routes/files.js: the usage report *)

Module FilesUsage.

(** The one row of the aggregate query.  [SUM(download_count)] is NULL
    when the user has no file. *)
Record StatsRow : Type := {
  total_files : Js.value;
  total_size : Js.value;
  public_files : Js.value;
  private_files : Js.value;
  total_downloads : option Js.value
}.

Definition select_stats (env : Env) (userId : string) (s : Store) : StatsRow :=
  let mine := filter (λ f, files.user_id f = userId) (t_files s) in
  {| total_files := decode (int8 (parsers env)) (Z.of_nat (length mine));
     total_size := decode (numeric (parsers env)) (FilesRouter.sum_file_size userId s);
     public_files :=
       decode (int8 (parsers env))
              (Z.of_nat (length (filter (λ f, files.is_public f = true) mine)));
     private_files :=
       decode (int8 (parsers env))
              (Z.of_nat (length (filter (λ f, files.is_public f = false) mine)));
     total_downloads :=
       match mine with
       | [] => None
       | _ :: _ =>
           Some (decode (int8 (parsers env))
                        (foldr Z.add 0 (files.download_count <$> mine)))
       end |}.

(** [parseInt] of a column that can be NULL: [parseInt(null)] is NaN. *)
Definition parseInt_nullable (v : option Js.value) : option Z :=
  match v with
  | Some x => Js.parseInt x
  | None => None
  end.

(** [a - b] on numbers; [None] is NaN. *)
Definition minus (a b : option Z) : option Z :=
  match a, b with
  | Some x, Some y => Some (x - y)
  | _, _ => None
  end.

(** [Math.round((a / b) * 100)]; [None] stands for a result that is not
    a finite number (a NaN operand, or a division by zero), which the
    JSON body renders as null. *)
Definition percentage (a b : option Z) : option Z :=
  match a, b with
  | Some x, Some y =>
      if y =? 0 then None
      else Some (Js.Math_round (inject_Z x / inject_Z y * 100))
  | _, _ => None
  end.

Record Usage : Type := {
  totalFiles : option Z;
  totalSize : option Z;
  publicFiles : option Z;
  privateFiles : option Z;
  totalDownloads : option Z;
  storageQuota : Js.value;
  storageUsed : option Z;
  storageAvailable : option Z;
  usagePercentage : option Z
}.

(** [GET /stats/usage] *)
Definition get_usage (env : Env) (userId : string) (w : World) : reply Usage :=
  let stats := select_stats env userId (db w) in
  match filter (λ u, users.id u = userId) (t_users (db w)) with
  | [] => Error 500 "Failed to get file statistics"
  | u :: _ =>
      let quota := decode (int8 (parsers env)) (users.storage_quota u) in
      Json 200
        {| totalFiles := Js.parseInt (total_files stats);
           totalSize := Js.parseInt (total_size stats);
           publicFiles := Js.parseInt (public_files stats);
           privateFiles := Js.parseInt (private_files stats);
           totalDownloads := parseInt_nullable (total_downloads stats);
           storageQuota := quota;
           storageUsed := Js.parseInt (total_size stats);
           storageAvailable := minus (Js.ToNumber quota) (Js.parseInt (total_size stats));
           usagePercentage := percentage (Js.parseInt (total_size stats)) (Js.ToNumber quota) |}
  end.

End FilesUsage.

(** ** routes/domains.js: the DNS configuration page *)

Module DomainsDns.

Record Instruction : Type := {
  type : string;
  record_name : string;
  record_value : string;
  record_ttl : Z
}.

Record DnsConfig : Type := {
  domainName : string;
  status : string;
  dnsRecords : option DnsRecords;
  provider : string;
  records : list Instruction
}.

(** [GET /:id/dns] *)
Definition get_dns (env : Env) (userId did : string) (w : World) : reply DnsConfig :=
  match filter (λ d, domains.id d = did ∧ domains.user_id d = userId)
               (t_domains (db w)) with
  | [] => Error 404 "Domain not found"
  | domain :: _ =>
      Json 200
        {| domainName := domains.domain_name domain;
           status := domains.status domain;
           dnsRecords := domains.dns_records domain;
           provider := "generic";
           records :=
             [ {| type := "CNAME";
                  record_name := domains.domain_name domain;
                  record_value := or_default (RENDER_EXTERNAL_HOSTNAME env)
                                             "your-service.onrender.com";
                  record_ttl := 300 |};
               {| type := "CNAME";
                  record_name := "_acme-challenge." ++ domains.domain_name domain;
                  record_value := did ++ ".verify.renderdns.com";
                  record_ttl := 300 |} ] |}
  end.

End DomainsDns.

(** ** routes/monitor.js: hourly traffic and the uptime *)

Module MonitorTraffic.

(** [DATE_TRUNC('hour', created_at)] *)
Definition hour (t : Z) : Z := t / 3600 * 3600.

Record HourRow : Type := { hour_of : Z; requests : Js.value }.

(** The traffic query of [GET /domains/:id/stats]: the events of the
    domain in the period, counted by hour, oldest hour first. *)
Definition trafficResult (env : Env) (did : string) (period : option string)
    (now : Z) (w : World) : list HourRow :=
  let evs := filter (λ e, analytics.domain_id e = Some did
                          ∧ MonitorRouter.dateFilter period now ≤ analytics.created_at e)
                    (t_analytics (db w)) in
  (λ h, {| hour_of := h;
           requests :=
             decode (int8 (parsers env))
                    (Z.of_nat (length (filter (λ e, hour (analytics.created_at e) = h) evs))) |})
    <$> merge_sort Z.le (remove_dups ((λ e, hour (analytics.created_at e)) <$> evs)).

(** [summary.totalRequests] of the same reply. *)
Definition totalRequests (env : Env) (did : string) (period : option string)
    (now : Z) (w : World) : option Z :=
  MonitorRouter.total (requests <$> trafficResult env did period now w).

(** [Math.trunc], and [x % m] on numbers: the remainder has the sign of
    [x].  Both are taken exactly. *)
Definition trunc (q : Q) : Z := if Qle_bool 0 q then Qfloor q else Qceiling q.

Definition remainder (x : Q) (m : Z) : Q :=
  (x - inject_Z (m * trunc (x / inject_Z m)))%Q.

(** [formatUptime(seconds)] *)
Definition formatUptime (seconds : Q) : string :=
  let days := Qfloor (seconds / 86400) in
  let hours := Qfloor (remainder seconds 86400 / 3600) in
  let minutes := Qfloor (remainder seconds 3600 / 60) in
  if days >? 0 then
    Js.string_of_Z days ++ "d " ++ Js.string_of_Z hours ++ "h "
      ++ Js.string_of_Z minutes ++ "m"
  else if hours >? 0 then
    Js.string_of_Z hours ++ "h " ++ Js.string_of_Z minutes ++ "m"
  else Js.string_of_Z minutes ++ "m".

End MonitorTraffic.

(** ** The domain quota along a run *)

(** The rows of a user in the domains table, as the quota query counts
    them. *)
Definition count_of (userId : string) (ds : list domains.row) : Z :=
  Z.of_nat (length (filter (λ d, domains.user_id d = userId) ds)).

(** A plan change keeps the domain quota when the quota of the new plan
    is not below the one the user has. *)
Definition keeps_domain_quota (w : World) (op : Op) : bool :=
  match op with
  | Upgrade userId planType _ =>
      match UsersRouter.plans planType with
      | Some (_, quota) =>
          forallb (λ u, bool_decide (users.id u = userId → users.domain_quota u ≤ quota))
                  (t_users (db w))
      | None => true
      end
  | _ => true
  end.

Fixpoint never_lowers_domain_quota (env : Env) (w : World) (ops : list Op) : bool :=
  match ops with
  | [] => true
  | op :: ops' =>
      keeps_domain_quota w op && never_lowers_domain_quota env (step env w op) ops'
  end.

(** What the users and domains tables keep along the way: the user
    identifiers are distinct, every domain has its owner in the users
    table, and no user has more domains than the domain quota. *)
Record registry (us : list users.row) (ds : list domains.row) : Prop := {
  registry_ids : NoDup (users.id <$> us);
  registry_owned : ∀ d, d ∈ ds → domains.user_id d ∈ users.id <$> us;
  registry_quota : ∀ u, u ∈ us → count_of (users.id u) ds ≤ users.domain_quota u
}.

(** The keys of the domains table: identifiers and verification tokens
    are distinct, and every row carries the descriptor the registration
    computes for its name and identifier. *)
Record domain_keys (env : Env) (ds : list domains.row) : Prop := {
  keys_ids : NoDup (domains.id <$> ds);
  keys_tokens : NoDup (domains.verification_token <$> ds);
  keys_dns : ∀ d, d ∈ ds →
               domains.dns_records d
               = Some (DomainsRouter.dnsRecords_for env (domains.domain_name d) (domains.id d))
}.

(** The domain requests of a user. *)
Definition domain_request_of (userId : string) (op : Op) : Prop :=
  match op with
  | PostDomain u _ _ _ _ _ _ | Verify u _ _ _ | PutDomain u _ _ _ _ | DeleteDomain u _ =>
      u = userId
  | _ => False
  end.

(** The events of a user in a period, of one type. *)
Definition events_of (userId : string) (period : option string) (now : Z) (ty : string)
    (w : World) : list analytics.row :=
  filter (λ e, analytics.user_id e = userId
               ∧ MonitorRouter.dateFilter period now ≤ analytics.created_at e
               ∧ analytics.event_type e = ty)
         (t_analytics (db w)).

(** The events of a domain in a period. *)
Definition domain_events (did : string) (period : option string) (now : Z) (w : World)
  : list analytics.row :=
  filter (λ e, analytics.domain_id e = Some did
               ∧ MonitorRouter.dateFilter period now ≤ analytics.created_at e)
         (t_analytics (db w)).

(** ** routes/users.js: the account statistics *)

Module UsersStats.

(** The figures of the reply of [GET /stats].  The websites count, the
    plan with its date and the recent activity are left out: the
    websites table and the creation dates are not in the store of this
    development. *)
Record Stats : Type := {
  storage_quota : Js.value;
  storage_used : option Z;
  storage_available : option Z;
  storage_percentage : option Z;
  domains_quota : Js.value;
  domains_used : Js.value;
  domains_available : option Z;
  files_count : Js.value;
  totalDownloads : Z
}.

(** [GET /stats]; [parseInt(x) || 0] is 0 when [x] is NULL. *)
Definition get_stats (env : Env) (userId : string) (w : World) : reply Stats :=
  match filter (λ u, users.id u = userId) (t_users (db w)) with
  | [] => Error 404 "User not found"
  | u :: _ =>
      let mine := filter (λ f, files.user_id f = userId) (t_files (db w)) in
      let quota := decode (int8 (parsers env)) (users.storage_quota u) in
      let used := decode (numeric (parsers env))
                         (FilesRouter.sum_file_size userId (db w)) in
      let dq := Js.Num (users.domain_quota u) in
      let dc := decode (int8 (parsers env))
                       (DomainsRouter.count_domains userId (db w)) in
      let downloads :=
        match mine with
        | [] => None
        | _ :: _ =>
            Some (decode (int8 (parsers env))
                         (foldr Z.add 0 (files.download_count <$> mine)))
        end in
      Json 200
        {| storage_quota := quota;
           storage_used := Js.parseInt used;
           storage_available := FilesUsage.minus (Js.ToNumber quota) (Js.parseInt used);
           storage_percentage :=
             FilesUsage.percentage (Js.parseInt used) (Js.ToNumber quota);
           domains_quota := dq;
           domains_used := dc;
           domains_available := FilesUsage.minus (Js.ToNumber dq) (Js.ToNumber dc);
           files_count := decode (int8 (parsers env)) (Z.of_nat (length mine));
           totalDownloads := default 0 (FilesUsage.parseInt_nullable downloads) |}
  end.

End UsersStats.

(** ** server.js: the static route over the upload directory *)

Module Server.

(** [app.use('/uploads', express.static('uploads'))]: a request for
    [/uploads/rest] is answered with the file [uploads/rest] when there
    is one, before any router and with no look at the tables; otherwise
    the request goes on ([None]). *)
Definition static_uploads (rest : string) (w : World) : option string :=
  if decide (("uploads/" ++ rest) ∈ disk w) then Some ("uploads/" ++ rest) else None.

End Server.

(** A row of the files table as an upload leaves it: a type the
    filter lets through, a size within the limit of the middleware, the
    path under the directory of its user, and a download count an
    INTEGER column can hold. *)
Record stored_file (env : Env) (f : files.row) : Prop := {
  stored_type : FilesRouter.fileFilter (files.mime_type f) = true;
  stored_size : 0 ≤ files.file_size f ≤ FilesRouter.fileSize env;
  stored_path : files.file_path f
                = FilesRouter.destination env (files.user_id f) ++ "/"
                    ++ files.stored_name f;
  stored_count : 0 ≤ files.download_count f ≤ FilesRouter.int4_max
}.

(** * Properties *)

(** ** Numbers and strings across the client *)

Section Coercions.

Lemma Z_of_string_of_Z (z : Z) : Js.Z_of_string (Js.string_of_Z z) = Some z.
Proof.
  unfold Js.Z_of_string, Js.string_of_Z.
  rewrite NilZero.isi.
  - simpl. by rewrite DecimalZ.of_to.
  - destruct z; simpl; try discriminate.
    intros [= H]. by apply DecimalPos.Unsigned.to_uint_nonnil in H.
  - destruct z; simpl; try discriminate.
    intros [= H]. by apply DecimalPos.Unsigned.to_uint_nonnil in H.
Qed.

(** Whatever the parser, a decoded column converts back to its number. *)
Lemma ToNumber_decode (d : Decoding) (z : Z) : Js.ToNumber (decode d z) = Some z.
Proof. destruct d; simpl; [apply Z_of_string_of_Z | done]. Qed.

Lemma parseInt_decode (d : Decoding) (z : Z) : Js.parseInt (decode d z) = Some z.
Proof. destruct d; unfold Js.parseInt; simpl; apply Z_of_string_of_Z. Qed.


Lemma ge_decode_Num (d : Decoding) (a b : Z) :
  Js.ge (decode d a) (Js.Num b) = (a >=? b).
Proof. destruct d; simpl; [by rewrite Z_of_string_of_Z | done]. Qed.

Lemma gt_Num_decode (d : Decoding) (a b : Z) :
  Js.gt (Js.Num a) (decode d b) = (a >? b).
Proof. destruct d; simpl; [by rewrite Z_of_string_of_Z | done]. Qed.

(** The sum of a Number column and a Number is a Number. *)
Lemma add_decode_number (a b : Z) :
  Js.add (decode AsNumber a) (Js.Num b) = Js.Num (a + b).
Proof. done. Qed.

(** The sum of a String column and a Number is the concatenation. *)
Lemma add_decode_string (a b : Z) :
  Js.add (decode AsString a) (Js.Num b)
  = Js.Str (Js.string_of_Z a ++ Js.string_of_Z b).
Proof. done. Qed.

End Coercions.

(** ** Download *)

Section Download.

Import FilesRouter.

Lemma download_count_bump (f : files.row) :
  files.download_count (bump f) = files.download_count f + 1.
Proof. done. Qed.

(** The outcome of a download, case by case. *)
Lemma get_download_cases (userId fid : string) (w : World) :
  match filter (λ f, files.id f = fid) (t_files (db w)) with
  | [] => get_download userId fid w = (Error 404 "File not found", w)
  | file :: _ =>
      if bool_decide (files.user_id file ≠ userId) && negb (files.is_public file)
      then get_download userId fid w = (AccessDenied, w)
      else if negb (fs.access (files.file_path file) (disk w))
      then get_download userId fid w = (Error 404 "File not found on disk", w)
      else
        (get_download userId fid w = (Error 500 "Failed to download file", w))
        ∨ (∃ body, get_download userId fid w
                   = (Json 200 body,
                      with_files ((λ f, if decide (files.id f = fid) then bump f else f)
                                    <$> t_files (db w)) w))
  end.
Proof.
  unfold get_download.
  destruct (filter _ _) as [|file rest]; [done|].
  destruct (_ && _); [done|].
  destruct (negb _); [done|].
  unfold increment_download_count.
  case_bool_decide; [by left | right; eauto].
Qed.



(** A public and a private file of one user, asked for by another:
    the public one is served and counted, the private one is denied and
    not counted. *)
Example download_by_stranger :
  let part name := {| part_originalname := name; part_mimetype := "text/plain";
                      part_size := 5; part_filename := "file-" ++ name |} in
  let w := run default_env
             [ Signup "owner@example.org" "u1";
               Upload "u1" (part "public.txt") (Some true) [] "f1";
               Download "u2" "f1";
               Download "u2" "f1" ]
             empty_world in
  files.download_count <$> t_files (db w) = [2]
  ∧ (∃ body, (get_download "u2" "f1" w).1 = Json 200 body)
  ∧ get_download "u2" "f1"
      (run default_env [ PutFile "u1" "f1" (Some (Js.BBool false)) None [] ] w)
    = (AccessDenied,
       run default_env [ PutFile "u1" "f1" (Some (Js.BBool false)) None [] ] w).
Proof. split_and!; [by vm_compute | eexists; by vm_compute | by vm_compute]. Qed.

End Download.

(** ** Deleting a file *)

Section DeleteFile.

Import FilesRouter.



(** The unlink does fail on a path that is not in the directory, and
    the row of such a file is deleted with a 200. *)
Example delete_file_without_bytes :
  let f := {| files.id := "f1"; files.user_id := "u1"; files.original_name := "a.txt";
              files.stored_name := "file-1-2.txt"; files.file_path := "uploads/u1/file-1-2.txt";
              files.file_size := 5; files.mime_type := "text/plain";
              files.is_public := false; files.download_count := 0 |} in
  let w := with_files [f] empty_world in
  fs.unlink (files.file_path f) (disk w) = None
  ∧ delete_file "u1" "f1" w = (Json 200 "File deleted successfully", empty_world).
Proof. by vm_compute. Qed.

End DeleteFile.

(** ** Updating a domain, a file, a profile *)

Section Update.

Lemma fmap_if_no_hit {A} (P : A → bool) (g : A → A) (l : list A) :
  filter (λ x, P x = true) l = [] → (λ x, if P x then g x else x) <$> l = l.
Proof.
  induction l as [|x l IH]; [done|]. rewrite filter_cons.
  destruct (decide (P x = true)) as [|Hn]; [done|].
  intros Hl. rewrite fmap_cons, (IH Hl).
  apply not_true_is_false in Hn. by rewrite Hn.
Qed.

(** C10. An update of a domain writes the [autoRenew] of the request
    into [auto_renew] of every row it matches, and NULL when the field
    is omitted; the reply carries the written row.  The file and the
    profile updates refuse a request with no field, and a file update
    that only names the file leaves [is_public] alone. *)
Theorem put_domain_always_binds_auto_renew :
  (∀ userId did autoRenew now w,
     let hit d := bool_decide (domains.id d = did ∧ domains.user_id d = userId) in
     let w' := (DomainsRouter.put_domain userId did autoRenew [] now w).2 in
     t_domains (db w')
     = (λ d, if hit d then DomainsRouter.set_auto_renew autoRenew now d else d)
         <$> t_domains (db w)
     ∧ ∀ d, d ∈ t_domains (db w) → hit d = true →
            ∃ d', d' ∈ t_domains (db w')
                  ∧ domains.id d' = did
                  ∧ domains.auto_renew d' = autoRenew
                  ∧ domains.status d' = domains.status d
                  ∧ domains.ssl_status d' = domains.ssl_status d)
  ∧ (∀ now d, domains.auto_renew (DomainsRouter.set_auto_renew None now d) = None)
  ∧ (∀ userId fid w,
       FilesRouter.put_file userId fid None None [] w
       = (Error 400 "No fields to update", w))
  ∧ (∀ userId fid originalName w,
       Forall2 (λ f f', files.is_public f' = files.is_public f)
               (t_files (db w))
               (t_files (db (FilesRouter.put_file userId fid None (Some originalName) [] w).2)))
  ∧ (∀ userId fid isPublic w,
       Forall2 (λ f f', files.original_name f' = files.original_name f)
               (t_files (db w))
               (t_files (db (FilesRouter.put_file userId fid (Some (Js.BBool isPublic)) None [] w).2)))
  ∧ (∀ userId w,
       UsersRouter.put_profile userId None None None [] w
       = (Error 400 "No fields to update", w))
  ∧ (∀ userId lastName w,
       Forall2 (λ u u', users.first_name u' = users.first_name u
                        ∧ users.email u' = users.email u)
               (t_users (db w))
               (t_users (db (UsersRouter.put_profile userId None (Some lastName) None [] w).2))).
Proof.
  split_and!.
  - intros userId did autoRenew now w hit w'. subst hit w'.
    unfold DomainsRouter.put_domain. cbv zeta.
    destruct (filter _ (t_domains (db w))) as [|d0 rest] eqn:Hrows; simpl.
    + split; [by rewrite (fmap_if_no_hit _ _ _ Hrows)|].
      intros d Hd Hhit.
      assert (Hin : d ∈ filter
                (λ d, bool_decide (domains.id d = did ∧ domains.user_id d = userId) = true)
                (t_domains (db w)))
        by by apply list_elem_of_filter.
      rewrite Hrows in Hin. by apply elem_of_nil in Hin.
    + split; [done|].
      intros d Hd Hhit.
      exists (DomainsRouter.set_auto_renew autoRenew now d). split_and!; try done.
      * apply list_elem_of_fmap. exists d. by rewrite Hhit.
      * simpl. by apply bool_decide_eq_true in Hhit as [? _].
  - done.
  - done.
  - intros userId fid originalName w. unfold FilesRouter.put_file.
    unfold FilesRouter.updateFields.
    destruct (Js.truthy originalName); simpl.
    + destruct (_ <$> filter _ _); simpl.
      * by apply Forall_Forall2_diag, Forall_forall.
      * apply Forall2_fmap_r, Forall_Forall2_diag, Forall_forall.
        intros f _. unfold compose. simpl. by case_bool_decide.
    + by apply Forall_Forall2_diag, Forall_forall.
  - intros userId fid isPublic w. unfold FilesRouter.put_file. simpl.
    destruct (_ <$> filter _ _); simpl.
    + by apply Forall_Forall2_diag, Forall_forall.
    + apply Forall2_fmap_r, Forall_Forall2_diag, Forall_forall.
      intros f _. unfold compose. simpl. by case_bool_decide.
  - done.
  - intros userId lastName w. unfold UsersRouter.put_profile. simpl.
    destruct (_ <$> filter _ _); simpl.
    + by apply Forall_Forall2_diag, Forall_forall.
    + apply Forall2_fmap_r, Forall_Forall2_diag, Forall_forall.
      intros u _. unfold compose. simpl. by case_decide.
Qed.

Lemma put_domain_always_binds_auto_renew_witness :
  domains.auto_renew <$> t_domains (db four_events) = [Some true]
  ∧ ∃ d', d' ∈ t_domains (db (DomainsRouter.put_domain "u1" "d1" None [] 200 four_events).2)
          ∧ domains.id d' = "d1"
          ∧ domains.auto_renew d' = None.
Proof.
  split; [by vm_compute|].
  destruct put_domain_always_binds_auto_renew as (Hput & _).
  destruct (Hput "u1" "d1" None 200 four_events) as (_ & Hrow).
  destruct (t_domains (db four_events)) as [|d ds] eqn:Hds; [by vm_compute in Hds|].
  destruct (Hrow d) as (d' & Hd' & Hid & Har & _).
  - left.
  - vm_compute in Hds. injection Hds as <- _. by vm_compute.
  - exists d'. by split_and!.
Defined.

(** A domain with [auto_renew] true, updated with a body that omits
    [autoRenew]: the column is NULL afterwards. *)
Example put_domain_omitted_auto_renew :
  let w := run default_env
             [ Signup "owner@example.org" "u1";
               PostDomain "u1" "example.com" (Some true) [] "token-1" "d1" 100 ]
             empty_world in
  domains.auto_renew <$> t_domains (db w) = [Some true]
  ∧ domains.auto_renew <$> t_domains (db (DomainsRouter.put_domain "u1" "d1" None [] 200 w).2)
    = [None].
Proof. by vm_compute. Qed.

End Update.

(** ** Verifying a domain *)

Section Verify.

Import DomainsRouter.

Lemma get_selected_id (d : domains.row) :
  get (select ["id"; "domain_name"; "verification_token"; "status"] d) "id"
  = Some (Text (domains.id d)).
Proof. done. Qed.

(** The verify handler never selected [dns_records]. *)
Lemma get_selected_dns_records (d : domains.row) :
  get (select ["id"; "domain_name"; "verification_token"; "status"] d) "dns_records"
  = None.
Proof. done. Qed.

(** A verify request has three outcomes: no row of the caller, and
    nothing changes; the predicate holds, and every row with the
    identifier becomes active with its certificate and is stamped; the
    predicate fails, and nothing changes and the reply carries no
    descriptor. *)
Lemma post_verify_outcomes (userId did : string) (random : Q) (now : Z) (w : World) :
  (filter (λ d, domains.id d = did ∧ domains.user_id d = userId) (t_domains (db w)) = []
   ∧ post_verify userId did random now w = (Error 404 "Domain not found", w))
  ∨ (isVerified random = true
     ∧ post_verify userId did random now w
       = (Json 200 (Verified "Domain verified successfully" "active" "active"),
          with_domains ((λ d, if bool_decide (domains.id d = did)
                              then set_verified now d else d)
                          <$> t_domains (db w)) w))
  ∨ (isVerified random = false
     ∧ post_verify userId did random now w
       = (Json 400 (VerificationFailed "Domain verification failed"
                      "DNS records not configured correctly" None), w)).
Proof.
  unfold post_verify.
  destruct (filter _ _) as [|d rest] eqn:Hrows; [by left | right].
  assert (Hd : domains.id d = did).
  { assert (Hin : d ∈ filter (λ d, domains.id d = did ∧ domains.user_id d = userId)
                             (t_domains (db w))) by (rewrite Hrows; left).
    by apply list_elem_of_filter in Hin as [[? _] _]. }
  rewrite fmap_cons.
  destruct (isVerified random); [left | right]; split; try done.
  by rewrite get_selected_id, Hd.
Qed.

(** C2. A verify request whose predicate fails answers 400 with no
    descriptor in the body and changes nothing: [domain.dns_records] is
    read from a row that was selected without that column.  So it goes
    for a domain just registered by its owner, pending, certificate
    pending, descriptor stored, when [Math.random()] gives 0.1. *)
Theorem verify_failure_reply_has_no_descriptor :
  (∀ userId did random now w d rest,
     filter (λ d, domains.id d = did ∧ domains.user_id d = userId) (t_domains (db w))
     = d :: rest →
     isVerified random = false →
     post_verify userId did random now w
     = (Json 400 (VerificationFailed "Domain verification failed"
                    "DNS records not configured correctly" None), w))
  ∧ (let w := run default_env
                [ Signup "owner@example.org" "u1";
                  PostDomain "u1" "example.com" None [] "token-1" "d1" 100 ]
                empty_world in
     domains.status <$> t_domains (db w) = ["pending"]
     ∧ domains.ssl_status <$> t_domains (db w) = ["pending"]
     ∧ domains.dns_records <$> t_domains (db w)
       = [Some (dnsRecords_for default_env "example.com" "d1")]
     ∧ post_verify "u1" "d1" (1 # 10) 200 w
       = (Json 400 (VerificationFailed "Domain verification failed"
                      "DNS records not configured correctly" None), w)).
Proof.
  split; [|by vm_compute].
  intros userId did random now w d rest Hrows Hfail.
  destruct (post_verify_outcomes userId did random now w)
    as [[Hnil _] | [[Hok _] | [_ ->]]]; [|congruence|done].
  by rewrite Hrows in Hnil.
Qed.

(** On a pending domain the outcome is all or nothing: either the row
    is active with an active certificate and stamped with the time of
    the request, or it is the row it was. *)
Lemma verify_is_atomic (userId did : string) (random : Q) (now : Z) (w : World) :
  Forall2 (λ d d',
             d' = d
             ∨ (domains.id d = did
                ∧ domains.status d' = "active"
                ∧ domains.ssl_status d' = "active"
                ∧ domains.last_verified d' = Some now))
          (t_domains (db w))
          (t_domains (db (post_verify userId did random now w).2)).
Proof.
  destruct (post_verify_outcomes userId did random now w)
    as [[_ ->] | [[_ ->] | [_ ->]]]; simpl.
  - apply Forall_Forall2_diag, Forall_forall. auto.
  - apply Forall2_fmap_r, Forall_Forall2_diag, Forall_forall.
    intros d _. unfold compose. simpl. case_bool_decide; [right | left]; done.
  - apply Forall_Forall2_diag, Forall_forall. auto.
Qed.

End Verify.

(** ** Registering a domain *)

Section Register.

Import DomainsRouter.

(** The quota test of a registration is the numeric comparison of the
    row count with the quota, however the count is decoded. *)
Lemma quota_test (env : Env) (userId : string) (s : Store) (u : users.row) rest :
  filter (λ u, users.id u = userId) (t_users s) = u :: rest →
  ∃ q qs, select_quota env userId s = q :: qs
          ∧ Js.ge (current_count q) (domain_quota q)
            = (count_domains userId s >=? users.domain_quota u).
Proof.
  intros Hu. unfold select_quota. rewrite Hu, fmap_cons.
  eexists _, _. split; [done|]. simpl. apply ge_decode_Num.
Qed.

(** C5. A registration by a user at or over the domain quota fails with
    QuotaExceeded, whether or not the name is taken; below the quota it
    fails with DuplicateDomain as soon as some row, of any user, carries
    exactly that name.  Neither failure changes anything. *)
Theorem register_quota_before_duplicate
    (env : Env) (w : World) (userId domainName : string) (autoRenew : option bool)
    (verificationToken newId : string) (now : Z) (u : users.row) (rest : list users.row) :
  filter (λ u, users.id u = userId) (t_users (db w)) = u :: rest →
  let r := post_domain env userId domainName autoRenew [] verificationToken newId now w in
  let n := count_domains userId (db w) in
  (users.domain_quota u ≤ n → r = (QuotaExceeded, w))
  ∧ (n < users.domain_quota u →
     (∃ d, d ∈ t_domains (db w) ∧ domains.domain_name d = domainName) →
     r = (DuplicateDomain, w)).
Proof.
  intros Hu r n. subst r n. unfold post_domain.
  destruct (quota_test env userId (db w) u rest Hu) as (q & qs & -> & ->).
  split.
  - intros Hn. by rewrite (proj2 (Z.geb_le _ _)) by lia.
  - intros Hn (d & Hd & Hname).
    destruct (Z.geb_spec (count_domains userId (db w)) (users.domain_quota u)); [lia|].
    destruct (filter _ (t_domains (db w))) as [|d0 ds] eqn:Hrows; [|done].
    assert (Hin : d ∈ filter (λ d, domains.domain_name d = domainName) (t_domains (db w)))
      by by apply list_elem_of_filter.
    rewrite Hrows in Hin. by apply elem_of_nil in Hin.
Qed.

Lemma register_quota_before_duplicate_witness :
  (∃ u rest, filter (λ u, users.id u = "u1") (t_users (db two_tenants)) = u :: rest)
  ∧ post_domain default_env "u1" "example.com" None [] "token-4" "d4" 130 two_tenants
    = (DuplicateDomain, two_tenants).
Proof.
  split.
  - vm_compute. eauto.
  - eapply (register_quota_before_duplicate default_env two_tenants "u1" "example.com").
    + vm_compute. reflexivity.
    + vm_compute. reflexivity.
    + vm_compute. eexists. split; [left | reflexivity].
Defined.

(** The comparison of names is exact: the same name in another case is
    a new domain. *)
Example register_other_case :
  ∃ body w', post_domain default_env "u1" "Example.com" None [] "token-4" "d4" 130 two_tenants
             = (Json 201 body, w')
             ∧ domains.domain_name <$> t_domains (db w')
               = ["example.com"; "second.example.net"; "third.example.net"; "Example.com"].
Proof. eexists _, _. by vm_compute. Qed.

End Register.

(** ** Error rates of a domain *)

Section ErrorRates.

Import MonitorRouter.

(** [Math.round] returns an integer nearest to its argument. *)
Lemma Math_round_nearest (x : Q) :
  (Qabs (inject_Z (Js.Math_round x) - x) <= 1 # 2)%Q.
Proof.
  unfold Js.Math_round.
  pose proof (Qfloor_le (x + (1 # 2))) as Hlo.
  pose proof (Qlt_floor (x + (1 # 2))) as Hhi.
  rewrite inject_Z_plus in Hhi. change (inject_Z 1) with 1%Q in Hhi.
  set (p := inject_Z (Qfloor (x + (1 # 2)))) in *.
  apply Qabs_Qle_condition. split; lra.
Qed.




(** Three page views and one error logged on the same day for a
    domain: the statistics of the last 24 hours count four requests and
    one error and give 25, whichever way the counts are decoded. *)
Example error_percentage_scenario (parsers_ : TypeParsers) :
  let env := {| parsers := parsers_; RENDER_EXTERNAL_HOSTNAME := None;
                UPLOAD_DIR := None; MAX_FILE_SIZE := None |} in
  let w := run env
             [ Signup "owner@example.org" "u1";
               PostDomain "u1" "example.com" None [] "token-1" "d1" 100;
               Log "u1" (Some "page_view") "{}" None (Some "d1") None 1000;
               Log "u1" (Some "page_view") "{}" None (Some "d1") None 1001;
               Log "u1" (Some "page_view") "{}" None (Some "d1") None 1002;
               Log "u1" (Some "error") "{}" None (Some "d1") None 1003 ]
             empty_world in
  ∃ body, get_domain_stats env "u1" "d1" (Some "24h") 2000 w = Json 200 body
          ∧ snd <$> errorRates body = [Some 25]
          ∧ stats_totalErrors body = Some 1
          ∧ ∃ a, get_analytics env "u1" (Some "24h") 2000 w = Json 200 a
                 ∧ totalPageViews a = Some 3 ∧ totalErrors a = Some 1.
Proof. destruct parsers_ as [[] []]; eexists; (split; [by vm_compute|]);
  split_and!; try by vm_compute. all: eexists; by vm_compute. Qed.

End ErrorRates.

(** ** Traffic sources *)

Section TrafficSources.

Import MonitorRouter.

Lemma prefix_app (pat s : string) :
  String.prefix pat s = true ↔ ∃ post, s = pat ++ post.
Proof.
  revert s. induction pat as [|c pat IH]; intros s; simpl.
  - destruct s; split; eauto.
  - destruct s as [|c' s]; simpl.
    + split; [done | by intros [? [=]]].
    + destruct (ascii_dec c c') as [->|Hne].
      * rewrite IH. split; intros [post H]; exists post; simpl in *.
        -- by rewrite H.
        -- by injection H.
      * split; [done | intros [post H]].
        change (String c' s = String c (pat ++ post)) in H. congruence.
Qed.

(** The LIKE pattern with a percent sign on both sides holds exactly
    when the word occurs in the text. *)
Lemma like_contains_occurs (pat s : string) :
  like_contains pat s = true ↔ occurs pat s.
Proof.
  unfold occurs. induction s as [|c s IH]; cbn [like_contains].
  - rewrite orb_false_r, prefix_app. split.
    + intros [post H]. by exists "", post.
    + intros (pre & post & H). destruct pre; simpl in H; [by exists post|done].
  - rewrite orb_true_iff, prefix_app, IH. split.
    + intros [[post H] | (pre & post & H)].
      * by exists "", post.
      * exists (String c pre), post. simpl. by rewrite H.
    + intros (pre & post & H). destruct pre as [|c' pre]; simpl in H.
      * left. by exists post.
      * right. injection H as -> H. by exists pre, post.
Qed.

Lemma not_like_contains (pat s : string) :
  like_contains pat s = false ↔ ¬ occurs pat s.
Proof. rewrite <- like_contains_occurs. by destruct (like_contains pat s). Qed.

(** The rows of a GROUP BY with its COUNT. *)
Lemma elem_of_count_by {A K} `{EqDecision K} (key : A → K) (l : list A) k n :
  (k, n) ∈ count_by key l ↔
  k ∈ key <$> l ∧ n = length (filter (λ a, key a = k) l).
Proof.
  unfold count_by. rewrite list_elem_of_fmap. split.
  - intros (k' & Heq & Hk). injection Heq as -> ->.
    rewrite elem_of_remove_dups in Hk. split; [exact Hk | reflexivity].
  - intros [Hk ->]. exists k. by rewrite elem_of_remove_dups.
Qed.

(** C7, as the handler has it.  An event without referrer, or with an
    empty one, counts as Direct; otherwise the first of google,
    facebook, twitter, linkedin that occurs anywhere in the stored
    referrer, path and query string included, names the source, and
    Other is what is left.  Each row of the traffic sources of a query
    counts the events of the user in the period that fall in its
    source. *)
Theorem traffic_source_of_whole_referrer :
  (∀ r, r = None ∨ r = Some "" → source r = "Direct")
  ∧ (∀ s, s ≠ "" →
       (occurs "google" s → source (Some s) = "Google")
       ∧ (¬ occurs "google" s → occurs "facebook" s → source (Some s) = "Facebook")
       ∧ (¬ occurs "google" s → ¬ occurs "facebook" s → occurs "twitter" s →
          source (Some s) = "Twitter")
       ∧ (¬ occurs "google" s → ¬ occurs "facebook" s → ¬ occurs "twitter" s →
          occurs "linkedin" s → source (Some s) = "LinkedIn")
       ∧ (¬ occurs "google" s → ¬ occurs "facebook" s → ¬ occurs "twitter" s →
          ¬ occurs "linkedin" s → source (Some s) = "Other"))
  ∧ (∀ env userId period now w row,
       row ∈ trafficSourcesResult env userId period now w →
       let events :=
         filter (λ e, source (analytics.referrer e) = src row)
                (filter (λ e, analytics.user_id e = userId
                              ∧ dateFilter period now ≤ analytics.created_at e)
                        (t_analytics (db w))) in
       events ≠ []
       ∧ visits row = decode (int8 (parsers env)) (Z.of_nat (length events))).
Proof.
  split_and!.
  - by intros r [-> | ->].
  - intros s Hs. unfold source. destruct (decide (s = "")); [done|].
    rewrite <- !not_like_contains, <- !like_contains_occurs.
    split_and!; intros; by repeat match goal with H : _ = _ |- _ => rewrite H end.
  - intros env userId period now w row Hrow events. subst events.
    unfold trafficSourcesResult in Hrow.
    apply list_elem_of_fmap in Hrow as ([k n] & -> & Hkn).
    rewrite merge_sort_Permutation in Hkn.
    apply elem_of_count_by in Hkn as [Hk ->]. simpl. split; [|done].
    apply list_elem_of_fmap in Hk as (e & -> & He).
    intros Hnil.
    assert (Hin : e ∈ filter (λ e', source (analytics.referrer e') = source (analytics.referrer e))
                        (filter (λ e, analytics.user_id e = userId
                                      ∧ dateFilter period now ≤ analytics.created_at e)
                                (t_analytics (db w))))
      by by apply list_elem_of_filter.
    rewrite Hnil in Hin. by apply elem_of_nil in Hin.
Qed.

Lemma traffic_source_of_whole_referrer_witness :
  "https://news.example.org/item?utm_source=twitter" ≠ ""
  ∧ source (Some "https://news.example.org/item?utm_source=twitter") = "Twitter".
Proof.
  split; [done|].
  apply (proj1 (proj2 traffic_source_of_whole_referrer)
           "https://news.example.org/item?utm_source=twitter"); [done|..].
  - apply not_like_contains. by vm_compute.
  - apply not_like_contains. by vm_compute.
  - apply like_contains_occurs. by vm_compute.
Defined.

(** The word is looked for in the whole referrer, not in its host: a
    referrer of host example.com whose query string mentions google
    counts as Google, and the match on the host would say Other. *)
Lemma source_matches_beyond_the_host :
  Worded.host "https://example.com/search?q=google" = "example.com"
  ∧ source (Some "https://example.com/search?q=google") = "Google"
  ∧ Worded.source_of_host (Some "https://example.com/search?q=google") = "Other"
  ∧ source (Some "https://example.com/search?q=google")
    ≠ Worded.source_of_host (Some "https://example.com/search?q=google").
Proof. by vm_compute. Qed.

End TrafficSources.

(** ** What an upload touches *)

Section UploadTables.

Import FilesRouter.

(** The middleware leaves the tables alone and puts the bytes in the
    directory. *)
Lemma upload_single_inr env userId p w f w1 :
  upload_single env userId p w = inr (f, w1) →
  db w1 = db w
  ∧ path f ∈ disk w1
  ∧ size f = Z.of_N (part_size p).
Proof.
  unfold upload_single. repeat case_match; try done.
  intros [= <- <-]. simpl. split_and!; [done| |done].
  unfold fs.write. case_decide; [done | left].
Qed.

(** The handler changes the files table, if anything, by appending one
    row. *)
Lemma post_upload_files env userId f pub errors newId w :
  let w' := (post_upload env userId (Some f) pub errors newId w).2 in
  t_users (db w') = t_users (db w)
  ∧ t_domains (db w') = t_domains (db w)
  ∧ t_analytics (db w') = t_analytics (db w)
  ∧ (t_files (db w') = t_files (db w)
     ∨ ∃ r, insert_file r (db w) = Some (t_files (db w'))
            ∧ files.id r = newId ∧ files.user_id r = userId
            ∧ files.file_size r = size f ∧ files.file_path r = path f
            ∧ ∃ q qs, select_quota env userId (db w) = q :: qs
                      ∧ Js.gt (Js.add (current_storage q) (Js.Num (size f)))
                              (storage_quota q) = false).
Proof.
  unfold post_upload, upload_failed. simpl.
  destruct errors; [|by auto].
  destruct (select_quota env userId (db w)) as [|q qs] eqn:Hq; [by auto|].
  destruct (Js.gt _ _) eqn:Hgt.
  { destruct (fs.unlink _ _); simpl; auto. }
  destruct (insert_file _ _) as [fs'|] eqn:Hins; simpl; [|by auto].
  split_and!; try done. right. eexists. split; [exact Hins|].
  split_and!; try done. eauto.
Qed.

Lemma upload_keeps_tables env userId p pub errors newId w :
  let w' := (upload env userId p pub errors newId w).2 in
  t_users (db w') = t_users (db w)
  ∧ t_domains (db w') = t_domains (db w)
  ∧ t_analytics (db w') = t_analytics (db w).
Proof.
  unfold upload.
  destruct (upload_single env userId p w) as [msg|[f w1]] eqn:Hs; [done|].
  apply upload_single_inr in Hs as (Hdb & _ & _).
  pose proof (post_upload_files env userId f pub errors newId w1) as H.
  cbv zeta in *. destruct H as (-> & -> & -> & _).
  by rewrite Hdb.
Qed.

End UploadTables.

(** ** The domains table along a run *)

Section DomainsTable.

Import DomainsRouter.

Lemma domains_change_names (ds ds' : list domains.row) :
  domains_change ds ds' →
  NoDup (domains.domain_name <$> ds) → NoDup (domains.domain_name <$> ds').
Proof.
  intros [|r g Hfresh _ _ Hg|g Hg|P HP] Hnd.
  - done.
  - rewrite <- list_fmap_compose.
    rewrite (list_fmap_ext (domains.domain_name ∘ g) domains.domain_name)
      by (intros ? d _; apply Hg).
    rewrite fmap_app. simpl. apply NoDup_app. split_and!; [done| |apply NoDup_singleton].
    intros n Hn Hn'. apply list_elem_of_singleton in Hn' as ->. done.
  - rewrite <- list_fmap_compose.
    by rewrite (list_fmap_ext (domains.domain_name ∘ g) domains.domain_name)
      by (intros ? d _; apply Hg).
  - assert (Hsub : domains.domain_name <$> filter P ds
                    `sublist_of` domains.domain_name <$> ds)
      by apply fmap_sublist, sublist_filter.
    exact (sublist_NoDup _ _ Hnd Hsub).
Qed.

Lemma domains_change_status (ds ds' : list domains.row) :
  domains_change ds ds' →
  Forall pending_or_active ds → Forall pending_or_active ds'.
Proof.
  intros [|r g _ Hs Hssl Hg|g Hg|P HP] Hall.
  - done.
  - apply Forall_fmap, Forall_app. split.
    + eapply Forall_impl; [done|]. intros d [Hd Hd']. unfold compose, pending_or_active.
      destruct (Hg d) as (_ & -> & ->). done.
    + apply Forall_singleton. unfold compose, pending_or_active.
      destruct (Hg r) as (_ & -> & ->). rewrite Hs, Hssl. auto.
  - apply Forall_fmap. eapply Forall_impl; [done|]. intros d Hd. by apply Hg.
  - apply Forall_forall. intros d Hd. apply list_elem_of_filter in Hd as [_ Hd].
    by eapply Forall_forall in Hall.
Qed.

(** Each handler of the domains router changes the table in one of
    these ways. *)
Lemma post_domain_change env userId domainName autoRenew errors tok newId now w :
  domains_change (t_domains (db w))
    (t_domains (db (post_domain env userId domainName autoRenew errors tok newId now w).2)).
Proof.
  unfold post_domain.
  destruct errors; [|apply dc_none].
  destruct (select_quota _ _ _); [apply dc_none|].
  destruct (Js.ge _ _); [apply dc_none|].
  destruct (filter _ (t_domains (db w))) as [|d0 ds0] eqn:Hrows; [|apply dc_none].
  unfold insert_domain. simpl.
  repeat case_decide; try apply dc_none. simpl.
  apply dc_insert; try done.
  - simpl. intros Hin. apply list_elem_of_fmap in Hin as (d & Hname & Hd).
    assert (Hf : d ∈ filter (λ d, domains.domain_name d = domainName) (t_domains (db w)))
      by by apply list_elem_of_filter.
    rewrite Hrows in Hf. by apply elem_of_nil in Hf.
  - intros d. by case_decide.
Qed.

Lemma post_verify_change userId did random now w :
  domains_change (t_domains (db w))
    (t_domains (db (post_verify userId did random now w).2)).
Proof.
  destruct (post_verify_outcomes userId did random now w)
    as [[_ ->] | [[_ ->] | [_ ->]]]; simpl; try apply dc_none.
  apply dc_update. intros d. case_bool_decide; [|done].
  split; [done|]. intros _. unfold pending_or_active. simpl. auto.
Qed.

Lemma put_domain_change userId did autoRenew errors now w :
  domains_change (t_domains (db w))
    (t_domains (db (put_domain userId did autoRenew errors now w).2)).
Proof.
  unfold put_domain. destruct errors; [|apply dc_none].
  destruct (_ <$> filter _ _); [apply dc_none|]. simpl.
  apply dc_update. intros d. by case_bool_decide.
Qed.

Lemma delete_domain_change userId did w :
  domains_change (t_domains (db w)) (t_domains (db (delete_domain userId did w).2)).
Proof.
  unfold delete_domain. destruct (filter _ _); [apply dc_none|]. simpl.
  apply dc_delete.
Qed.

Lemma step_domains_change (env : Env) (w : World) (op : Op) :
  domains_change (t_domains (db w)) (t_domains (db (step env w op))).
Proof.
  destruct op; simpl.
  - unfold UsersRouter.signup. case_bool_decide; apply dc_none.
  - rewrite (proj1 (proj2 (upload_keeps_tables env userId p isPublic errors newId w))).
    apply dc_none.
  - pose proof (get_download_cases userId fid w) as H.
    repeat case_match; try (rewrite H; apply dc_none).
    destruct H as [-> | [? ->]]; apply dc_none.
  - unfold FilesRouter.put_file. repeat (case_match; simpl; try apply dc_none).
  - unfold FilesRouter.delete_file. repeat (case_match; simpl; try apply dc_none).
  - apply post_domain_change.
  - apply post_verify_change.
  - apply put_domain_change.
  - apply delete_domain_change.
  - unfold UsersRouter.put_profile. repeat (case_match; simpl; try apply dc_none).
  - unfold UsersRouter.post_upgrade. repeat (case_match; simpl; try apply dc_none).
  - unfold UsersRouter.delete_account. repeat (case_match; simpl; try apply dc_none).
    apply dc_delete.
  - unfold MonitorRouter.post_log. repeat (case_match; simpl; try apply dc_none).
Qed.

Lemma run_snoc (env : Env) (ops : list Op) (op : Op) (w : World) :
  run env (ops ++ [op])%list w = step env (run env ops w) op.
Proof. unfold run. by rewrite foldl_app. Qed.

Lemma run_domain_names (env : Env) (ops : list Op) :
  unique_domain_names (run env ops empty_world).
Proof.
  induction ops as [|op ops IH] using rev_ind.
  - apply NoDup_nil_2.
  - rewrite run_snoc. eapply domains_change_names; [apply step_domains_change | done].
Qed.

(** C9. Whatever requests were served, every row of the domains table
    has a status that is pending or active and a certificate status that
    is pending or active: no handler writes error or expired. *)
Theorem domain_status_pending_or_active (env : Env) (ops : list Op) :
  Forall pending_or_active (t_domains (db (run env ops empty_world))).
Proof.
  induction ops as [|op ops IH] using rev_ind.
  - apply Forall_nil_2.
  - rewrite run_snoc. eapply domains_change_status; [apply step_domains_change | done].
Qed.

End DomainsTable.

(** ** One row per domain name *)

Section DomainNames.

Import DomainsRouter.

(** C3, as the handler has it.  With requests served one at a time, no
    two rows of the domains table ever carry the same name; and a
    registration of a name that some row carries, by whatever user,
    fails and changes nothing.  On a valid request of a user with a row
    in the users table the failure is DuplicateDomain below the domain
    quota and QuotaExceeded at or over it. *)
Theorem registered_name_stays_single (env : Env) (ops : list Op) :
  let w := run env ops empty_world in
  unique_domain_names w
  ∧ ∀ userId domainName autoRenew errors tok newId now,
      domainName ∈ domains.domain_name <$> t_domains (db w) →
      let r := post_domain env userId domainName autoRenew errors tok newId now w in
      r.2 = w
      ∧ ¬ is_success r.1
      ∧ ∀ u rest,
          errors = [] →
          filter (λ u, users.id u = userId) (t_users (db w)) = u :: rest →
          (count_domains userId (db w) < users.domain_quota u → r.1 = DuplicateDomain)
          ∧ (users.domain_quota u ≤ count_domains userId (db w) → r.1 = QuotaExceeded).
Proof.
  intros w. split; [apply run_domain_names|].
  intros userId domainName autoRenew errors tok newId now Hname r. subst r.
  assert (Hrows : filter (λ d, domains.domain_name d = domainName) (t_domains (db w)) ≠ []).
  { apply list_elem_of_fmap in Hname as (d & -> & Hd). intros Hnil.
    assert (Hin : d ∈ filter (λ d', domains.domain_name d' = domains.domain_name d)
                          (t_domains (db w))) by by apply list_elem_of_filter.
    rewrite Hnil in Hin. by apply elem_of_nil in Hin. }
  unfold post_domain.
  destruct errors as [|e errors].
  - destruct (filter (λ u, users.id u = userId) (t_users (db w))) as [|u rest] eqn:Hu.
    + unfold select_quota. rewrite Hu. simpl. split_and!; [done| |done].
      intros (c & b & [=] & _).
    + destruct (quota_test env userId (db w) u rest Hu) as (q & qs & -> & ->).
      destruct (Z.geb_spec (count_domains userId (db w)) (users.domain_quota u)).
      * simpl. split_and!; [done| |].
        -- intros (c & b & [=] & _).
        -- intros u' rest' _ [= <- <-]. split; [lia | done].
      * destruct (filter _ (t_domains (db w))); [done|]. simpl. split_and!; [done| |].
        -- intros (c & b & [=] & _).
        -- intros u' rest' _ [= <- <-]. split; [done | lia].
  - simpl. split_and!; [done| |done]. intros (c & b & [=] & _).
Qed.

Lemma registered_name_stays_single_witness :
  "example.com" ∈ domains.domain_name <$> t_domains (db two_tenants)
  ∧ unique_domain_names two_tenants
  ∧ post_domain default_env "u1" "example.com" None [] "token-4" "d4" 130 two_tenants
    = (DuplicateDomain, two_tenants).
Proof.
  assert (Hname : "example.com" ∈ domains.domain_name <$> t_domains (db two_tenants))
    by (vm_compute; left).
  destruct (registered_name_stays_single default_env
              [ Signup "first@example.org" "u1";
                Signup "second@example.org" "u2";
                PostDomain "u1" "example.com" None [] "token-1" "d1" 100;
                PostDomain "u2" "second.example.net" None [] "token-2" "d2" 110;
                PostDomain "u2" "third.example.net" None [] "token-3" "d3" 120 ])
    as (Huniq & Hrefuse).
  split_and!; [exact Hname | exact Huniq |].
  destruct (Hrefuse "u1" "example.com" None [] "token-4" "d4" 130 Hname)
    as (Hsame & _ & Hkind).
  assert (Hu : ∃ u rest,
             filter (λ u, users.id u = "u1") (t_users (db two_tenants)) = u :: rest
             ∧ count_domains "u1" (db two_tenants) < users.domain_quota u)
    by (vm_compute; eexists _, _; split; reflexivity).
  destruct Hu as (u & rest & Hu & Hlt).
  destruct (Hkind u rest eq_refl Hu) as (Hdup & _).
  apply injective_projections; [by apply Hdup | exact Hsame].
Defined.

(** The second tenant is at the domain quota and asks for the name the
    first one holds: the refusal is QuotaExceeded, not DuplicateDomain. *)
Lemma register_taken_name_at_quota :
  "example.com" ∈ domains.domain_name <$> t_domains (db two_tenants)
  ∧ (post_domain default_env "u2" "example.com" None [] "token-4" "d4" 130 two_tenants).1
    = QuotaExceeded
  ∧ (post_domain default_env "u2" "example.com" None [] "token-4" "d4" 130 two_tenants).1
    ≠ DuplicateDomain.
Proof. split_and!; [vm_compute; left | by vm_compute | by vm_compute]. Qed.

(** The handler is its checks followed by its writes. *)
Lemma post_domain_phases env userId domainName autoRenew errors tok newId now w :
  post_domain env userId domainName autoRenew errors tok newId now w
  = match registration_checks env userId domainName errors (db w) with
    | Some r => (r, w)
    | None => registration_writes env userId domainName autoRenew tok newId now w
    end.
Proof.
  unfold post_domain, registration_checks, registration_writes.
  by repeat case_match.
Qed.

(** The uniqueness rests on the check of the handler alone: the table
    takes a second row of a name, and two registrations of one name
    whose checks both ran before either wrote leave two rows of it. *)
Example interleaved_registrations :
  let w := two_newcomers in
  registration_checks default_env "u1" "example.com" [] (db w) = None
  ∧ registration_checks default_env "u2" "example.com" [] (db w) = None
  ∧ let w1 := (registration_writes default_env "u1" "example.com" None
                 "token-1" "d1" 100 w).2 in
    let w2 := (registration_writes default_env "u2" "example.com" None
                 "token-2" "d2" 100 w1).2 in
    domains.domain_name <$> t_domains (db w2) = ["example.com"; "example.com"]
    ∧ domains.user_id <$> t_domains (db w2) = ["u1"; "u2"].
Proof. by vm_compute. Qed.

End DomainNames.

(** ** The storage ledger *)

Section Ledger.

Import FilesRouter.







(** Rows with distinct identifiers: the identifier names the row. *)
Lemma user_by_id (us : list users.row) (u u' : users.row) :
  NoDup (users.id <$> us) → u ∈ us → u' ∈ us → users.id u = users.id u' → u = u'.
Proof.
  induction us as [|x us IH]; [by intros _ ?%elem_of_nil|].
  rewrite fmap_cons, NoDup_cons. intros [Hx Hnd] Hu Hu' Hid.
  apply elem_of_cons in Hu as [->|Hu]; apply elem_of_cons in Hu' as [->|Hu']; auto.
  - exfalso. apply Hx. rewrite Hid. by apply list_elem_of_fmap_2.
  - exfalso. apply Hx. rewrite <- Hid. by apply list_elem_of_fmap_2.
Qed.

Lemma first_user (us : list users.row) (userId : string) (u : users.row) rest :
  filter (λ u, users.id u = userId) us = u :: rest → u ∈ us ∧ users.id u = userId.
Proof.
  intros Hf. assert (Hin : u ∈ filter (λ u, users.id u = userId) us) by (rewrite Hf; left).
  by apply list_elem_of_filter in Hin as [? ?].
Qed.







End Ledger.

(** ** The ledger along a run, with numeric sums *)

Section QuotaLedger.

Import FilesRouter.

Variable env : Env.
Hypothesis numeric_as_number : numeric (parsers env) = AsNumber.

(** With the sum decoded as a number the test of the upload handler is
    the arithmetic one. *)
Lemma quota_check (userId : string) (s : Store) (n : Z) (u : users.row) rest :
  filter (λ u, users.id u = userId) (t_users s) = u :: rest →
  ∃ q qs, select_quota env userId s = q :: qs
          ∧ Js.gt (Js.add (current_storage q) (Js.Num n)) (storage_quota q)
            = (sum_file_size userId s + n >? users.storage_quota u).
Proof.
  intros Hu. unfold select_quota. rewrite Hu, fmap_cons.
  eexists _, _. split; [done|]. simpl. rewrite numeric_as_number. simpl.
  apply gt_Num_decode.
Qed.








(** The domains router and the event log leave users and files alone. *)
Lemma post_domain_ledger userId domainName autoRenew errors tok newId now w :
  let w' := (DomainsRouter.post_domain env userId domainName autoRenew errors tok newId now w).2 in
  t_users (db w') = t_users (db w) ∧ t_files (db w') = t_files (db w).
Proof. unfold DomainsRouter.post_domain. by repeat (case_match; simpl). Qed.

Lemma post_verify_ledger userId did random now w :
  let w' := (DomainsRouter.post_verify userId did random now w).2 in
  t_users (db w') = t_users (db w) ∧ t_files (db w') = t_files (db w).
Proof.
  by destruct (post_verify_outcomes userId did random now w)
    as [[_ ->] | [[_ ->] | [_ ->]]].
Qed.

Lemma put_domain_ledger userId did autoRenew errors now w :
  let w' := (DomainsRouter.put_domain userId did autoRenew errors now w).2 in
  t_users (db w') = t_users (db w) ∧ t_files (db w') = t_files (db w).
Proof. unfold DomainsRouter.put_domain. by repeat (case_match; simpl). Qed.

Lemma delete_domain_ledger userId did w :
  let w' := (DomainsRouter.delete_domain userId did w).2 in
  t_users (db w') = t_users (db w) ∧ t_files (db w') = t_files (db w).
Proof. unfold DomainsRouter.delete_domain. by repeat (case_match; simpl). Qed.

Lemma post_log_ledger userId ty data ws d ref now w :
  let w' := (MonitorRouter.post_log userId ty data ws d ref now w).2 in
  t_users (db w') = t_users (db w) ∧ t_files (db w') = t_files (db w).
Proof. unfold MonitorRouter.post_log. by repeat (case_match; simpl). Qed.







End QuotaLedger.

(** ** Storage quota *)

Section StorageQuota.

Import FilesRouter.





End StorageQuota.

(** * More of the routers *)

(** A rewrite that names no row of the list changes nothing. *)
Lemma fmap_if_id {A} (P : A → Prop) `{∀ x, Decision (P x)} (g : A → A) (l : list A) :
  (∀ x, x ∈ l → ¬ P x) → (λ x, if decide (P x) then g x else x) <$> l = l.
Proof.
  intros Hno. induction l as [|x l IH]; [done|].
  rewrite fmap_cons, decide_False by (apply Hno; left).
  f_equal. apply IH. intros y Hy. apply Hno. by right.
Qed.

Lemma filter_none {A} (P : A → Prop) `{∀ x, Decision (P x)} (l : list A) :
  (∀ x, x ∈ l → ¬ P x) → filter P l = [].
Proof.
  intros Hno. induction l as [|x l IH]; [done|].
  rewrite filter_cons, decide_False by (apply Hno; left).
  apply IH. intros y Hy. apply Hno. by right.
Qed.

Lemma filter_all {A} (P : A → Prop) `{∀ x, Decision (P x)} (l : list A) :
  (∀ x, x ∈ l → P x) → filter P l = l.
Proof.
  intros Hall. induction l as [|x l IH]; [done|].
  rewrite filter_cons, decide_True by (apply Hall; left).
  f_equal. apply IH. intros y Hy. apply Hall. by right.
Qed.

(** ** Uploads that go wrong, and what follows an upload *)

Section UploadPaths.

Import FilesRouter.

(** X1. A request with a validation error is answered after the middleware
    has stored the part and before anything else: the tables are as they
    were and the part stays in the upload directory. *)
Theorem upload_validation_error_keeps_bytes
    (env : Env) (userId : string) (p : Part) (pub : option bool)
    (e : string) (errors : list string) (newId : string) (w : World)
    (f : MulterFile) (w1 : World) :
  upload_single env userId p w = inr (f, w1) →
  upload env userId p pub (e :: errors) newId w = (Errors (e :: errors), w1)
  ∧ db w1 = db w
  ∧ path f ∈ disk w1.
Proof.
  intros Hs. unfold upload. rewrite Hs. cbv beta iota.
  apply upload_single_inr in Hs as (Hdb & Hdisk & _). done.
Qed.

Lemma upload_validation_error_keeps_bytes_witness :
  (∃ f w1, upload_single numbers_env "u1" one_more_byte empty_world = inr (f, w1)
           ∧ path f ∈ disk w1)
  ∧ (upload numbers_env "u1" one_more_byte None ["isPublic: Invalid value"] "f1"
       empty_world).1
    = Errors ["isPublic: Invalid value"].
Proof.
  destruct (upload_single numbers_env "u1" one_more_byte empty_world)
    as [msg|[f w1]] eqn:Hs; [by vm_compute in Hs|].
  destruct (upload_validation_error_keeps_bytes numbers_env "u1" one_more_byte None
              "isPublic: Invalid value" [] "f1" empty_world f w1 Hs) as (Hr & _ & Hdisk).
  split; [by eexists _, _|]. by rewrite Hr.
Defined.

(** X2. An upload in the name of a user without a row in the users table
    ends in the [catch] block: 500, the tables as they were, the part
    removed from the upload directory. *)
Theorem upload_without_user_cleans_up
    (env : Env) (userId : string) (p : Part) (pub : option bool) (newId : string)
    (w : World) (f : MulterFile) (w1 : World) :
  upload_single env userId p w = inr (f, w1) →
  filter (λ u, users.id u = userId) (t_users (db w)) = [] →
  let r := upload env userId p pub [] newId w in
  r.1 = Error 500 "Failed to upload file"
  ∧ db r.2 = db w
  ∧ path f ∉ disk r.2.
Proof.
  intros Hs Hu r. subst r. unfold upload. rewrite Hs. cbv beta iota.
  apply upload_single_inr in Hs as (Hdb & Hdisk & _).
  unfold post_upload, select_quota. rewrite Hdb, Hu. simpl.
  unfold fs.unlink. rewrite decide_True by done. simpl.
  split_and!; [done|done|].
  intros Hin. by apply list_elem_of_filter in Hin as [Hne _].
Qed.

Lemma upload_without_user_cleans_up_witness :
  (∃ f w1, upload_single numbers_env "u1" one_more_byte empty_world = inr (f, w1))
  ∧ filter (λ u, users.id u = "u1") (t_users (db empty_world)) = []
  ∧ upload numbers_env "u1" one_more_byte None [] "f1" empty_world
    = (Error 500 "Failed to upload file", empty_world).
Proof.
  destruct (upload_single numbers_env "u1" one_more_byte empty_world)
    as [msg|[f w1]] eqn:Hs; [by vm_compute in Hs|].
  pose proof (upload_without_user_cleans_up numbers_env "u1" one_more_byte None "f1"
                empty_world f w1 Hs eq_refl) as (Hr & _ & _).
  split_and!; [by eexists _, _ | done | by vm_compute].
Defined.

(** What a successful upload has done: the middleware stored the part,
    the files table got one row more, with the new identifier, and the
    part is in the upload directory. *)
Lemma upload_success (env : Env) (userId : string) (p : Part) (pub : option bool)
    (errors : list string) (newId : string) (w : World) :
  is_success (upload env userId p pub errors newId w).1 →
  ∃ f r,
    let w' := (upload env userId p pub errors newId w).2 in
    t_files (db w') = (t_files (db w) ++ [r])%list
    ∧ (newId ∉ files.id <$> t_files (db w))
    ∧ t_users (db w') = t_users (db w)
    ∧ disk w' = fs.write (path f) (disk w)
    ∧ path f = (destination env userId ++ "/" ++ part_filename p)
    ∧ r = {| files.id := newId; files.user_id := userId;
             files.original_name := part_originalname p;
             files.stored_name := part_filename p;
             files.file_path := path f;
             files.file_size := Z.of_N (part_size p);
             files.mime_type := part_mimetype p;
             files.is_public := default false pub;
             files.download_count := 0 |}.
Proof.
  unfold upload, upload_single.
  destruct (negb (fileFilter (part_mimetype p))); [by intros (c & b & [=] & _)|].
  destruct (Z.of_N (part_size p) >? fileSize env); [by intros (c & b & [=] & _)|].
  cbv beta iota zeta. unfold post_upload, upload_failed.
  destruct errors; [|by intros (c & b & [=] & _)].
  cbn [db with_disk disk path size originalname filename mimetype].
  destruct (select_quota env userId (db w)) as [|q qs]; [by intros (c & b & [=] & _)|].
  destruct (Js.gt _ _).
  { destruct (fs.unlink _ _); by intros (c & b & [=] & _). }
  unfold insert_file. cbn [files.id].
  destruct (decide (newId ∈ files.id <$> t_files (db w))); [by intros (c & b & [=] & _)|].
  intros _.
  exists {| originalname := part_originalname p;
            filename := part_filename p;
            path := destination env userId ++ "/" ++ part_filename p;
            size := Z.of_N (part_size p);
            mimetype := part_mimetype p |}.
  eexists. cbn. split_and!; done.
Qed.


End UploadPaths.

Section UploadRoundTrip.

Import FilesRouter.

Lemma store_eq (s s' : Store) :
  t_users s = t_users s' → t_domains s = t_domains s' →
  t_files s = t_files s' → t_analytics s = t_analytics s' → s = s'.
Proof. destruct s, s'; simpl; congruence. Qed.


(** X4. Deleting a file just uploaded undoes the upload: the tables are
    what they were before it, and the upload directory is what it was
    without the path of the part. *)
Theorem upload_then_delete
    (env : Env) (userId : string) (p : Part) (pub : option bool) (newId : string)
    (w : World) :
  is_success (upload env userId p pub [] newId w).1 →
  let w1 := (upload env userId p pub [] newId w).2 in
  let stored := destination env userId ++ "/" ++ part_filename p in
  (delete_file userId newId w1).1 = Json 200 "File deleted successfully"
  ∧ db (delete_file userId newId w1).2 = db w
  ∧ disk (delete_file userId newId w1).2 = filter (λ q, q ≠ stored) (disk w)
  ∧ (stored ∉ disk w → (delete_file userId newId w1).2 = w).
Proof.
  intros Hok w1 stored. subst w1.
  destruct (upload_success _ _ _ _ _ _ _ Hok)
    as (f & r & Hfiles & Hfresh & Husers & Hdisk & Hpath & Hr).
  destruct (upload_keeps_tables env userId p pub [] newId w) as (_ & Hdom & Hana).
  cbv zeta in *. set (w1 := (upload env userId p pub [] newId w).2) in *.
  assert (Hold : ∀ x, x ∈ t_files (db w) → ¬ (files.id x = newId ∧ files.user_id x = userId)).
  { intros x Hx [Hid _]. apply Hfresh. rewrite <- Hid. by apply list_elem_of_fmap_2. }
  assert (Hhit : files.id r = newId ∧ files.user_id r = userId) by by rewrite Hr.
  assert (Hrp : files.file_path r = stored) by (by rewrite Hr, Hpath).
  unfold delete_file. rewrite Hfiles, !filter_app.
  rewrite (filter_none _ _ Hold).
  rewrite (filter_all (λ f, ¬ (files.id f = newId ∧ files.user_id f = userId)) _ Hold).
  rewrite !filter_cons, decide_True, decide_False, !filter_nil by tauto.
  cbn [app fst snd]. rewrite app_nil_r, Hrp.
  assert (Hunlink : default (disk w1) (fs.unlink stored (disk w1))
                    = filter (λ q, q ≠ stored) (disk w)).
  { rewrite Hdisk, Hpath. fold stored. unfold fs.unlink, fs.write.
    destruct (decide (stored ∈ disk w)) as [Hin|Hout].
    - by rewrite decide_True.
    - rewrite decide_True by left. cbn [default].
      by rewrite filter_cons, decide_False by tauto. }
  rewrite Hunlink.
  assert (Hdb : db (with_files (t_files (db w))
                      (with_disk (filter (λ q, q ≠ stored) (disk w)) w1)) = db w).
  { apply store_eq; cbn; done. }
  split_and!; [done | exact Hdb | done |].
  intros Hnew.
  assert (Hsame : filter (λ q, q ≠ stored) (disk w) = disk w).
  { apply filter_all. intros q Hq ->. done. }
  rewrite Hsame. unfold with_files, with_disk in *. cbn in Hdb |- *.
  destruct w as [s d]. cbn in *. f_equal. exact Hdb.
Qed.

Lemma upload_then_delete_witness :
  let w := run numbers_env five_bytes empty_world in
  is_success (upload numbers_env "u1" one_more_byte None [] "f2" w).1
  ∧ (delete_file "u1" "f2" (upload numbers_env "u1" one_more_byte None [] "f2" w).2).2 = w.
Proof.
  intros w.
  assert (Hok : is_success (upload numbers_env "u1" one_more_byte None [] "f2" w).1)
    by (vm_compute; eexists _, _; split; [reflexivity | by right]).
  split; [exact Hok|].
  destruct (upload_then_delete numbers_env "u1" one_more_byte None "f2" w Hok)
    as (_ & _ & _ & Hback).
  apply Hback. intros Hin. vm_compute in Hin.
  apply elem_of_cons in Hin as [Hin | Hin]; [done | by apply elem_of_nil in Hin].
Defined.

(** X5. A file update touches nothing but [is_public] and [original_name],
    and only on the rows that have the identifier and belong to the
    caller; the upload directory is left alone.  A boolean that arrives
    as text passes for no field at all. *)
Theorem put_file_scope
    (userId fid : string) (isPublic originalName : option Js.body)
    (errors : list string) (w : World) :
  let w' := (put_file userId fid isPublic originalName errors w).2 in
  Forall2 (λ f f',
             files.id f' = files.id f
             ∧ files.user_id f' = files.user_id f
             ∧ files.stored_name f' = files.stored_name f
             ∧ files.file_path f' = files.file_path f
             ∧ files.file_size f' = files.file_size f
             ∧ files.mime_type f' = files.mime_type f
             ∧ files.download_count f' = files.download_count f
             ∧ (¬ (files.id f = fid ∧ files.user_id f = userId) → f' = f))
          (t_files (db w)) (t_files (db w'))
  ∧ disk w' = disk w
  ∧ t_users (db w') = t_users (db w)
  ∧ (∀ s, put_file userId fid (Some (Js.BStr s)) None [] w
          = (Error 400 "No fields to update", w)).
Proof.
  intros w'. subst w'.
  assert (Hkeep : ∀ fields f,
             let f' := foldl apply_field f fields in
             files.id f' = files.id f
             ∧ files.user_id f' = files.user_id f
             ∧ files.stored_name f' = files.stored_name f
             ∧ files.file_path f' = files.file_path f
             ∧ files.file_size f' = files.file_size f
             ∧ files.mime_type f' = files.mime_type f
             ∧ files.download_count f' = files.download_count f).
  { induction fields as [|x fields IH]; intros f; [done|]. cbn.
    destruct (IH (apply_field f x)) as (-> & -> & -> & -> & -> & -> & ->).
    by destruct x. }
  assert (Hsame : Forall2 (λ f f',
             files.id f' = files.id f
             ∧ files.user_id f' = files.user_id f
             ∧ files.stored_name f' = files.stored_name f
             ∧ files.file_path f' = files.file_path f
             ∧ files.file_size f' = files.file_size f
             ∧ files.mime_type f' = files.mime_type f
             ∧ files.download_count f' = files.download_count f
             ∧ (¬ (files.id f = fid ∧ files.user_id f = userId) → f' = f))
          (t_files (db w)) (t_files (db w))).
  { apply Forall_Forall2_diag, Forall_forall. intros; split_and!; done. }
  split_and!; [| | |done].
  - unfold put_file. destruct errors; [|done].
    destruct (updateFields isPublic originalName) as [|x fields]; [done|].
    destruct (_ <$> filter _ _); [done|]. cbn [snd db with_files t_files].
    apply Forall2_fmap_r, Forall_Forall2_diag, Forall_forall.
    intros f _. unfold compose. cbv beta. case_bool_decide as Hhit.
    + destruct (Hkeep (x :: fields) f) as (? & ? & ? & ? & ? & ? & ?).
      split_and!; first [done | tauto].
    + split_and!; done.
  - unfold put_file. by repeat case_match.
  - unfold put_file. by repeat case_match.
Qed.

End UploadRoundTrip.

(** ** The usage report *)

Section UsageReport.

Import FilesRouter FilesUsage.

Lemma length_filter_bool {A} (f : A → bool) (l : list A) :
  (length (filter (λ a, f a = true) l) + length (filter (λ a, f a = false) l)
   = length l)%nat.
Proof.
  induction l as [|a l IH]; [done|].
  rewrite !filter_cons. destruct (f a) eqn:Hf.
  - rewrite decide_True, decide_False by done. simpl. lia.
  - rewrite decide_False, decide_True by done. simpl. lia.
Qed.

(** X6. The usage report of a user with an account, whatever the client
    makes of the columns: the public and the private files add up to the
    files of the user, the bytes used and the bytes available add up to
    the quota, the download total is not a number exactly when the user
    has no file, and with a quota other than zero the percentage is an
    integer nearest to a hundred times the used share. *)
Theorem usage_report_adds_up
    (env : Env) (userId : string) (w : World) (u : users.row) (rest : list users.row) :
  filter (λ u, users.id u = userId) (t_users (db w)) = u :: rest →
  let mine := filter (λ f, files.user_id f = userId) (t_files (db w)) in
  let used := sum_file_size userId (db w) in
  ∃ r, get_usage env userId w = Json 200 r
       ∧ totalFiles r = Some (Z.of_nat (length mine))
       ∧ (∃ pub priv, publicFiles r = Some pub ∧ privateFiles r = Some priv
                      ∧ pub + priv = Z.of_nat (length mine))
       ∧ totalSize r = Some used
       ∧ storageUsed r = Some used
       ∧ storageAvailable r = Some (users.storage_quota u - used)
       ∧ (totalDownloads r = None ↔ mine = [])
       ∧ (users.storage_quota u ≠ 0 →
          ∃ pct, usagePercentage r = Some pct
                 ∧ (Qabs (inject_Z pct
                          - inject_Z used / inject_Z (users.storage_quota u) * 100)
                    <= 1 # 2)%Q).
Proof.
  intros Hu mine used. unfold get_usage. rewrite Hu.
  eexists. split; [reflexivity|].
  cbn [totalFiles publicFiles privateFiles totalSize storageUsed storageAvailable
       FilesUsage.totalDownloads usagePercentage select_stats total_files total_size
       public_files private_files total_downloads].
  rewrite !parseInt_decode, ToNumber_decode. fold mine. fold used.
  split_and!; try done.
  - eexists _, _. split_and!; try done.
    rewrite <- Nat2Z.inj_add. f_equal. apply length_filter_bool.
  - destruct mine; cbn; [done|]. by rewrite parseInt_decode.
  - intros Hq. unfold percentage.
    destruct (Z.eqb_spec (users.storage_quota u) 0) as [|_]; [done|].
    eexists. split; [done|]. apply Math_round_nearest.
Qed.

Lemma usage_report_adds_up_witness :
  ∃ r, get_usage default_env "u1" one_public_file = Json 200 r
       ∧ totalFiles r = Some 1
       ∧ storageAvailable r = Some 1073741819
       ∧ usagePercentage r = Some 0.
Proof.
  destruct (usage_report_adds_up default_env "u1" one_public_file
              {| users.id := "u1"; users.email := "owner@example.org";
                 users.first_name := None; users.last_name := None;
                 users.plan_type := "free"; users.storage_quota := 1073741824;
                 users.domain_quota := 2 |} [] eq_refl)
    as (r & Hr & Hfiles & _ & _ & _ & Havail & _ & _).
  exists r. split_and!; [done | done | done |].
  vm_compute in Hr. injection Hr as <-. reflexivity.
Defined.

(** X7. The report and the upload handler read the same two numbers: with
    the sum decoded as a number, a part passes the quota test of the
    upload exactly when its size is at most the bytes the report gives
    as available. *)
Theorem upload_accepts_what_usage_leaves
    (env : Env) (userId : string) (w : World) (n : Z) :
  numeric (parsers env) = AsNumber →
  ∀ r, get_usage env userId w = Json 200 r →
  ∃ q qs avail,
    select_quota env userId (db w) = q :: qs
    ∧ storageAvailable r = Some avail
    ∧ (Js.gt (Js.add (current_storage q) (Js.Num n)) (storage_quota q) = false
       ↔ n ≤ avail).
Proof.
  intros Hnum r Hr. unfold get_usage in Hr.
  destruct (filter _ (t_users (db w))) as [|u rest] eqn:Hu; [done|].
  injection Hr as <-.
  destruct (quota_check env Hnum userId (db w) n u rest Hu) as (q & qs & Hq & Hgt).
  exists q, qs, (users.storage_quota u - sum_file_size userId (db w)).
  split_and!; [done | |].
  - cbn [storageAvailable select_stats total_size].
    by rewrite parseInt_decode, ToNumber_decode.
  - rewrite Hgt. rewrite Z.gtb_ltb, Z.ltb_ge. lia.
Qed.

Lemma upload_accepts_what_usage_leaves_witness :
  let w := run numbers_env five_bytes empty_world in
  numeric (parsers numbers_env) = AsNumber
  ∧ ∃ r q qs avail,
      get_usage numbers_env "u1" w = Json 200 r
      ∧ select_quota numbers_env "u1" (db w) = q :: qs
      ∧ storageAvailable r = Some avail
      ∧ (Js.gt (Js.add (current_storage q) (Js.Num 1)) (storage_quota q) = false
         ↔ 1 ≤ avail).
Proof.
  intros w. split; [reflexivity|].
  assert (∃ r, get_usage numbers_env "u1" w = Json 200 r) as [r Hr]
    by (eexists; vm_compute; reflexivity).
  destruct (upload_accepts_what_usage_leaves numbers_env "u1" w 1 eq_refl r Hr)
    as (q & qs & avail & Hq & Havail & Hiff).
  by exists r, q, qs, avail.
Defined.

End UsageReport.

(** ** The domain quota along a run *)

Section DomainQuota.

Import DomainsRouter.

Lemma count_domains_count_of (userId : string) (s : Store) :
  count_domains userId s = count_of userId (t_domains s).
Proof. done. Qed.

Lemma count_of_app (userId : string) (ds : list domains.row) (r : domains.row) :
  count_of userId (ds ++ [r])%list
  = count_of userId ds + (if decide (domains.user_id r = userId) then 1 else 0).
Proof.
  unfold count_of. rewrite filter_app, length_app, filter_cons, filter_nil.
  case_decide; simpl; lia.
Qed.

Lemma count_of_fmap (userId : string) (g : domains.row → domains.row)
    (ds : list domains.row) :
  (∀ d, domains.user_id (g d) = domains.user_id d) →
  count_of userId (g <$> ds) = count_of userId ds.
Proof.
  intros Hg. unfold count_of. f_equal.
  induction ds as [|d ds IH]; [done|].
  rewrite fmap_cons, !filter_cons, Hg. case_decide; simpl; by rewrite IH.
Qed.

Lemma count_of_filter (userId : string) (P : domains.row → Prop) `{∀ d, Decision (P d)}
    (ds : list domains.row) :
  count_of userId (filter P ds) ≤ count_of userId ds.
Proof.
  unfold count_of. apply inj_le.
  induction ds as [|d ds IH]; [done|].
  rewrite (filter_cons P). destruct (decide (P d)).
  - rewrite !filter_cons. case_decide; simpl; lia.
  - rewrite (filter_cons _ d ds). case_decide; simpl; lia.
Qed.

Lemma count_of_stranger (userId : string) (ds : list domains.row) :
  (∀ d, d ∈ ds → domains.user_id d ≠ userId) → count_of userId ds = 0.
Proof.
  intros Hno. unfold count_of. by rewrite filter_none.
Qed.

Lemma registry_users_fmap us ds (g : users.row → users.row) :
  registry us ds →
  (∀ u, u ∈ us → users.id (g u) = users.id u
                 ∧ users.domain_quota u ≤ users.domain_quota (g u)) →
  registry (g <$> us) ds.
Proof.
  intros [Hids Hown Hq] Hg.
  assert (Hsame : users.id <$> (g <$> us) = users.id <$> us).
  { rewrite <- list_fmap_compose. apply list_fmap_ext. intros ? u Hu.
    apply Hg. by eapply list_elem_of_lookup_2. }
  split.
  - by rewrite Hsame.
  - intros d Hd. rewrite Hsame. by apply Hown.
  - intros u' Hu'. apply list_elem_of_fmap in Hu' as (u & -> & Hu).
    destruct (Hg u Hu) as [-> Hle]. specialize (Hq u Hu). lia.
Qed.

Lemma registry_domains_fmap us ds (g : domains.row → domains.row) :
  registry us ds →
  (∀ d, domains.user_id (g d) = domains.user_id d) →
  registry us (g <$> ds).
Proof.
  intros [Hids Hown Hq] Hg. split; [done| |].
  - intros d' Hd'. apply list_elem_of_fmap in Hd' as (d & -> & Hd).
    rewrite Hg. by apply Hown.
  - intros u Hu. rewrite count_of_fmap by done. by apply Hq.
Qed.

Lemma registry_domains_filter us ds (P : domains.row → Prop) `{∀ d, Decision (P d)} :
  registry us ds → registry us (filter P ds).
Proof.
  intros [Hids Hown Hq]. split; [done| |].
  - intros d Hd. apply list_elem_of_filter in Hd as [_ Hd]. by apply Hown.
  - intros u Hu. specialize (Hq u Hu).
    pose proof (count_of_filter (users.id u) P ds). lia.
Qed.

Lemma registry_signup us ds (u : users.row) :
  registry us ds →
  users.id u ∉ users.id <$> us →
  0 ≤ users.domain_quota u →
  registry (us ++ [u])%list ds.
Proof.
  intros [Hids Hown Hq] Hfresh Hpos. split.
  - rewrite fmap_app. apply NoDup_app. split_and!; [done| |apply NoDup_singleton].
    intros i Hi Hi'. apply list_elem_of_singleton in Hi' as ->. done.
  - intros d Hd. rewrite fmap_app. apply elem_of_app. left. by apply Hown.
  - intros u' Hu'. apply elem_of_app in Hu' as [Hu'|Hu'].
    + by apply Hq.
    + apply list_elem_of_singleton in Hu' as ->.
      rewrite count_of_stranger; [done|].
      intros d Hd Heq. specialize (Hown d Hd). by rewrite Heq in Hown.
Qed.

Lemma registry_append us ds (u : users.row) (r : domains.row) :
  registry us ds →
  u ∈ us →
  domains.user_id r = users.id u →
  count_of (users.id u) ds < users.domain_quota u →
  registry us (ds ++ [r])%list.
Proof.
  intros [Hids Hown Hq] Hu Hr Hfit. split; [done| |].
  - intros d Hd. apply elem_of_app in Hd as [Hd|Hd]; [by apply Hown|].
    apply list_elem_of_singleton in Hd as ->.
    rewrite Hr. by apply list_elem_of_fmap_2.
  - intros u' Hu'. rewrite count_of_app. case_decide as Hsame.
    + assert (u' = u) as -> by (apply (user_by_id us); congruence). lia.
    + specialize (Hq u' Hu'). lia.
Qed.

Lemma registry_cascade us ds (userId : string) :
  registry us ds →
  registry (filter (λ u, users.id u ≠ userId) us)
           (filter (λ d, domains.user_id d ≠ userId) ds).
Proof.
  intros [Hids Hown Hq]. split.
  - assert (Hsub : users.id <$> filter (λ u, users.id u ≠ userId) us
                     `sublist_of` users.id <$> us) by apply fmap_sublist, sublist_filter.
    exact (sublist_NoDup _ _ Hids Hsub).
  - intros d Hd. apply list_elem_of_filter in Hd as [Hne Hd].
    specialize (Hown d Hd).
    apply list_elem_of_fmap in Hown as (u & Hid & Hu).
    apply list_elem_of_fmap. exists u. split; [done|].
    apply list_elem_of_filter. split; [congruence | done].
  - intros u Hu. apply list_elem_of_filter in Hu as [_ Hu]. specialize (Hq u Hu).
    pose proof (count_of_filter (users.id u) (λ d, domains.user_id d ≠ userId) ds). lia.
Qed.

Lemma foldl_profile_field_registry (u : users.row)
    (fields : list UsersRouter.ProfileField) :
  users.id (foldl UsersRouter.apply_field u fields) = users.id u
  ∧ users.domain_quota (foldl UsersRouter.apply_field u fields) = users.domain_quota u.
Proof.
  revert u. induction fields as [|x fields IH]; intros u; [done|]. simpl.
  destruct (IH (UsersRouter.apply_field u x)) as [-> ->]. by destruct x.
Qed.

Lemma post_domain_registry env userId domainName autoRenew errors tok newId now w :
  registry (t_users (db w)) (t_domains (db w)) →
  let w' := (post_domain env userId domainName autoRenew errors tok newId now w).2 in
  registry (t_users (db w')) (t_domains (db w')).
Proof.
  intros Hr. unfold post_domain. destruct errors; [|done].
  destruct (filter (λ u, users.id u = userId) (t_users (db w))) as [|u rest] eqn:Hu.
  { unfold select_quota. by rewrite Hu. }
  destruct (quota_test env userId (db w) u rest Hu) as (q & qs & -> & ->).
  destruct (Z.geb_spec (count_domains userId (db w)) (users.domain_quota u)) as [|Hlt];
    [done|].
  destruct (filter _ (t_domains (db w))); [|done].
  unfold insert_domain. cbn [domains.id domains.verification_token].
  repeat case_decide; try done. cbn [snd db with_domains t_domains t_users].
  destruct (first_user _ _ _ _ Hu) as [Hin Hid].
  apply registry_domains_fmap; [|by intros d; case_decide].
  apply (registry_append _ _ u); try done.
  by rewrite Hid, <- count_domains_count_of.
Qed.

Lemma step_registry (env : Env) (w : World) (op : Op) :
  registry (t_users (db w)) (t_domains (db w)) →
  keeps_domain_quota w op = true →
  registry (t_users (db (step env w op))) (t_domains (db (step env w op))).
Proof.
  intros Hr Hk. destruct op; cbn [step].
  - unfold UsersRouter.signup. case_bool_decide as Hex; [done|]. simpl.
    apply registry_signup; [done| |done]. simpl.
    intros Hin. apply list_elem_of_fmap in Hin as (u & Hid & Hu).
    apply Hex, Exists_exists. eauto.
  - by destruct (upload_keeps_tables env userId p isPublic errors newId w)
      as (-> & -> & _).
  - pose proof (get_download_cases userId fid w) as H.
    repeat case_match; try (by rewrite H).
    by destruct H as [-> | [? ->]].
  - unfold FilesRouter.put_file. by repeat (case_match; simpl).
  - unfold FilesRouter.delete_file. by repeat (case_match; simpl).
  - by apply post_domain_registry.
  - destruct (post_verify_outcomes userId did random now w)
      as [[_ ->] | [[_ ->] | [_ ->]]]; simpl; try done.
    apply registry_domains_fmap; [done|]. intros d. by case_bool_decide.
  - unfold put_domain. destruct errors; [|done].
    destruct (_ <$> filter _ _); [done|]. simpl.
    apply registry_domains_fmap; [done|]. intros d. by case_bool_decide.
  - unfold delete_domain. destruct (filter _ _); [done|]. simpl.
    by apply registry_domains_filter.
  - unfold UsersRouter.put_profile. destruct errors; [|done].
    case_match; [done|].
    destruct (UsersRouter.updateFields firstName lastName email); [done|].
    destruct (_ <$> filter _ _); [done|]. simpl.
    apply registry_users_fmap; [done|]. intros u _. case_decide; [|by split].
    destruct (foldl_profile_field_registry u (p :: l)) as [Hid Hq].
    simpl in *. rewrite Hid, Hq. by split.
  - unfold UsersRouter.post_upgrade. destruct errors; [|done].
    simpl in Hk. destruct (UsersRouter.plans planType) as [[storage dq]|]; [|done].
    destruct (_ <$> filter _ _); [done|]. simpl.
    apply registry_users_fmap; [done|]. intros u Hu. case_decide as Hid; [|by split].
    split; [done|]. simpl.
    rewrite forallb_forall in Hk. specialize (Hk u).
    rewrite <- list_elem_of_In in Hk. specialize (Hk Hu).
    apply bool_decide_eq_true in Hk. auto.
  - unfold UsersRouter.delete_account. destruct errors; [|done].
    destruct (filter _ _); [done|]. destruct isValidPassword; [|done]. simpl.
    by apply registry_cascade.
  - unfold MonitorRouter.post_log. by repeat (case_match; simpl).
Qed.

Lemma run_registry (env : Env) (ops : list Op) (w : World) :
  registry (t_users (db w)) (t_domains (db w)) →
  never_lowers_domain_quota env w ops = true →
  registry (t_users (db (run env ops w))) (t_domains (db (run env ops w))).
Proof.
  revert w. induction ops as [|op ops IH]; intros w Hr Hk; [done|].
  simpl in Hk. apply andb_prop in Hk as [Hop Hk].
  apply (IH (step env w op)); [by apply step_registry | done].
Qed.

Lemma registry_empty : registry [] [].
Proof.
  split; [apply NoDup_nil_2 | by intros d ?%elem_of_nil | by intros u ?%elem_of_nil].
Qed.

(** X8. Requests served one at a time from the empty tables, with no plan
    change that lowers a domain quota: no user has more rows in the
    domains table than the domain quota of the account, however the
    client decodes the row count. *)
Theorem domains_stay_within_quota (env : Env) (ops : list Op) :
  never_lowers_domain_quota env empty_world ops = true →
  ∀ u, u ∈ t_users (db (run env ops empty_world)) →
       count_domains (users.id u) (db (run env ops empty_world)) ≤ users.domain_quota u.
Proof.
  intros Hk u Hu. rewrite count_domains_count_of.
  by apply (run_registry env ops empty_world registry_empty Hk).
Qed.

Lemma domains_stay_within_quota_witness :
  let ops := [ Signup "first@example.org" "u1";
               PostDomain "u1" "one.example.org" None [] "token-1" "d1" 100;
               PostDomain "u1" "two.example.org" None [] "token-2" "d2" 110;
               PostDomain "u1" "three.example.org" None [] "token-3" "d3" 120 ] in
  never_lowers_domain_quota default_env empty_world ops = true
  ∧ Forall (λ u, count_domains (users.id u) (db (run default_env ops empty_world))
                 ≤ users.domain_quota u)
           (t_users (db (run default_env ops empty_world))).
Proof.
  intros ops. split; [reflexivity|].
  apply Forall_forall.
  exact (domains_stay_within_quota default_env ops eq_refl).
Defined.

End DomainQuota.

(** ** The keys of the domains table, and the DNS page *)

Section DomainKeys.

Import DomainsRouter DomainsDns.

Lemma domain_by_id (ds : list domains.row) (d d' : domains.row) :
  NoDup (domains.id <$> ds) → d ∈ ds → d' ∈ ds → domains.id d = domains.id d' → d = d'.
Proof.
  induction ds as [|x ds IH]; [by intros _ ?%elem_of_nil|].
  rewrite fmap_cons, NoDup_cons. intros [Hx Hnd] Hd Hd' Hid.
  apply elem_of_cons in Hd as [->|Hd]; apply elem_of_cons in Hd' as [->|Hd']; auto.
  - exfalso. apply Hx. rewrite Hid. by apply list_elem_of_fmap_2.
  - exfalso. apply Hx. rewrite <- Hid. by apply list_elem_of_fmap_2.
Qed.

Lemma filter_fmap_others {A} (P : A → Prop) `{∀ x, Decision (P x)} (g : A → A)
    (l : list A) :
  (∀ x, x ∈ l → P x → g x = x) →
  (∀ x, x ∈ l → ¬ P x → ¬ P (g x)) →
  filter P (g <$> l) = filter P l.
Proof.
  intros Hsame Hout. induction l as [|x l IH]; [done|].
  assert (IH' : filter P (g <$> l) = filter P l).
  { apply IH; intros y Hy; [apply Hsame | apply Hout]; by right. }
  rewrite fmap_cons, !filter_cons. destruct (decide (P x)) as [Hx|Hx].
  - rewrite (Hsame x) by (done || left). rewrite decide_True by done. by rewrite IH'.
  - rewrite decide_False by (apply Hout; [left | done]). done.
Qed.

Lemma filter_filter_others {A} (P Q : A → Prop) `{∀ x, Decision (P x)}
    `{∀ x, Decision (Q x)} (l : list A) :
  (∀ x, x ∈ l → P x → Q x) → filter P (filter Q l) = filter P l.
Proof.
  intros Himp. induction l as [|x l IH]; [done|].
  assert (IH' : filter P (filter Q l) = filter P l).
  { apply IH; intros y Hy; apply Himp; by right. }
  rewrite (filter_cons Q). destruct (decide (Q x)) as [Hq|Hq].
  - rewrite !filter_cons. by rewrite IH'.
  - rewrite (filter_cons P x l), decide_False; [done|].
    intros Hp. apply Hq, Himp; [left | done].
Qed.

Lemma domain_keys_fmap env ds (g : domains.row → domains.row) :
  domain_keys env ds →
  (∀ d, domains.id (g d) = domains.id d
        ∧ domains.verification_token (g d) = domains.verification_token d
        ∧ domains.domain_name (g d) = domains.domain_name d
        ∧ domains.dns_records (g d) = domains.dns_records d) →
  domain_keys env (g <$> ds).
Proof.
  intros [Hids Htok Hdns] Hg. split.
  - assert (Hsame : domains.id <$> (g <$> ds) = domains.id <$> ds); [|by rewrite Hsame].
    rewrite <- list_fmap_compose. apply list_fmap_ext. intros ? d _. apply Hg.
  - assert (Hsame : domains.verification_token <$> (g <$> ds)
                    = domains.verification_token <$> ds); [|by rewrite Hsame].
    rewrite <- list_fmap_compose. apply list_fmap_ext. intros ? d _. apply Hg.
  - intros d' Hd'. apply list_elem_of_fmap in Hd' as (d & -> & Hd).
    destruct (Hg d) as (-> & _ & -> & ->). by apply Hdns.
Qed.

Lemma domain_keys_filter env ds (P : domains.row → Prop) `{∀ d, Decision (P d)} :
  domain_keys env ds → domain_keys env (filter P ds).
Proof.
  intros [Hids Htok Hdns]. split.
  - assert (Hsub : domains.id <$> filter P ds `sublist_of` domains.id <$> ds)
      by apply fmap_sublist, sublist_filter.
    exact (sublist_NoDup _ _ Hids Hsub).
  - assert (Hsub : domains.verification_token <$> filter P ds
                     `sublist_of` domains.verification_token <$> ds)
      by apply fmap_sublist, sublist_filter.
    exact (sublist_NoDup _ _ Htok Hsub).
  - intros d Hd. apply list_elem_of_filter in Hd as [_ Hd]. by apply Hdns.
Qed.

(** What a registration that goes through does to the table: the rows
    that were there, then the new row with its descriptor. *)
Lemma post_domain_table env userId domainName autoRenew errors tok newId now w :
  let ds := t_domains (db w) in
  let ds' := t_domains (db (post_domain env userId domainName autoRenew errors
                              tok newId now w).2) in
  ds' = ds
  ∨ ((newId ∉ domains.id <$> ds)
     ∧ (tok ∉ domains.verification_token <$> ds)
     ∧ ∃ r, ds' = (ds ++ [r])%list
            ∧ domains.id r = newId ∧ domains.user_id r = userId
            ∧ domains.domain_name r = domainName
            ∧ domains.verification_token r = tok
            ∧ domains.dns_records r = Some (dnsRecords_for env domainName newId)).
Proof.
  intros ds ds'. subst ds ds'. unfold post_domain.
  destruct errors; [|by left].
  destruct (select_quota _ _ _); [by left|].
  destruct (Js.ge _ _); [by left|].
  destruct (filter _ (t_domains (db w))); [|by left].
  unfold insert_domain. cbn [domains.id domains.verification_token].
  destruct (decide (newId ∈ _)) as [|Hid]; [by left|].
  destruct (decide (tok ∈ _)) as [|Htok]; [by left|].
  right. split_and!; [done | done |].
  cbn [snd db with_domains t_domains].
  rewrite fmap_app, fmap_cons, fmap_nil.
  cbn [domains.id]. rewrite decide_True by done.
  rewrite (fmap_if_id (λ d, domains.id d = newId)).
  - eexists. split; [reflexivity|]. by split_and!.
  - intros d Hd Heq. apply Hid. rewrite <- Heq. by apply list_elem_of_fmap_2.
Qed.

Lemma post_domain_keys env userId domainName autoRenew errors tok newId now w :
  domain_keys env (t_domains (db w)) →
  domain_keys env (t_domains (db (post_domain env userId domainName autoRenew errors
                                    tok newId now w).2)).
Proof.
  intros Hk.
  destruct (post_domain_table env userId domainName autoRenew errors tok newId now w)
    as [-> | (Hid & Htok & r & -> & Hrid & _ & Hname & Hrtok & Hdns)]; [done|].
  destruct Hk as [Hids Htoks Hdnss]. split.
  - rewrite fmap_app. apply NoDup_app. split_and!; [done| |apply NoDup_singleton].
    intros i Hi Hi'. apply list_elem_of_singleton in Hi' as ->.
    simpl in Hid. by rewrite Hrid in Hi.
  - rewrite fmap_app. apply NoDup_app. split_and!; [done| |apply NoDup_singleton].
    intros i Hi Hi'. apply list_elem_of_singleton in Hi' as ->.
    simpl in Htok. by rewrite Hrtok in Hi.
  - intros d Hd. apply elem_of_app in Hd as [Hd|Hd]; [by apply Hdnss|].
    apply list_elem_of_singleton in Hd as ->. by rewrite Hdns, Hname, Hrid.
Qed.

Lemma step_domain_keys (env : Env) (w : World) (op : Op) :
  domain_keys env (t_domains (db w)) →
  domain_keys env (t_domains (db (step env w op))).
Proof.
  intros Hk. destruct op; cbn [step].
  - unfold UsersRouter.signup. by case_bool_decide.
  - by rewrite (proj1 (proj2 (upload_keeps_tables env userId p isPublic errors newId w))).
  - pose proof (get_download_cases userId fid w) as H.
    repeat case_match; try (by rewrite H).
    by destruct H as [-> | [? ->]].
  - unfold FilesRouter.put_file. by repeat (case_match; simpl).
  - unfold FilesRouter.delete_file. by repeat (case_match; simpl).
  - by apply post_domain_keys.
  - destruct (post_verify_outcomes userId did random now w)
      as [[_ ->] | [[_ ->] | [_ ->]]]; simpl; try done.
    apply domain_keys_fmap; [done|]. intros d. by case_bool_decide.
  - unfold put_domain. destruct errors; [|done].
    destruct (_ <$> filter _ _); [done|]. simpl.
    apply domain_keys_fmap; [done|]. intros d. by case_bool_decide.
  - unfold delete_domain. destruct (filter _ _); [done|]. simpl.
    by apply domain_keys_filter.
  - unfold UsersRouter.put_profile. by repeat (case_match; simpl).
  - unfold UsersRouter.post_upgrade. by repeat (case_match; simpl).
  - unfold UsersRouter.delete_account. repeat (case_match; simpl; try done).
    by apply domain_keys_filter.
  - unfold MonitorRouter.post_log. by repeat (case_match; simpl).
Qed.

Lemma run_domain_keys (env : Env) (ops : list Op) :
  domain_keys env (t_domains (db (run env ops empty_world))).
Proof.
  induction ops as [|op ops IH] using rev_ind.
  - split; [apply NoDup_nil_2 | apply NoDup_nil_2 | by intros d ?%elem_of_nil].
  - rewrite run_snoc. by apply step_domain_keys.
Qed.



(** X10. A domain request changes no row of another user: after any
    requests served one at a time, a registration, a verification, an
    update or a deletion by one user leaves the rows of every other user
    as they were, in their order. *)
Theorem domain_requests_stay_with_owner
    (env : Env) (ops : list Op) (op : Op) (userId : string) :
  domain_request_of userId op →
  let w := run env ops empty_world in
  filter (λ d, domains.user_id d ≠ userId) (t_domains (db (step env w op)))
  = filter (λ d, domains.user_id d ≠ userId) (t_domains (db w)).
Proof.
  intros Hop w. pose proof (run_domain_keys env ops) as Hk. fold w in Hk.
  destruct op as [| | | | |u domainName autoRenew errors tok newId now
                  |u did random now|u did autoRenew errors now|u did| | | |];
    try done; cbn [domain_request_of] in Hop; subst u; cbn [step].
  - destruct (post_domain_table env userId domainName autoRenew errors tok newId now w)
      as [-> | (_ & _ & r & -> & _ & Hu & _)]; [done|].
    rewrite filter_app, filter_cons, decide_False, filter_nil, app_nil_r; [done|].
    by intros Hne.
  - unfold post_verify.
    destruct (filter (λ d, domains.id d = did ∧ domains.user_id d = userId)
                (t_domains (db w))) as [|d0 rest] eqn:Hrows; [done|].
    rewrite fmap_cons. destruct (isVerified random); [|done].
    rewrite get_selected_id. cbn [snd db with_domains t_domains].
    assert (Hin : d0 ∈ filter (λ d, domains.id d = did ∧ domains.user_id d = userId)
                              (t_domains (db w))) by (rewrite Hrows; left).
    apply list_elem_of_filter in Hin as [[_ Hown] Hin].
    apply filter_fmap_others.
    + intros d Hd Hne. case_bool_decide as Hid; [|done].
      assert (d = d0) as -> by (by apply (domain_by_id (t_domains (db w)));
                                   [apply (keys_ids _ _ Hk)| | |]).
      done.
    + intros d _ Hne. by case_bool_decide.
  - unfold put_domain. destruct errors; [|done].
    destruct (_ <$> filter _ _); [done|]. cbn [snd db with_domains t_domains].
    apply filter_fmap_others.
    + intros d _ Hne. case_bool_decide as Hhit; [|done]. by destruct Hhit.
    + intros d _ Hne. by case_bool_decide.
  - unfold delete_domain.
    destruct (filter (λ d, domains.id d = did ∧ domains.user_id d = userId)
                (t_domains (db w))); [done|].
    cbn [snd db with_domains with_analytics t_domains].
    apply filter_filter_others. intros d _ Hne [_ Hu]. done.
Qed.

Lemma domain_requests_stay_with_owner_witness :
  let op := DeleteDomain "u2" "d1" in
  let op' := Verify "u2" "d2" 1 130 in
  domain_request_of "u2" op ∧ domain_request_of "u2" op'
  ∧ filter (λ d, domains.user_id d ≠ "u2") (t_domains (db (step default_env two_tenants op)))
    = filter (λ d, domains.user_id d ≠ "u2") (t_domains (db two_tenants))
  ∧ filter (λ d, domains.user_id d ≠ "u2") (t_domains (db (step default_env two_tenants op')))
    = filter (λ d, domains.user_id d ≠ "u2") (t_domains (db two_tenants)).
Proof.
  intros op op'. split_and!; [reflexivity | reflexivity | |].
  - exact (domain_requests_stay_with_owner default_env _ op "u2" eq_refl).
  - exact (domain_requests_stay_with_owner default_env _ op' "u2" eq_refl).
Defined.

End DomainKeys.

(** ** The totals of the analytics reports *)

Section AnalyticsTotals.

Import MonitorRouter MonitorTraffic.

Lemma total_from (d : Decoding) (zs : list Z) (a : Z) :
  foldl (λ sum c, match sum, Js.parseInt c with
                  | Some a, Some b => Some (a + b)
                  | _, _ => None
                  end) (Some a) (decode d <$> zs)
  = Some (a + foldr Z.add 0 zs).
Proof.
  revert a. induction zs as [|z zs IH]; intros a; simpl.
  - f_equal. lia.
  - rewrite parseInt_decode, IH. f_equal. lia.
Qed.

(** The reduce over decoded counts is their sum, whatever the parser. *)
Lemma total_decode (d : Decoding) (zs : list Z) :
  total (decode d <$> zs) = Some (foldr Z.add 0 zs).
Proof. unfold total. by rewrite total_from. Qed.

(** The groups of a GROUP BY split the rows: over distinct keys the
    group sizes add up to the number of rows with one of the keys. *)
Lemma group_sizes {A K} `{EqDecision K} (key : A → K) (l : list A) (ks : list K) :
  NoDup ks →
  foldr Z.add 0 ((λ k, Z.of_nat (length (filter (λ a, key a = k) l))) <$> ks)
  = Z.of_nat (length (filter (λ a, key a ∈ ks) l)).
Proof.
  induction ks as [|k ks IH]; intros Hnd.
  - simpl. rewrite filter_none; [done|]. intros a _ Hin. by apply elem_of_nil in Hin.
  - apply NoDup_cons in Hnd as [Hk Hnd]. rewrite fmap_cons. cbn [foldr].
    rewrite IH by done. rewrite <- Nat2Z.inj_add. f_equal. clear IH.
    induction l as [|a l IHl]; [done|].
    rewrite !filter_cons. destruct (decide (key a = k)) as [Heq|Hne].
    + rewrite (decide_False (P := key a ∈ ks)) by (by rewrite Heq).
      rewrite (decide_True (P := key a ∈ k :: ks)) by (rewrite Heq; left).
      simpl. lia.
    + destruct (decide (key a ∈ ks)) as [Hin|Hout].
      * rewrite (decide_True (P := key a ∈ k :: ks)) by (by right). simpl. lia.
      * rewrite (decide_False (P := key a ∈ k :: ks)); [lia|].
        by intros [?|?]%elem_of_cons.
Qed.

Lemma sorted_keys {A K} `{EqDecision K} (R : relation K) `{∀ x y, Decision (R x y)}
    (key : A → K) (l : list A) :
  let ks := merge_sort R (remove_dups (key <$> l)) in
  NoDup ks ∧ ∀ a, a ∈ l → key a ∈ ks.
Proof.
  intros ks. subst ks. split.
  - rewrite merge_sort_Permutation. apply NoDup_remove_dups.
  - intros a Ha. rewrite merge_sort_Permutation, elem_of_remove_dups.
    by apply list_elem_of_fmap_2.
Qed.

(** The total over the rows of a grouped count is the number of rows
    that were grouped. *)
Lemma total_of_groups {A K B} `{EqDecision K} (key : A → K) (l : list A)
    (mk : K → B) (get : B → Js.value) (d : Decoding) (ks : list K) :
  (∀ k, get (mk k) = decode d (Z.of_nat (length (filter (λ a, key a = k) l)))) →
  NoDup ks → (∀ a, a ∈ l → key a ∈ ks) →
  total (get <$> (mk <$> ks)) = Some (Z.of_nat (length l)).
Proof.
  intros Hget Hnd Hall.
  rewrite <- list_fmap_compose.
  rewrite (list_fmap_ext (get ∘ mk)
             (decode d ∘ (λ k, Z.of_nat (length (filter (λ a, key a = k) l)))) ks)
    by (intros ? k _; apply Hget).
  rewrite list_fmap_compose, total_decode, group_sizes by done.
  by rewrite filter_all.
Qed.

Lemma dailyResult_total (env : Env) (userId : string) (period : option string)
    (now : Z) (ty : string) (w : World) :
  total (count <$> dailyResult env userId period now ty w)
  = Some (Z.of_nat (length (events_of userId period now ty w))).
Proof.
  unfold dailyResult, events_of.
  set (evs := filter _ (t_analytics (db w))).
  destruct (sorted_keys Z.le (λ e, day (analytics.created_at e)) evs) as [Hnd Hall].
  by apply (total_of_groups (λ e, day (analytics.created_at e)) evs _ count
              (int8 (parsers env))).
Qed.

Lemma StronglySorted_le_lt (l : list Z) :
  StronglySorted Z.le l → NoDup l → StronglySorted Z.lt l.
Proof.
  induction l as [|x l IH]; [constructor|].
  rewrite !StronglySorted_cons, NoDup_cons. intros [Hall Hs] [Hx Hnd].
  split; [|by apply IH].
  rewrite Forall_forall in *. intros y Hy. specialize (Hall y Hy).
  assert (x ≠ y) by (by intros ->). lia.
Qed.

Lemma dailyResult_dates (env : Env) (userId : string) (period : option string)
    (now : Z) (ty : string) (w : World) :
  StronglySorted Z.lt (date <$> dailyResult env userId period now ty w).
Proof.
  unfold dailyResult. set (evs := filter _ (t_analytics (db w))).
  rewrite <- list_fmap_compose.
  rewrite (list_fmap_ext _ id) by done.
  rewrite list_fmap_id. apply StronglySorted_le_lt.
  - apply StronglySorted_merge_sort; apply _.
  - rewrite merge_sort_Permutation. apply NoDup_remove_dups.
Qed.

(** X11. The summary of the analytics report counts events: each of its
    three totals is the number of events of the user in the period that
    have the type, whatever the client makes of the counts; and each of
    the three series has one row per day, in ascending order of the
    day. *)
Theorem analytics_summary_counts_events
    (env : Env) (userId : string) (period : option string) (now : Z) (w : World) :
  ∃ a, get_analytics env userId period now w = Json 200 a
       ∧ totalPageViews a
         = Some (Z.of_nat (length (events_of userId period now "page_view" w)))
       ∧ totalDownloads a
         = Some (Z.of_nat (length (events_of userId period now "file_download" w)))
       ∧ totalErrors a
         = Some (Z.of_nat (length (events_of userId period now "error" w)))
       ∧ Forall (λ rows, StronglySorted Z.lt (date <$> rows))
                [pageViews a; downloads a; errors_by_day a].
Proof.
  eexists. split; [reflexivity|].
  cbn [totalPageViews totalDownloads totalErrors pageViews downloads errors_by_day].
  rewrite !dailyResult_total. split_and!; try done.
  repeat constructor; apply dailyResult_dates.
Qed.

Lemma length_filter_mono {A} (P Q : A → Prop) `{∀ x, Decision (P x)}
    `{∀ x, Decision (Q x)} (l : list A) :
  (∀ x, P x → Q x) → (length (filter P l) ≤ length (filter Q l))%nat.
Proof.
  intros Himp. induction l as [|x l IH]; [done|].
  rewrite !filter_cons. destruct (decide (P x)) as [Hp|Hp].
  - rewrite decide_True by auto. simpl. lia.
  - destruct (decide (Q x)); simpl; lia.
Qed.

Lemma dateFilter_nested (now : Z) :
  dateFilter (Some "30d") now ≤ dateFilter (Some "7d") now
  ∧ dateFilter (Some "7d") now ≤ dateFilter (Some "24h") now.
Proof. unfold dateFilter. simpl. lia. Qed.

(** X12. The three periods are nested: at one instant, each total of the
    report of the last 24 hours is at most the one of the last 7 days,
    which is at most the one of the last 30 days.  A period that is none
    of the three is reported as the last 7 days. *)
Theorem longer_period_counts_more
    (env : Env) (userId : string) (now : Z) (w : World) :
  (∃ a24 a7 a30,
     get_analytics env userId (Some "24h") now w = Json 200 a24
     ∧ get_analytics env userId (Some "7d") now w = Json 200 a7
     ∧ get_analytics env userId (Some "30d") now w = Json 200 a30
     ∧ Forall (λ proj : Analytics → option Z,
                 ∃ n24 n7 n30, proj a24 = Some n24 ∧ proj a7 = Some n7
                               ∧ proj a30 = Some n30 ∧ n24 ≤ n7 ≤ n30)
              [totalPageViews; totalDownloads; totalErrors])
  ∧ (∀ p, p ≠ "24h" → p ≠ "30d" →
          get_analytics env userId (Some p) now w
          = get_analytics env userId None now w).
Proof.
  split.
  - eexists _, _, _. split_and!; [reflexivity..|].
    destruct (dateFilter_nested now) as [H30 H24].
    repeat constructor;
      cbn [totalPageViews totalDownloads totalErrors];
      rewrite !dailyResult_total; eexists _, _, _; (split_and!; [reflexivity..| |]);
      apply inj_le, length_filter_mono; intros e (? & ? & ?); split_and!; try done; lia.
  - intros p H24 H30.
    assert (Hf : dateFilter (Some p) now = dateFilter None now).
    { unfold dateFilter. by rewrite !decide_False. }
    unfold get_analytics, dailyResult, trafficSourcesResult. by rewrite Hf.
Qed.

End AnalyticsTotals.

(** ** Domain statistics and traffic sources *)

Section DomainTraffic.

Import MonitorRouter MonitorTraffic.

Lemma filter_comm {A} (P Q : A → Prop) `{∀ x, Decision (P x)} `{∀ x, Decision (Q x)}
    (l : list A) :
  filter P (filter Q l) = filter Q (filter P l).
Proof.
  induction l as [|x l IH]; [done|].
  rewrite (filter_cons Q), (filter_cons P x l).
  destruct (decide (Q x)), (decide (P x));
    rewrite ?filter_cons, ?decide_True, ?decide_False by done; by rewrite IH.
Qed.

Lemma sum_Permutation (l l' : list Z) :
  l ≡ₚ l' → foldr Z.add 0 l = foldr Z.add 0 l'.
Proof. induction 1; simpl; lia. Qed.

Lemma trafficResult_total (env : Env) (did : string) (period : option string)
    (now : Z) (w : World) :
  totalRequests env did period now w
  = Some (Z.of_nat (length (domain_events did period now w))).
Proof.
  unfold totalRequests, trafficResult, domain_events.
  set (evs := filter _ (t_analytics (db w))).
  destruct (sorted_keys Z.le (λ e, hour (analytics.created_at e)) evs) as [Hnd Hall].
  by apply (total_of_groups (λ e, hour (analytics.created_at e)) evs _ requests
              (int8 (parsers env))).
Qed.

(** X13. The statistics of a domain count its events: the hourly series
    and the daily series both add up to the number of events of the
    domain in the period, and the error total is the number of those of
    type error, whatever the client makes of the counts. *)
Theorem domain_stats_count_events
    (env : Env) (userId did : string) (period : option string) (now : Z) (w : World)
    (body : DomainStats) :
  get_domain_stats env userId did period now w = Json 200 body →
  let evs := domain_events did period now w in
  totalRequests env did period now w = Some (Z.of_nat (length evs))
  ∧ total (total_requests <$> (fst <$> errorRates body)) = Some (Z.of_nat (length evs))
  ∧ stats_totalErrors body
    = Some (Z.of_nat (length (filter (λ e, analytics.event_type e = "error") evs))).
Proof.
  intros Hreply evs. unfold get_domain_stats in Hreply.
  destruct (filter _ (t_domains (db w))); [done|]. injection Hreply as <-.
  cbn [errorRates stats_totalErrors].
  rewrite <- (list_fmap_compose _ fst), (list_fmap_ext _ id) by done.
  rewrite list_fmap_id.
  split_and!; [apply trafficResult_total | |];
    unfold errorRateResult, domain_events in *; fold evs;
    destruct (sorted_keys Z.le (λ e, day (analytics.created_at e)) evs) as [Hnd Hall].
  - by apply (total_of_groups (λ e, day (analytics.created_at e)) evs _ total_requests
                (int8 (parsers env))).
  - apply (total_of_groups (λ e, day (analytics.created_at e))
             (filter (λ e, analytics.event_type e = "error") evs) _ errors
             (int8 (parsers env))); [|done|].
    + intros k. cbn [errors]. by rewrite filter_comm.
    + intros e He. apply list_elem_of_filter in He as [_ He]. by apply Hall.
Qed.

Lemma domain_stats_count_events_witness :
  ∃ body, get_domain_stats default_env "u1" "d1" (Some "24h") 2000 four_events
          = Json 200 body
          ∧ totalRequests default_env "d1" (Some "24h") 2000 four_events = Some 4
          ∧ stats_totalErrors body = Some 1.
Proof.
  assert (∃ body, get_domain_stats default_env "u1" "d1" (Some "24h") 2000 four_events
                  = Json 200 body) as [body Hbody]
    by (eexists; vm_compute; reflexivity).
  destruct (domain_stats_count_events default_env "u1" "d1" (Some "24h") 2000
              four_events body Hbody) as (Hreq & _ & Herr).
  exists body. split_and!; [done | by rewrite Hreq | by rewrite Herr].
Defined.

#[local] Instance more_visits_trans : Transitive more_visits.
Proof. intros a b c. unfold more_visits. lia. Qed.

#[local] Instance more_visits_total : Total more_visits.
Proof. intros a b. unfold more_visits. lia. Qed.

Lemma source_labels (r : option string) :
  source r ∈ ["Direct"; "Google"; "Facebook"; "Twitter"; "LinkedIn"; "Other"].
Proof.
  unfold source. repeat case_match; apply (bool_decide_unpack _); by vm_compute.
Qed.

(** X14. The traffic sources split the events of the user in the period:
    the visits add up to the number of these events, no source comes
    twice, every source is one of the six labels, so there are at most
    six rows, and no row has more visits than a row before it. *)
Theorem traffic_sources_split_events
    (env : Env) (userId : string) (period : option string) (now : Z) (w : World) :
  let rows := trafficSourcesResult env userId period now w in
  let evs := filter (λ e, analytics.user_id e = userId
                          ∧ dateFilter period now ≤ analytics.created_at e)
                    (t_analytics (db w)) in
  total (visits <$> rows) = Some (Z.of_nat (length evs))
  ∧ NoDup (src <$> rows)
  ∧ Forall (λ row, src row ∈ ["Direct"; "Google"; "Facebook"; "Twitter";
                               "LinkedIn"; "Other"]) rows
  ∧ (length rows ≤ 6)%nat
  ∧ StronglySorted (λ r1 r2, ∃ n1 n2, Js.parseInt (visits r1) = Some n1
                                      ∧ Js.parseInt (visits r2) = Some n2
                                      ∧ n2 ≤ n1) rows.
Proof.
  intros rows evs. subst rows. unfold trafficSourcesResult. fold evs.
  set (key := λ e, source (analytics.referrer e)).
  set (sorted := merge_sort more_visits (count_by key evs)).
  assert (Hperm : sorted ≡ₚ count_by key evs) by apply merge_sort_Permutation.
  assert (Hsrc : src <$> ((λ r, {| src := r.1;
                                   visits := decode (int8 (parsers env)) (Z.of_nat r.2) |})
                            <$> sorted)
                 ≡ₚ remove_dups (key <$> evs)).
  { rewrite <- list_fmap_compose, Hperm. unfold count_by.
    rewrite <- list_fmap_compose, (list_fmap_ext _ id) by done.
    by rewrite list_fmap_id. }
  assert (Hnd : NoDup (src <$> ((λ r, {| src := r.1;
                                         visits := decode (int8 (parsers env))
                                                     (Z.of_nat r.2) |}) <$> sorted)))
    by (rewrite Hsrc; apply NoDup_remove_dups).
  assert (Hlabels : ∀ s, s ∈ src <$> ((λ r, {| src := r.1;
                                               visits := decode (int8 (parsers env))
                                                           (Z.of_nat r.2) |}) <$> sorted) →
                         s ∈ ["Direct"; "Google"; "Facebook"; "Twitter";
                              "LinkedIn"; "Other"]).
  { intros s Hs. rewrite Hsrc, elem_of_remove_dups in Hs.
    apply list_elem_of_fmap in Hs as (e & -> & _). apply source_labels. }
  split_and!.
  - rewrite <- list_fmap_compose.
    rewrite (list_fmap_ext _ (decode (int8 (parsers env)) ∘ (λ r, Z.of_nat r.2))) by done.
    rewrite list_fmap_compose, total_decode.
    rewrite (sum_Permutation _ ((λ r : string * nat, Z.of_nat r.2) <$> count_by key evs))
      by (by rewrite Hperm).
    unfold count_by. rewrite <- list_fmap_compose.
    rewrite (list_fmap_ext _ (λ k, Z.of_nat (length (filter (λ a, key a = k) evs))))
      by done.
    rewrite group_sizes by apply NoDup_remove_dups.
    rewrite filter_all; [done|].
    intros e He. rewrite elem_of_remove_dups. by apply list_elem_of_fmap_2.
  - done.
  - apply Forall_forall. intros row Hrow. apply Hlabels. by apply list_elem_of_fmap_2.
  - rewrite <- (length_fmap src).
    apply (submseteq_length _ ["Direct"; "Google"; "Facebook"; "Twitter";
                               "LinkedIn"; "Other"]).
    by apply NoDup_submseteq.
  - apply (StronglySorted_fmap _ more_visits).
    + intros [k1 n1] [k2 n2] Hle. unfold more_visits in Hle. cbn in *.
      exists (Z.of_nat n1), (Z.of_nat n2). rewrite !parseInt_decode. split_and!; try done. lia.
    + apply StronglySorted_merge_sort; apply _.
Qed.

End DomainTraffic.

(** ** Logged events *)

Section LoggedEvents.

Import MonitorRouter MonitorTraffic.

Lemma dateFilter_le_now (period : option string) (now : Z) : dateFilter period now ≤ now.
Proof. unfold dateFilter. repeat case_match; lia. Qed.

(** A log request that goes through appends one row and nothing else. *)
Lemma post_log_success userId eventType data websiteId domainId ref now w :
  is_success (post_log userId eventType data websiteId domainId ref now w).1 →
  ∃ ty, or_null eventType = Some ty
        ∧ userId ∈ users.id <$> t_users (db w)
        ∧ (∀ d, or_null domainId = Some d → d ∈ domains.id <$> t_domains (db w))
        ∧ (post_log userId eventType data websiteId domainId ref now w).2
          = with_analytics
              (t_analytics (db w)
                 ++ [ {| analytics.user_id := userId;
                         analytics.website_id := or_null websiteId;
                         analytics.domain_id := or_null domainId;
                         analytics.event_type := ty;
                         analytics.event_data := data;
                         analytics.referrer := ref;
                         analytics.created_at := now |} ])%list w.
Proof.
  unfold post_log. destruct (or_null eventType) as [ty|]; [|by intros (? & ? & ? & ?)].
  destruct (bool_decide (userId ∈ _)) eqn:Hu; [|by intros (? & ? & ? & ?)].
  destruct (bool_decide (or_null websiteId = None)); [|by intros (? & ? & ? & ?)].
  cbn [andb]. intros Hok. exists ty.
  apply bool_decide_eq_true in Hu.
  destruct (or_null domainId) as [d|] eqn:Hd.
  - destruct (bool_decide (d ∈ _)) eqn:Hin; [|by destruct Hok as (? & ? & ? & ?)].
    apply bool_decide_eq_true in Hin. split_and!; try done. by intros ? [= <-].
  - by split_and!.
Qed.

(** X15. An event that is logged is counted at once, and for its user
    alone: in the report of the user, taken at the instant of the log
    for any period, the total of the type of the event is one more than
    it was and the totals of the other types are what they were, and the
    events of every other user are what they were. *)
Theorem logged_event_is_counted
    (env : Env) (userId : string) (eventType : option string) (data : string)
    (websiteId domainId ref : option string) (now : Z) (w : World) :
  is_success (post_log userId eventType data websiteId domainId ref now w).1 →
  let w' := (post_log userId eventType data websiteId domainId ref now w).2 in
  ∃ ty, or_null eventType = Some ty
        ∧ ∀ period : option string,
            (∀ ty', total (count <$> dailyResult env userId period now ty' w')
                    = Some (Z.of_nat (length (events_of userId period now ty' w))
                            + (if decide (ty' = ty) then 1 else 0)))
            ∧ (∀ other ty', other ≠ userId →
                 events_of other period now ty' w' = events_of other period now ty' w).
Proof.
  intros Hok w'. subst w'.
  destruct (post_log_success _ _ _ _ _ _ _ _ Hok) as (ty & Hty & _ & _ & ->).
  exists ty. split; [done|]. intros period.
  pose proof (dateFilter_le_now period now) as Hnow. split.
  - intros ty'. rewrite dailyResult_total. f_equal.
    unfold events_of. cbn [db with_analytics t_analytics].
    rewrite filter_app, length_app, filter_cons, filter_nil.
    cbn [analytics.user_id analytics.created_at analytics.event_type].
    destruct (decide (ty' = ty)) as [->|Hne].
    + rewrite decide_True by done. simpl. lia.
    + rewrite decide_False by (intros (_ & _ & ?); congruence). simpl. lia.
  - intros other ty' Hother. unfold events_of. cbn [db with_analytics t_analytics].
    rewrite filter_app, filter_cons, filter_nil.
    cbn [analytics.user_id]. rewrite decide_False by (intros (? & _); congruence).
    by rewrite app_nil_r.
Qed.

Lemma logged_event_is_counted_witness :
  let w := four_events in
  let w' := (post_log "u1" (Some "error") "{}" None (Some "d1") None 2000 w).2 in
  is_success (post_log "u1" (Some "error") "{}" None (Some "d1") None 2000 w).1
  ∧ total (count <$> dailyResult default_env "u1" (Some "24h") 2000 "error" w') = Some 2
  ∧ total (count <$> dailyResult default_env "u1" (Some "24h") 2000 "page_view" w')
    = Some 3.
Proof.
  intros w w'.
  assert (Hok : is_success
                  (post_log "u1" (Some "error") "{}" None (Some "d1") None 2000 w).1)
    by (vm_compute; eexists _, _; split; [reflexivity | by left]).
  split; [exact Hok|].
  destruct (logged_event_is_counted default_env "u1" (Some "error") "{}" None
              (Some "d1") None 2000 w Hok) as (ty & [= <-] & Hcount).
  destruct (Hcount (Some "24h")) as [Hty _].
  split; [exact (Hty "error") | exact (Hty "page_view")].
Defined.



End LoggedEvents.

(** ** After a deletion *)

Section Deletions.

Import DomainsRouter UsersRouter.

(** X17. A domain that its owner deleted is gone for the owner: the DNS
    page, the statistics, a verification and an update of it all answer
    not found, its events went with it, and the users, the files and
    the upload directory are what they were. *)
Theorem deleted_domain_is_gone (env : Env) (userId did : string) (w : World) :
  is_success (delete_domain userId did w).1 →
  let w' := (delete_domain userId did w).2 in
  DomainsDns.get_dns env userId did w' = Error 404 "Domain not found"
  ∧ (∀ period now,
       MonitorRouter.get_domain_stats env userId did period now w'
       = Error 404 "Domain not found")
  ∧ (∀ random now, post_verify userId did random now w'
                   = (Error 404 "Domain not found", w'))
  ∧ (∀ autoRenew now, put_domain userId did autoRenew [] now w'
                      = (Error 404 "Domain not found", w'))
  ∧ (∀ period now, domain_events did period now w' = [])
  ∧ t_users (db w') = t_users (db w)
  ∧ t_files (db w') = t_files (db w)
  ∧ disk w' = disk w.
Proof.
  intros Hok w'. subst w'. unfold delete_domain in *.
  destruct (filter (λ d, domains.id d = did ∧ domains.user_id d = userId)
              (t_domains (db w))) as [|d0 rest]; [by destruct Hok as (? & ? & ? & ?)|].
  cbn [snd]. clear Hok.
  set (w' := with_analytics _ _).
  assert (Hnone : filter (λ d, domains.id d = did ∧ domains.user_id d = userId)
                         (t_domains (db w')) = []).
  { subst w'. cbn [db with_analytics with_domains t_domains].
    apply filter_none. intros d Hd Hhit.
    by apply list_elem_of_filter in Hd as [Hno _]. }
  split_and!; try done.
  - unfold DomainsDns.get_dns. by rewrite Hnone.
  - intros period now. unfold MonitorRouter.get_domain_stats. by rewrite Hnone.
  - intros random now. unfold post_verify. by rewrite Hnone.
  - intros autoRenew now. unfold put_domain.
    rewrite (filter_none (λ d, bool_decide (domains.id d = did ∧ domains.user_id d = userId)
                               = true)); [done|].
    intros d Hd Hhit. apply bool_decide_eq_true in Hhit.
    assert (Hin : d ∈ filter (λ d, domains.id d = did ∧ domains.user_id d = userId)
                             (t_domains (db w'))) by by apply list_elem_of_filter.
    rewrite Hnone in Hin. by apply elem_of_nil in Hin.
  - intros period now. unfold domain_events. subst w'.
    cbn [db with_analytics t_analytics].
    apply filter_none. intros e He [Hdom _].
    by apply list_elem_of_filter in He as [Hne _].
Qed.

Lemma deleted_domain_is_gone_witness :
  let w' := (delete_domain "u1" "d1" four_events).2 in
  is_success (delete_domain "u1" "d1" four_events).1
  ∧ domain_events "d1" (Some "24h") 2000 four_events ≠ []
  ∧ domain_events "d1" (Some "24h") 2000 w' = []
  ∧ DomainsDns.get_dns default_env "u1" "d1" w' = Error 404 "Domain not found".
Proof.
  intros w'.
  assert (Hok : is_success (delete_domain "u1" "d1" four_events).1)
    by (vm_compute; eexists _, _; split; [reflexivity | by left]).
  destruct (deleted_domain_is_gone default_env "u1" "d1" four_events Hok)
    as (Hdns & _ & _ & _ & Hev & _).
  split_and!; [done | by vm_compute | apply Hev | exact Hdns].
Defined.

(** X18. An account that is deleted takes its rows with it and leaves its
    bytes: no row of the user is left in any table, the rows of the
    other users in the users and files tables are what they were, and
    the upload directory is what it was, the files of the user
    included. *)
Theorem deleted_account_leaves_bytes
    (userId : string) (isValidPassword : bool) (errors : list string) (w : World) :
  is_success (delete_account userId isValidPassword errors w).1 →
  let w' := (delete_account userId isValidPassword errors w).2 in
  filter (λ u, users.id u = userId) (t_users (db w')) = []
  ∧ filter (λ d, domains.user_id d = userId) (t_domains (db w')) = []
  ∧ filter (λ f, files.user_id f = userId) (t_files (db w')) = []
  ∧ filter (λ e, analytics.user_id e = userId) (t_analytics (db w')) = []
  ∧ filter (λ u, users.id u ≠ userId) (t_users (db w'))
    = filter (λ u, users.id u ≠ userId) (t_users (db w))
  ∧ filter (λ f, files.user_id f ≠ userId) (t_files (db w'))
    = filter (λ f, files.user_id f ≠ userId) (t_files (db w))
  ∧ disk w' = disk w
  ∧ (∀ f, f ∈ t_files (db w) → files.user_id f = userId →
          files.file_path f ∈ disk w → files.file_path f ∈ disk w').
Proof.
  intros Hok w'. subst w'. unfold delete_account in *.
  destruct errors; [|by destruct Hok as (? & ? & ? & ?)].
  destruct (filter _ (t_users (db w))); [by destruct Hok as (? & ? & ? & ?)|].
  destruct isValidPassword; [|by destruct Hok as (? & ? & ? & ?)].
  cbn [snd cascade_delete_user db t_users t_domains t_files t_analytics disk].
  split_and!; try done.
  - apply filter_none. intros u Hu Hid. by apply list_elem_of_filter in Hu as [Hne _].
  - apply filter_none. intros d Hd Hid. by apply list_elem_of_filter in Hd as [Hne _].
  - apply filter_none. intros f Hf Hid. by apply list_elem_of_filter in Hf as [Hne _].
  - apply filter_none. intros e He Hid. by apply list_elem_of_filter in He as [[Hne _] _].
  - apply filter_filter_others. auto.
  - apply filter_filter_others. auto.
Qed.

Lemma deleted_account_leaves_bytes_witness :
  let w' := (delete_account "u1" true [] one_public_file).2 in
  is_success (delete_account "u1" true [] one_public_file).1
  ∧ t_files (db w') = []
  ∧ disk w' = ["uploads/u1/file-1700000000000-1.txt"].
Proof.
  intros w'.
  assert (Hok : is_success (delete_account "u1" true [] one_public_file).1)
    by (vm_compute; eexists _, _; split; [reflexivity | by left]).
  destruct (deleted_account_leaves_bytes "u1" true [] one_public_file Hok)
    as (_ & _ & _ & _ & _ & _ & Hdisk & _).
  split_and!; [done | by vm_compute |].
  transitivity (disk one_public_file); [exact Hdisk | by vm_compute].
Defined.

(** X19. A profile update keeps the e-mail addresses distinct: on a users
    table with distinct identifiers and distinct addresses, whatever the
    outcome, the addresses are distinct afterwards, and the identifiers,
    the plans and the quotas are what they were. *)
Theorem put_profile_keeps_emails_distinct
    (userId : string) (firstName lastName email : option string)
    (errors : list string) (w : World) :
  NoDup (users.id <$> t_users (db w)) →
  NoDup (users.email <$> t_users (db w)) →
  let w' := (put_profile userId firstName lastName email errors w).2 in
  NoDup (users.email <$> t_users (db w'))
  ∧ Forall2 (λ u u', users.id u' = users.id u
                     ∧ users.plan_type u' = users.plan_type u
                     ∧ users.storage_quota u' = users.storage_quota u
                     ∧ users.domain_quota u' = users.domain_quota u
                     ∧ (users.id u ≠ userId → u' = u))
            (t_users (db w)) (t_users (db w')).
Proof.
  intros Hids Hemails w'. subst w'.
  assert (Hsame : Forall2 (λ u u', users.id u' = users.id u
                     ∧ users.plan_type u' = users.plan_type u
                     ∧ users.storage_quota u' = users.storage_quota u
                     ∧ users.domain_quota u' = users.domain_quota u
                     ∧ (users.id u ≠ userId → u' = u))
            (t_users (db w)) (t_users (db w))).
  { apply Forall_Forall2_diag, Forall_forall. intros; split_and!; done. }
  assert (Hkeep : ∀ fields u,
             let u' := foldl apply_field u fields in
             users.id u' = users.id u
             ∧ users.plan_type u' = users.plan_type u
             ∧ users.storage_quota u' = users.storage_quota u
             ∧ users.domain_quota u' = users.domain_quota u).
  { induction fields as [|x fields IH]; intros u; [done|]. cbn.
    destruct (IH (apply_field u x)) as (-> & -> & -> & ->). by destruct x. }
  unfold put_profile. destruct errors; [|done].
  destruct email as [e|].
  - case_bool_decide as Htaken; [done|].
    destruct (updateFields firstName lastName (Some e)) as [|x fields] eqn:Hfields;
      [done|].
    destruct (_ <$> filter _ _); [done|]. cbn [snd db with_users t_users].
    assert (Hnew : ∀ u, users.email (foldl apply_field u (x :: fields)) = e).
    { intros u. rewrite <- Hfields. unfold updateFields.
      by destruct firstName, lastName. }
    split.
    + clear Hsame. revert Hids Hemails Htaken.
      generalize (t_users (db w)) as us.
      induction us as [|u us IH]; intros Hids Hemails Htaken; [done|].
      rewrite !fmap_cons in *. apply NoDup_cons in Hids as [Hid Hids].
      apply NoDup_cons in Hemails as [Hem Hemails].
      rewrite Exists_cons in Htaken.
      apply NoDup_cons. split; [|apply IH; tauto].
      intros Hin. apply list_elem_of_fmap in Hin as (v' & Hv' & Hin).
      apply list_elem_of_fmap in Hin as (v & -> & Hv).
      destruct (decide (users.id u = userId)) as [Hu|Hu];
        destruct (decide (users.id v = userId)) as [Hvid|Hvid].
      * apply Hid. rewrite Hu, <- Hvid. by apply list_elem_of_fmap_2.
      * rewrite Hnew in Hv'. apply Htaken. right. apply Exists_exists.
        exists v. by split_and!.
      * rewrite Hnew in Hv'. apply Htaken. left. by split.
      * apply Hem. rewrite Hv'. by apply list_elem_of_fmap_2.
    + apply Forall2_fmap_r, Forall_Forall2_diag, Forall_forall.
      intros u _. unfold compose. cbv beta. case_decide as Hu; [|by split_and!].
      destruct (Hkeep (x :: fields) u) as (? & ? & ? & ?). by split_and!.
  - cbn [negb].
    destruct (updateFields firstName lastName None) as [|x fields] eqn:Hfields; [done|].
    destruct (_ <$> filter _ _); [done|]. cbn [snd db with_users t_users].
    assert (Hold : ∀ u, users.email (foldl apply_field u (x :: fields)) = users.email u).
    { intros u. rewrite <- Hfields. unfold updateFields.
      by destruct firstName, lastName. }
    split.
    + rewrite <- list_fmap_compose.
      rewrite (list_fmap_ext _ users.email); [done|].
      intros ? u _. unfold compose. case_decide; [apply Hold | done].
    + apply Forall2_fmap_r, Forall_Forall2_diag, Forall_forall.
      intros u _. unfold compose. cbv beta. case_decide as Hu; [|by split_and!].
      destruct (Hkeep (x :: fields) u) as (? & ? & ? & ?). by split_and!.
Qed.

Lemma put_profile_keeps_emails_distinct_witness :
  let w' := (put_profile "u2" None None (Some "first@example.org") [] two_newcomers).2 in
  let w'' := (put_profile "u2" (Some "Ada") None (Some "ada@example.org") []
                two_newcomers).2 in
  NoDup (users.id <$> t_users (db two_newcomers))
  ∧ NoDup (users.email <$> t_users (db two_newcomers))
  ∧ NoDup (users.email <$> t_users (db w'))
  ∧ users.email <$> t_users (db w'') = ["first@example.org"; "ada@example.org"]
  ∧ NoDup (users.email <$> t_users (db w'')).
Proof.
  intros w' w''.
  assert (Hids : NoDup (users.id <$> t_users (db two_newcomers)))
    by (apply (bool_decide_unpack _); by vm_compute).
  assert (Hemails : NoDup (users.email <$> t_users (db two_newcomers)))
    by (apply (bool_decide_unpack _); by vm_compute).
  split_and!; [done | done | | by vm_compute |].
  - apply (put_profile_keeps_emails_distinct "u2" None None (Some "first@example.org") []
             two_newcomers Hids Hemails).
  - apply (put_profile_keeps_emails_distinct "u2" (Some "Ada") None
             (Some "ada@example.org") [] two_newcomers Hids Hemails).
Defined.

End Deletions.

(** ** The uptime in words *)

Section Uptime.

Import MonitorTraffic.

Lemma Qfloor_unique (x : Q) (z : Z) :
  (inject_Z z <= x)%Q → (x < inject_Z (z + 1))%Q → Qfloor x = z.
Proof.
  intros Hlo Hhi.
  pose proof (Qfloor_resp_le _ _ Hlo) as H1. rewrite Qfloor_Z in H1.
  pose proof (Qfloor_le x) as H2.
  assert (H3 : (inject_Z (Qfloor x) < inject_Z (z + 1))%Q) by (eapply Qle_lt_trans; eauto).
  rewrite <- Zlt_Qlt in H3. lia.
Qed.

Lemma inject_Z_sub (a b : Z) : (inject_Z (a - b) == inject_Z a - inject_Z b)%Q.
Proof. unfold Z.sub, Qminus. by rewrite inject_Z_plus, inject_Z_opp. Qed.

Lemma Qfloor_minus_Z (x : Q) (k : Z) : Qfloor (x - inject_Z k) = Qfloor x - k.
Proof.
  apply Qfloor_unique.
  - rewrite inject_Z_sub. pose proof (Qfloor_le x). lra.
  - replace (Qfloor x - k + 1) with (Qfloor x + 1 - k) by lia.
    rewrite inject_Z_sub. pose proof (Qlt_floor x). lra.
Qed.

Lemma Qfloor_div_pos (x : Q) (n : positive) :
  Qfloor (x / inject_Z (Zpos n)) = Qfloor x / Zpos n.
Proof.
  destruct x as [a b].
  assert (Heq : ((a # b) / inject_Z (Zpos n) == a # (b * n))%Q).
  { unfold Qeq, Qdiv, Qmult, Qinv, inject_Z. simpl. lia. }
  rewrite (Qfloor_comp _ _ Heq). unfold Qfloor.
  rewrite Pos2Z.inj_mul, Z.div_div by lia. done.
Qed.

Lemma trunc_nonneg (x : Q) : (0 <= x)%Q → trunc x = Qfloor x.
Proof.
  intros Hx. unfold trunc. by rewrite (proj2 (Qle_bool_iff 0 x) Hx).
Qed.

(** The parts of [formatUptime] on a time that is not negative, from
    its whole seconds. *)
Lemma uptime_parts (seconds : Q) (m : positive) :
  (0 <= seconds)%Q →
  Qfloor (seconds / inject_Z (Zpos m)) = Qfloor seconds / Zpos m
  ∧ ∀ n : positive,
      Qfloor (remainder seconds (Zpos m) / inject_Z (Zpos n))
      = (Qfloor seconds mod Zpos m) / Zpos n.
Proof.
  intros Hpos. split; [apply Qfloor_div_pos|]. intros n.
  unfold remainder. rewrite trunc_nonneg.
  - rewrite !Qfloor_div_pos, Qfloor_minus_Z. f_equal.
    rewrite Z.mod_eq by lia. done.
  - apply Qle_shift_div_l; [done | lra].
Qed.

(** X20. [formatUptime] splits a time that is not negative into whole days,
    hours below 24 and minutes below 60 that account for the time up to
    the last, unfinished minute; it writes the days only when there are
    some, and without days the hours only when there are some. *)
Theorem uptime_splits_seconds (seconds : Q) :
  (0 <= seconds)%Q →
  ∃ d h m : Z,
    0 ≤ d ∧ 0 ≤ h < 24 ∧ 0 ≤ m < 60
    ∧ (inject_Z (86400 * d + 3600 * h + 60 * m) <= seconds)%Q
    ∧ (seconds < inject_Z (86400 * d + 3600 * h + 60 * m + 60))%Q
    ∧ formatUptime seconds
      = if d >? 0 then
          Js.string_of_Z d ++ "d " ++ Js.string_of_Z h ++ "h " ++ Js.string_of_Z m ++ "m"
        else if h >? 0 then Js.string_of_Z h ++ "h " ++ Js.string_of_Z m ++ "m"
        else Js.string_of_Z m ++ "m".
Proof.
  intros Hpos.
  destruct (uptime_parts seconds 86400 Hpos) as [Hd Hh].
  destruct (uptime_parts seconds 3600 Hpos) as [_ Hm].
  specialize (Hh 3600%positive). specialize (Hm 60%positive).
  set (s := Qfloor seconds) in *.
  assert (Hs : 0 ≤ s).
  { exact (Qfloor_resp_le _ _ Hpos). }
  exists (s / 86400), ((s mod 86400) / 3600), ((s mod 3600) / 60).
  assert (Hsum : 86400 * (s / 86400) + 3600 * ((s mod 86400) / 3600)
                 + 60 * ((s mod 3600) / 60) ≤ s
                 ∧ s + 1 ≤ 86400 * (s / 86400) + 3600 * ((s mod 86400) / 3600)
                         + 60 * ((s mod 3600) / 60) + 60).
  { Z.div_mod_to_equations. lia. }
  split_and!.
  - Z.div_mod_to_equations. lia.
  - Z.div_mod_to_equations. lia.
  - Z.div_mod_to_equations. lia.
  - Z.div_mod_to_equations. lia.
  - Z.div_mod_to_equations. lia.
  - eapply Qle_trans; [|apply (Qfloor_le seconds)].
    rewrite <- Zle_Qle. apply Hsum.
  - eapply Qlt_le_trans; [apply (Qlt_floor seconds)|].
    rewrite <- Zle_Qle. apply Hsum.
  - unfold formatUptime.
    change (86400%Q) with (inject_Z 86400). change (3600%Q) with (inject_Z 3600).
    change (60%Q) with (inject_Z 60).
    by rewrite Hd, Hh, Hm.
Qed.

Lemma uptime_splits_seconds_witness :
  (0 <= 183845 # 2)%Q
  ∧ formatUptime (183845 # 2) = "1d 1h 32m"
  ∧ ∃ d h m : Z,
      0 ≤ d ∧ 0 ≤ h < 24 ∧ 0 ≤ m < 60
      ∧ (inject_Z (86400 * d + 3600 * h + 60 * m) <= 183845 # 2)%Q
      ∧ (183845 # 2 < inject_Z (86400 * d + 3600 * h + 60 * m + 60))%Q
      ∧ formatUptime (183845 # 2)
        = if d >? 0 then
            Js.string_of_Z d ++ "d " ++ Js.string_of_Z h ++ "h "
              ++ Js.string_of_Z m ++ "m"
          else if h >? 0 then Js.string_of_Z h ++ "h " ++ Js.string_of_Z m ++ "m"
          else Js.string_of_Z m ++ "m".
Proof.
  split_and!; [done | by vm_compute |].
  apply uptime_splits_seconds. done.
Defined.

End Uptime.

(** ** The files table along a run *)

Section FilesTable.

Import FilesRouter.

Lemma upload_accepted_part env userId p pub errors newId w :
  is_success (upload env userId p pub errors newId w).1 →
  fileFilter (part_mimetype p) = true ∧ Z.of_N (part_size p) ≤ fileSize env.
Proof.
  unfold upload, upload_single.
  destruct (fileFilter (part_mimetype p)); [|by intros (c & b & [=] & _)].
  cbn [negb].
  destruct (Z.gtb_spec (Z.of_N (part_size p)) (fileSize env));
    [by intros (c & b & [=] & _)|].
  intros _. split; [done | lia].
Qed.

Lemma upload_files_or_not env userId p pub errors newId w :
  t_files (db (upload env userId p pub errors newId w).2) = t_files (db w)
  ∨ is_success (upload env userId p pub errors newId w).1.
Proof.
  unfold upload.
  destruct (upload_single env userId p w) as [msg|[f w1]] eqn:Hs; [by left|].
  apply upload_single_inr in Hs as (Hdb & _ & _).
  unfold post_upload, upload_failed.
  destruct errors; [|left; cbn; by rewrite Hdb].
  destruct (select_quota env userId (db w1)); [left; cbn; by rewrite Hdb|].
  destruct (Js.gt _ _).
  { destruct (fs.unlink _ _); left; cbn; by rewrite Hdb. }
  destruct (insert_file _ _); [|left; cbn; by rewrite Hdb].
  right. eexists _, _. split; [reflexivity | by right].
Qed.

Lemma foldl_apply_field_columns (f : files.row) (fields : list FileField) :
  let f' := foldl apply_field f fields in
  files.id f' = files.id f
  ∧ files.user_id f' = files.user_id f
  ∧ files.stored_name f' = files.stored_name f
  ∧ files.file_path f' = files.file_path f
  ∧ files.file_size f' = files.file_size f
  ∧ files.mime_type f' = files.mime_type f
  ∧ files.download_count f' = files.download_count f.
Proof.
  revert f. induction fields as [|x fields IH]; intros f; [done|]. cbn.
  destruct (IH (apply_field f x)) as (-> & -> & -> & -> & -> & -> & ->).
  by destruct x.
Qed.

Lemma stored_file_columns env (f f' : files.row) :
  files.user_id f' = files.user_id f →
  files.stored_name f' = files.stored_name f →
  files.file_path f' = files.file_path f →
  files.file_size f' = files.file_size f →
  files.mime_type f' = files.mime_type f →
  files.download_count f' = files.download_count f →
  stored_file env f → stored_file env f'.
Proof.
  intros Hu Hn Hp Hs Hm Hc [? ? ? ?]. split; by rewrite ?Hu, ?Hn, ?Hp, ?Hs, ?Hm, ?Hc.
Qed.

Lemma Forall_filter_keeps {A} (P : A → Prop) (Q : A → Prop) `{∀ x, Decision (Q x)}
    (l : list A) :
  Forall P l → Forall P (filter Q l).
Proof.
  rewrite !Forall_forall. intros Hall x Hx.
  apply list_elem_of_filter in Hx as [_ Hx]. by apply Hall.
Qed.

Lemma step_files_table (env : Env) (w : World) (op : Op) :
  NoDup (files.id <$> t_files (db w)) ∧ Forall (stored_file env) (t_files (db w)) →
  NoDup (files.id <$> t_files (db (step env w op)))
  ∧ Forall (stored_file env) (t_files (db (step env w op))).
Proof.
  intros [Hnd Hall].
  destruct op as [email newId|userId p pub errors newId|userId fid
                  |userId fid pub nm errors|userId fid
                  |userId domainName autoRenew errors tok newId now
                  |userId did random now|userId did autoRenew errors now|userId did
                  |userId fn ln em errors|userId planType errors
                  |userId ok errors|userId ty data ws d ref now]; cbn [step].
  - unfold UsersRouter.signup. by case_bool_decide.
  - destruct (upload_files_or_not env userId p pub errors newId w) as [->|Hok];
      [done|].
    destruct (upload_accepted_part _ _ _ _ _ _ _ Hok) as [Hty Hsz].
    destruct (upload_success _ _ _ _ _ _ _ Hok)
      as (f & r & -> & Hfresh & _ & _ & Hpath & Hr). split.
    + rewrite fmap_app. apply NoDup_app. split_and!; [done| |apply NoDup_singleton].
      intros i Hi Hi'. apply list_elem_of_singleton in Hi' as ->.
      by rewrite Hr in Hi.
    + apply Forall_app. split; [done|]. apply Forall_singleton.
      rewrite Hr, Hpath. split; cbn; first [done | lia | (unfold int4_max; lia)].
  - unfold get_download. destruct (filter _ _) as [|file rest]; [done|].
    destruct (_ && _); [done|]. destruct (negb _); [done|].
    unfold increment_download_count. case_bool_decide as Hbig; [done|].
    cbn [snd db with_files t_files]. split.
    + assert (Hsame : files.id <$> ((λ f, if decide (files.id f = fid) then bump f else f)
                                      <$> t_files (db w)) = files.id <$> t_files (db w));
        [|by rewrite Hsame].
      rewrite <- list_fmap_compose. apply list_fmap_ext. intros ? f _.
      unfold compose. by case_decide.
    + apply Forall_fmap, Forall_forall. intros f Hf. unfold compose.
      rewrite Forall_forall in Hall. specialize (Hall f Hf).
      case_decide as Hid; [|done].
      destruct Hall as [? ? ? [? ?]]. split; cbn; try done. split; [lia|].
      destruct (decide (files.download_count f + 1 ≤ int4_max)); [done|].
      exfalso. apply Hbig, Exists_exists. exists f. split_and!; [done | done | lia].
  - unfold put_file. destruct errors; [|done].
    destruct (updateFields pub nm) as [|x fields]; [done|].
    destruct (_ <$> filter _ _); [done|]. cbn [snd db with_files t_files]. split.
    + assert (Hsame : files.id <$> ((λ f, if bool_decide (files.id f = fid
                                                          ∧ files.user_id f = userId)
                                          then foldl apply_field f (x :: fields) else f)
                                      <$> t_files (db w)) = files.id <$> t_files (db w));
        [|by rewrite Hsame].
      rewrite <- list_fmap_compose. apply list_fmap_ext. intros ? f _.
      unfold compose. case_bool_decide; [|done].
      apply (foldl_apply_field_columns f (x :: fields)).
    + apply Forall_fmap, Forall_forall. intros f Hf. unfold compose.
      rewrite Forall_forall in Hall. specialize (Hall f Hf).
      case_bool_decide; [|done].
      destruct (foldl_apply_field_columns f (x :: fields)) as (_ & ? & ? & ? & ? & ? & ?).
      by apply (stored_file_columns env f).
  - unfold delete_file. destruct (filter _ _); [done|].
    cbn [snd db with_files with_disk t_files]. split.
    + assert (Hsub : files.id <$> filter (λ f, ¬ (files.id f = fid ∧ files.user_id f = userId))
                                    (t_files (db w))
                       `sublist_of` files.id <$> t_files (db w))
        by apply fmap_sublist, sublist_filter.
      exact (sublist_NoDup _ _ Hnd Hsub).
    + by apply Forall_filter_keeps.
  - by destruct (post_domain_ledger env userId domainName autoRenew errors
                   tok newId now w) as [_ ->].
  - by destruct (post_verify_ledger userId did random now w) as [_ ->].
  - by destruct (put_domain_ledger userId did autoRenew errors now w) as [_ ->].
  - by destruct (delete_domain_ledger userId did w) as [_ ->].
  - unfold UsersRouter.put_profile. by repeat (case_match; simpl).
  - unfold UsersRouter.post_upgrade. by repeat (case_match; simpl).
  - unfold UsersRouter.delete_account. destruct errors; [|done].
    destruct (filter _ _); [done|]. destruct ok; [|done].
    cbn [snd UsersRouter.cascade_delete_user db t_files]. split.
    + assert (Hsub : files.id <$> filter (λ f, files.user_id f ≠ userId) (t_files (db w))
                       `sublist_of` files.id <$> t_files (db w))
        by apply fmap_sublist, sublist_filter.
      exact (sublist_NoDup _ _ Hnd Hsub).
    + by apply Forall_filter_keeps.
  - by destruct (post_log_ledger userId ty data ws d ref now w) as [_ ->].
Qed.

Lemma run_files_table (env : Env) (ops : list Op) :
  NoDup (files.id <$> t_files (db (run env ops empty_world)))
  ∧ Forall (stored_file env) (t_files (db (run env ops empty_world))).
Proof.
  induction ops as [|op ops IH] using rev_ind.
  - split; [apply NoDup_nil_2 | apply Forall_nil_2].
  - rewrite run_snoc. by apply step_files_table.
Qed.


End FilesTable.

Section FilesAccess.

Import FilesRouter.


Lemma file_by_id (fs : list files.row) (f f' : files.row) :
  NoDup (files.id <$> fs) → f ∈ fs → f' ∈ fs → files.id f = files.id f' → f = f'.
Proof.
  induction fs as [|x fs IH]; [by intros _ ?%elem_of_nil|].
  rewrite fmap_cons, NoDup_cons. intros [Hx Hnd] Hf Hf' Hid.
  apply elem_of_cons in Hf as [->|Hf]; apply elem_of_cons in Hf' as [->|Hf']; auto.
  - exfalso. apply Hx. rewrite Hid. by apply list_elem_of_fmap_2.
  - exfalso. apply Hx. rewrite <- Hid. by apply list_elem_of_fmap_2.
Qed.

(** X22. The public flag decides what a stranger gets.  After any requests
    served one at a time, once the owner of a file has set the flag
    with an update that went through, the download of the file by
    another user is refused with AccessDenied exactly when the flag was
    set to false. *)
Theorem public_flag_decides_for_strangers
    (env : Env) (ops : list Op) (owner stranger fid : string) (b : bool)
    (nm : option Js.body) :
  let w := run env ops empty_world in
  is_success (put_file owner fid (Some (Js.BBool b)) nm [] w).1 →
  stranger ≠ owner →
  let w' := (put_file owner fid (Some (Js.BBool b)) nm [] w).2 in
  (get_download stranger fid w').1 = AccessDenied ↔ b = false.
Proof.
  intros w Hok Hne w'. subst w'.
  destruct (run_files_table env ops) as [Hnd _]. fold w in Hnd.
  unfold put_file in *.
  destruct (updateFields (Some (Js.BBool b)) nm) as [|x fields] eqn:Hfields;
    [by destruct Hok as (? & ? & ? & ?)|].
  assert (Hpub : ∀ f, files.is_public (foldl apply_field f (x :: fields)) = b).
  { intros f. rewrite <- Hfields. unfold updateFields.
    destruct nm as [v|]; [destruct (Js.truthy v)|]; done. }
  assert (Hcols : ∀ f, files.id (foldl apply_field f (x :: fields)) = files.id f
                       ∧ files.user_id (foldl apply_field f (x :: fields))
                         = files.user_id f).
  { intros f. by destruct (foldl_apply_field_columns f (x :: fields)) as (? & ? & _). }
  destruct (filter (λ f, bool_decide (files.id f = fid ∧ files.user_id f = owner) = true)
              (t_files (db w))) as [|r0 rest] eqn:Hrows;
    [by destruct Hok as (? & ? & ? & ?)|].
  clear Hok. rewrite fmap_cons. cbn [snd].
  assert (Hr0 : r0 ∈ filter (λ f, bool_decide (files.id f = fid ∧ files.user_id f = owner)
                                  = true) (t_files (db w))) by (rewrite Hrows; left).
  apply list_elem_of_filter in Hr0 as [Hhit Hr0]. apply bool_decide_eq_true in Hhit.
  destruct Hhit as [Hid Hown].
  set (upd := λ f, if bool_decide (files.id f = fid ∧ files.user_id f = owner)
                   then foldl apply_field f (x :: fields) else f).
  assert (Hfirst : ∀ file more,
             filter (λ f, files.id f = fid) (upd <$> t_files (db w)) = file :: more →
             files.user_id file = owner ∧ files.is_public file = b).
  { intros file more Hf.
    assert (Hin : file ∈ filter (λ f, files.id f = fid) (upd <$> t_files (db w)))
      by (rewrite Hf; left).
    apply list_elem_of_filter in Hin as [Hfid Hin].
    apply list_elem_of_fmap in Hin as (f & -> & Hin).
    assert (f = r0) as ->.
    { apply (file_by_id (t_files (db w))); try done. rewrite Hid.
      unfold upd in Hfid. case_bool_decide; [|done].
      by rewrite (proj1 (Hcols f)) in Hfid. }
    unfold upd. rewrite bool_decide_eq_true_2 by done.
    by rewrite (proj2 (Hcols r0)), Hpub. }
  unfold get_download. cbn [db with_files t_files disk]. fold upd.
  destruct (filter (λ f, files.id f = fid) (upd <$> t_files (db w)))
    as [|file more] eqn:Hf.
  { exfalso.
    assert (Hin : upd r0 ∈ filter (λ f, files.id f = fid) (upd <$> t_files (db w))).
    { apply list_elem_of_filter. split; [|by apply list_elem_of_fmap_2].
      unfold upd. rewrite bool_decide_eq_true_2 by done. by rewrite (proj1 (Hcols r0)). }
    rewrite Hf in Hin. by apply elem_of_nil in Hin. }
  destruct (Hfirst file more eq_refl) as [Hfu Hfp].
  rewrite Hfu, Hfp, bool_decide_eq_true_2 by done. cbn [andb].
  destruct b; cbn [negb]; [|done].
  split; [|done]. destruct (negb _); [done|].
  unfold increment_download_count. by case_bool_decide.
Qed.

Lemma public_flag_decides_for_strangers_witness :
  let w := run numbers_env five_bytes empty_world in
  is_success (put_file "u1" "f1" (Some (Js.BBool true)) None [] w).1
  ∧ "u2" ≠ "u1"
  ∧ (get_download "u2" "f1" w).1 = AccessDenied
  ∧ (get_download "u2" "f1"
       (put_file "u1" "f1" (Some (Js.BBool true)) None [] w).2).1 ≠ AccessDenied.
Proof.
  intros w.
  assert (Hok : is_success (put_file "u1" "f1" (Some (Js.BBool true)) None [] w).1)
    by (vm_compute; eexists _, _; split; [reflexivity | by left]).
  split_and!; [done | done | by vm_compute |].
  intros Hdenied.
  by apply (public_flag_decides_for_strangers numbers_env five_bytes "u1" "u2" "f1"
              true None Hok) in Hdenied.
Defined.

End FilesAccess.

(** ** A plan change in the reports *)

Section PlanChange.

Import UsersRouter.

(** X23. A plan change that goes through is to pro or to enterprise, and
    the other handlers see it at once: the usage report gives the
    storage of the plan as the quota and what it leaves over the bytes
    held as available, and the quota row of a registration carries the
    domains of the plan; the files, the domains and the other users are
    what they were. *)
Theorem plan_change_shows_in_reports
    (env : Env) (userId planType : string) (errors : list string) (w : World) :
  is_success (post_upgrade userId planType errors w).1 →
  let w' := (post_upgrade userId planType errors w).2 in
  ∃ storage dq,
    plans planType = Some (storage, dq)
    ∧ (planType = "pro" ∨ planType = "enterprise")
    ∧ (∃ r, FilesUsage.get_usage env userId w' = Json 200 r
            ∧ FilesUsage.storageQuota r = decode (int8 (parsers env)) storage
            ∧ FilesUsage.storageAvailable r
              = Some (storage - FilesRouter.sum_file_size userId (db w)))
    ∧ (∃ q qs, DomainsRouter.select_quota env userId (db w') = q :: qs
               ∧ DomainsRouter.domain_quota q = Js.Num dq)
    ∧ t_files (db w') = t_files (db w)
    ∧ t_domains (db w') = t_domains (db w)
    ∧ filter (λ u, users.id u ≠ userId) (t_users (db w'))
      = filter (λ u, users.id u ≠ userId) (t_users (db w)).
Proof.
  intros Hok w'. subst w'. unfold post_upgrade in *.
  destruct errors; [|by destruct Hok as (? & ? & ? & ?)].
  destruct (plans planType) as [[storage dq]|] eqn:Hplan;
    [|by destruct Hok as (? & ? & ? & ?)].
  destruct (filter (λ u, users.id u = userId) (t_users (db w))) as [|u0 rest] eqn:Hrows;
    [by destruct Hok as (? & ? & ? & ?)|].
  clear Hok. rewrite fmap_cons. cbn [snd].
  set (upd := λ u, if decide (users.id u = userId)
                   then with_plan planType storage dq u else u).
  assert (Hmine : filter (λ u, users.id u = userId) (upd <$> t_users (db w))
                  = with_plan planType storage dq <$> (u0 :: rest)).
  { rewrite <- Hrows. generalize (t_users (db w)) as us.
    induction us as [|u us IH]; [done|].
    rewrite fmap_cons, (filter_cons _ u us), (filter_cons _ (upd u)).
    assert (Hid : users.id (upd u) = users.id u) by (unfold upd; by case_decide).
    rewrite Hid. destruct (decide (users.id u = userId)) as [Hu|Hu]; [|done].
    rewrite fmap_cons, IH. f_equal. unfold upd. by rewrite decide_True. }
  exists storage, dq. split_and!; try done.
  - unfold plans in Hplan. repeat case_decide; auto. done.
  - unfold FilesUsage.get_usage. cbn [db with_users t_users]. rewrite Hmine, fmap_cons.
    eexists. split; [reflexivity|].
    cbn [FilesUsage.storageQuota FilesUsage.storageAvailable with_plan
         users.storage_quota FilesUsage.select_stats FilesUsage.total_size].
    split; [done|]. by rewrite ToNumber_decode, parseInt_decode.
  - unfold DomainsRouter.select_quota. cbn [db with_users t_users].
    rewrite Hmine, !fmap_cons. by eexists _, _.
  - cbn [db with_users t_users]. apply filter_fmap_others.
    + intros u _ Hne. unfold upd. by rewrite decide_False.
    + intros u _ Hne. unfold upd. case_decide; [|done]. cbn. tauto.
Qed.

Lemma plan_change_shows_in_reports_witness :
  let w := run numbers_env five_bytes empty_world in
  let w' := (post_upgrade "u1" "pro" [] w).2 in
  is_success (post_upgrade "u1" "pro" [] w).1
  ∧ ∃ r, FilesUsage.get_usage numbers_env "u1" w' = Json 200 r
         ∧ FilesUsage.storageQuota r = Js.Num 10737418240
         ∧ FilesUsage.storageAvailable r = Some 10737418235.
Proof.
  intros w w'.
  assert (Hok : is_success (post_upgrade "u1" "pro" [] w).1)
    by (vm_compute; eexists _, _; split; [reflexivity | by left]).
  split; [done|].
  destruct (plan_change_shows_in_reports numbers_env "u1" "pro" [] w Hok)
    as (storage & dq & [= <- <-] & _ & (r & Hr & Hq & Hav) & _).
  exists r. split_and!; [done | by rewrite Hq | by rewrite Hav].
Defined.

End PlanChange.

Section Periods.

Import MonitorRouter.

Lemma longer_period_counts_more_witness :
  "1y" ≠ "24h" ∧ "1y" ≠ "30d"
  ∧ get_analytics default_env "u1" (Some "1y") 2000 four_events
    = get_analytics default_env "u1" None 2000 four_events.
Proof.
  split_and!; [done | done |].
  by apply (proj2 (longer_period_counts_more default_env "u1" 2000 four_events)).
Defined.

End Periods.

(** ** Two reports of one account, and two ways to one file *)

Section Reports.

Import FilesRouter.

(** X24. The account statistics and the usage report agree.  For a user
    without a row the first answers 404 and the second 500; for a user
    with a row both answer 200 with the same quota, the same bytes
    used and available and the same percentage, whatever the client
    makes of the columns; the files count parses to the total of the
    usage report; the download total of the statistics is 0 where the
    one of the usage report is not a number; and the domains available
    are the domain quota minus the domains of the user. *)
Theorem stats_agree_with_usage (env : Env) (userId : string) (w : World) :
  (filter (λ u, users.id u = userId) (t_users (db w)) = [] →
   UsersStats.get_stats env userId w = Error 404 "User not found"
   ∧ FilesUsage.get_usage env userId w = Error 500 "Failed to get file statistics")
  ∧ (∀ u rest,
       filter (λ u, users.id u = userId) (t_users (db w)) = u :: rest →
       ∃ s r,
         UsersStats.get_stats env userId w = Json 200 s
         ∧ FilesUsage.get_usage env userId w = Json 200 r
         ∧ UsersStats.storage_quota s = FilesUsage.storageQuota r
         ∧ UsersStats.storage_used s = FilesUsage.storageUsed r
         ∧ UsersStats.storage_available s = FilesUsage.storageAvailable r
         ∧ UsersStats.storage_percentage s = FilesUsage.usagePercentage r
         ∧ Js.parseInt (UsersStats.files_count s) = FilesUsage.totalFiles r
         ∧ UsersStats.totalDownloads s = default 0 (FilesUsage.totalDownloads r)
         ∧ UsersStats.domains_available s
           = Some (users.domain_quota u - DomainsRouter.count_domains userId (db w))).
Proof.
  unfold UsersStats.get_stats, FilesUsage.get_usage. split.
  - by intros ->.
  - intros u rest ->. eexists _, _. split_and!; try reflexivity.
    cbn [UsersStats.domains_available]. by rewrite ToNumber_decode.
Qed.

Lemma stats_agree_with_usage_witness :
  ∃ s r, UsersStats.get_stats default_env "u1" one_public_file = Json 200 s
         ∧ FilesUsage.get_usage default_env "u1" one_public_file = Json 200 r
         ∧ UsersStats.storage_available s = FilesUsage.storageAvailable r
         ∧ UsersStats.domains_available s = Some 2.
Proof.
  destruct (proj2 (stats_agree_with_usage default_env "u1" one_public_file)
              {| users.id := "u1"; users.email := "owner@example.org";
                 users.first_name := None; users.last_name := None;
                 users.plan_type := "free"; users.storage_quota := 1073741824;
                 users.domain_quota := 2 |} [] eq_refl)
    as (s & r & Hs & Hr & _ & _ & Hav & _ & _ & _ & Hdom).
  exists s, r. split_and!; [done | done | done |]. by rewrite Hdom.
Defined.

(** X25. The static route does not look at the public flag.  With the
    upload directory at its default, after a successful upload the
    part is served under [/uploads/<user>/<stored name>] to whoever
    asks, public or not, and this is the public URL the reply gives for
    a public file; the download of the same file through the files
    router by another user is refused with AccessDenied unless the
    upload asked for a public file. *)
Theorem static_route_ignores_public_flag
    (env : Env) (userId stranger : string) (p : Part) (pub : option bool)
    (newId : string) (w : World) :
  or_default (UPLOAD_DIR env) "uploads" = "uploads" →
  is_success (upload env userId p pub [] newId w).1 →
  stranger ≠ userId →
  let w1 := (upload env userId p pub [] newId w).2 in
  let rest := userId ++ "/" ++ part_filename p in
  Server.static_uploads rest w1 = Some ("uploads/" ++ rest)
  ∧ (∀ c body, (upload env userId p pub [] newId w).1 = Json c body →
               publicUrl body = if default false pub then Some ("/uploads/" ++ rest)
                                else None)
  ∧ ((get_download stranger newId w1).1 = AccessDenied ↔ default false pub = false).
Proof.
  intros Hdir Hok Hne w1 rest. subst w1 rest.
  destruct (upload_success _ _ _ _ _ _ _ Hok)
    as (f & r & Hfiles & Hfresh & _ & Hdisk & Hpath & Hr).
  cbv zeta in *. set (w1 := (upload env userId p pub [] newId w).2) in *.
  assert (Hstored : path f = "uploads/" ++ userId ++ "/" ++ part_filename p).
  { rewrite Hpath. unfold destination. rewrite Hdir. reflexivity. }
  split_and!.
  - unfold Server.static_uploads. rewrite decide_True; [done|].
    rewrite Hdisk, <- Hstored. unfold fs.write. case_decide; [done | left].
  - intros c body Hreply. subst w1. clear Hfiles Hdisk.
    unfold upload, upload_single in Hreply.
    destruct (negb (fileFilter (part_mimetype p))); [done|].
    destruct (Z.of_N (part_size p) >? fileSize env); [done|].
    cbv beta iota zeta in Hreply. unfold post_upload, upload_failed in Hreply.
    destruct (select_quota _ _ _); [done|].
    destruct (Js.gt _ _); [by destruct (fs.unlink _ _)|].
    destruct (insert_file _ _); [|done].
    injection Hreply as _ <-. cbn. by destruct (default false pub).
  - assert (Hold : filter (λ f, files.id f = newId) (t_files (db w)) = []).
    { apply filter_none. intros x Hx Hid. apply Hfresh.
      rewrite <- Hid. by apply list_elem_of_fmap_2. }
    unfold get_download. rewrite Hfiles, filter_app, Hold.
    rewrite filter_cons, decide_True, filter_nil by (by rewrite Hr). cbn [app].
    assert (Hown : files.user_id r = userId) by by rewrite Hr.
    assert (Hpub : files.is_public r = default false pub) by by rewrite Hr.
    rewrite Hown, Hpub, bool_decide_eq_true_2 by done. cbn [andb].
    destruct (default false pub); cbn [negb]; [|done].
    split; [|done]. destruct (negb _); [done|].
    unfold increment_download_count. by case_bool_decide.
Qed.

Lemma static_route_ignores_public_flag_witness :
  let w := run numbers_env five_bytes empty_world in
  let w1 := (upload numbers_env "u1" one_more_byte None [] "f2" w).2 in
  or_default (UPLOAD_DIR numbers_env) "uploads" = "uploads"
  ∧ is_success (upload numbers_env "u1" one_more_byte None [] "f2" w).1
  ∧ "u2" ≠ "u1"
  ∧ Server.static_uploads "u1/file-1700000000001-2.txt" w1
    = Some "uploads/u1/file-1700000000001-2.txt"
  ∧ (get_download "u2" "f2" w1).1 = AccessDenied.
Proof.
  intros w w1.
  assert (Hok : is_success (upload numbers_env "u1" one_more_byte None [] "f2" w).1)
    by (vm_compute; eexists _, _; split; [reflexivity | by right]).
  destruct (static_route_ignores_public_flag numbers_env "u1" "u2" one_more_byte None
              "f2" w eq_refl Hok) as (Hstatic & _ & Hdenied); [done|].
  split_and!; [done | done | done | exact Hstatic | by apply Hdenied].
Defined.

End Reports.
